(** * ChaCha20 keystream engine: scalar, interleaved-4 and NEON-4 paths

    Shallow embedding of [chacha20.c] and [chacha20_simd.c].

    - A [uint32_t] is a [Z] in [0, 2^32); every operation that can leave
      that range in C is followed by [u32], its wrap-around.
    - A [uint8_t] is a [Z] in [0, 2^8); the conversion to [uint8_t] is [u8].
    - An array is a [list Z]; [a[i]] is [a !!! i] and [a[i] = v] is
      [<[i:=v]> a].  C leaves accesses outside an array undefined; here a
      read outside yields 0 and a write outside does nothing.
    - An array that a function fills through a pointer is an argument and
      a result: [chacha20_block out input] is what [out] holds after the
      call.  A local array that C leaves uninitialized starts as zeros; the
      code overwrites it before it reads it.
    - The buffers behind [out] and [in] are two lists: the caller passes
      buffers that do not overlap.
    - [size_t] lengths and offsets index lists and are [nat]: they are
      bounded by the length of a buffer, so they never wrap.
    - A [while] loop runs on fuel and returns [None] when the fuel runs
      out before its condition turns false. *)

From Stdlib Require Import ZArith Lia ZifyNat String Ascii.
From stdpp Require Import base tactics option list.

Local Open Scope Z_scope.

(** ** Machine integers and control structure *)

Definition u8 (x : Z) : Z := x mod 2 ^ 8.
Definition u32 (x : Z) : Z := x mod 2 ^ 32.

(** [for (i = 0; i < n; i++) body(i)] on a state [s]. *)
Definition for_loop {S : Type} (n : nat) (body : nat → S → S) (s : S) : S :=
  foldl (λ s i, body i s) s (seq 0 n).

(** [while (cond) body]: [None] when [fuel] iterations do not reach the exit. *)
Fixpoint while {S : Type} (fuel : nat) (cond : S → bool) (body : S → S)
    (s : S) : option S :=
  if cond s then
    match fuel with
    | O => None
    | S fuel' => while fuel' cond body (body s)
    end
  else Some s.

(** The bytes of a C string literal. *)
Definition cstr (s : string) : list Z :=
  (λ c, Z.of_N (N_of_ascii c)) <$> list_ascii_of_string s.

(** The sixteen locals [x0 .. x15] of the block function. *)
Record regs (W : Type) : Type := Regs {
  x0 : W; x1 : W; x2 : W; x3 : W;
  x4 : W; x5 : W; x6 : W; x7 : W;
  x8 : W; x9 : W; x10 : W; x11 : W;
  x12 : W; x13 : W; x14 : W; x15 : W
}.
Arguments Regs {W}.
Arguments x0 {W}. Arguments x1 {W}. Arguments x2 {W}. Arguments x3 {W}.
Arguments x4 {W}. Arguments x5 {W}. Arguments x6 {W}. Arguments x7 {W}.
Arguments x8 {W}. Arguments x9 {W}. Arguments x10 {W}. Arguments x11 {W}.
Arguments x12 {W}. Arguments x13 {W}. Arguments x14 {W}. Arguments x15 {W}.

(** [x0 = a[0], ..., x15 = a[15]] and back. *)
Definition regs_of_array {W : Type} `{Inhabited W} (a : list W) : regs W :=
  Regs (a !!! 0%nat) (a !!! 1%nat) (a !!! 2%nat) (a !!! 3%nat)
       (a !!! 4%nat) (a !!! 5%nat) (a !!! 6%nat) (a !!! 7%nat)
       (a !!! 8%nat) (a !!! 9%nat) (a !!! 10%nat) (a !!! 11%nat)
       (a !!! 12%nat) (a !!! 13%nat) (a !!! 14%nat) (a !!! 15%nat).

Definition array_of_regs {W : Type} (x : regs W) : list W :=
  [x0 x; x1 x; x2 x; x3 x; x4 x; x5 x; x6 x; x7 x;
   x8 x; x9 x; x10 x; x11 x; x12 x; x13 x; x14 x; x15 x].

(** ** chacha20.c *)

Module Chacha20.

Definition ROTL32 (x r : Z) : Z :=
  Z.lor (u32 (Z.shiftl x r)) (Z.shiftr x (32 - r)).

Definition QUARTERROUND (q : Z * Z * Z * Z) : Z * Z * Z * Z :=
  let '(a, b, c, d) := q in
  let a := u32 (a + b) in
  let d := Z.lxor d a in
  let d := ROTL32 d 16 in
  let c := u32 (c + d) in
  let b := Z.lxor b c in
  let b := ROTL32 b 12 in
  let a := u32 (a + b) in
  let d := Z.lxor d a in
  let d := ROTL32 d 8 in
  let c := u32 (c + d) in
  let b := Z.lxor b c in
  let b := ROTL32 b 7 in
  (a, b, c, d).

(** [load32_le(p + i)] *)
Definition load32_le (p : list Z) (i : nat) : Z :=
  Z.lor (Z.lor (Z.lor (p !!! i)
                      (u32 (Z.shiftl (p !!! (i + 1)%nat) 8)))
               (u32 (Z.shiftl (p !!! (i + 2)%nat) 16)))
        (u32 (Z.shiftl (p !!! (i + 3)%nat) 24)).

(** [store32_le(p + i, v)] *)
Definition store32_le (p : list Z) (i : nat) (v : Z) : list Z :=
  let p := <[i := u8 v]> p in
  let p := <[(i + 1)%nat := u8 (Z.shiftr v 8)]> p in
  let p := <[(i + 2)%nat := u8 (Z.shiftr v 16)]> p in
  let p := <[(i + 3)%nat := u8 (Z.shiftr v 24)]> p in
  p.

(** The body of the round loop: column rounds, then diagonal rounds. *)
Definition double_round (x : regs Z) : regs Z :=
  let '(Regs x0 x1 x2 x3 x4 x5 x6 x7 x8 x9 x10 x11 x12 x13 x14 x15) := x in
  let '(x0, x4, x8, x12) := QUARTERROUND (x0, x4, x8, x12) in
  let '(x1, x5, x9, x13) := QUARTERROUND (x1, x5, x9, x13) in
  let '(x2, x6, x10, x14) := QUARTERROUND (x2, x6, x10, x14) in
  let '(x3, x7, x11, x15) := QUARTERROUND (x3, x7, x11, x15) in
  let '(x0, x5, x10, x15) := QUARTERROUND (x0, x5, x10, x15) in
  let '(x1, x6, x11, x12) := QUARTERROUND (x1, x6, x11, x12) in
  let '(x2, x7, x8, x13) := QUARTERROUND (x2, x7, x8, x13) in
  let '(x3, x4, x9, x14) := QUARTERROUND (x3, x4, x9, x14) in
  Regs x0 x1 x2 x3 x4 x5 x6 x7 x8 x9 x10 x11 x12 x13 x14 x15.

(** [chacha20_block(out, input)]: the new contents of [out]. *)
Definition chacha20_block (out : list Z) (input : list Z) : list Z :=
  let x := regs_of_array input in
  let x := for_loop 10 (λ _ x, double_round x) x in
  let out := store32_le out 0 (u32 (x0 x + input !!! 0%nat)) in
  let out := store32_le out 4 (u32 (x1 x + input !!! 1%nat)) in
  let out := store32_le out 8 (u32 (x2 x + input !!! 2%nat)) in
  let out := store32_le out 12 (u32 (x3 x + input !!! 3%nat)) in
  let out := store32_le out 16 (u32 (x4 x + input !!! 4%nat)) in
  let out := store32_le out 20 (u32 (x5 x + input !!! 5%nat)) in
  let out := store32_le out 24 (u32 (x6 x + input !!! 6%nat)) in
  let out := store32_le out 28 (u32 (x7 x + input !!! 7%nat)) in
  let out := store32_le out 32 (u32 (x8 x + input !!! 8%nat)) in
  let out := store32_le out 36 (u32 (x9 x + input !!! 9%nat)) in
  let out := store32_le out 40 (u32 (x10 x + input !!! 10%nat)) in
  let out := store32_le out 44 (u32 (x11 x + input !!! 11%nat)) in
  let out := store32_le out 48 (u32 (x12 x + input !!! 12%nat)) in
  let out := store32_le out 52 (u32 (x13 x + input !!! 13%nat)) in
  let out := store32_le out 56 (u32 (x14 x + input !!! 14%nat)) in
  let out := store32_le out 60 (u32 (x15 x + input !!! 15%nat)) in
  out.

(** The variables of [chacha20_xor] that its [while] loop changes. *)
Record loop_state : Type := LoopState {
  ls_state : list Z;    (* uint32_t state[16] *)
  ls_block : list Z;    (* uint8_t block[64] *)
  ls_out : list Z;      (* the buffer behind out *)
  ls_len : nat;
  ls_offset : nat
}.

(** The part of [chacha20_xor] before the loop: [state] is filled in. *)
Definition chacha20_xor_state (key nonce : list Z) (counter : Z) : list Z :=
  let state := replicate 16 0 in
  let state := <[0%nat := load32_le (cstr "expa") 0]> state in
  let state := <[1%nat := load32_le (cstr "nd 3") 0]> state in
  let state := <[2%nat := load32_le (cstr "2-by") 0]> state in
  let state := <[3%nat := load32_le (cstr "te k") 0]> state in
  let state :=
    for_loop 8 (λ i state, <[(4 + i)%nat := load32_le key (4 * i)]> state)
      state in
  let state := <[12%nat := counter]> state in
  let state := <[13%nat := load32_le nonce 0]> state in
  let state := <[14%nat := load32_le nonce 4]> state in
  let state := <[15%nat := load32_le nonce 8]> state in
  state.

Definition chacha20_xor_cond (s : loop_state) : bool :=
  (0 <? ls_len s)%nat.

Definition chacha20_xor_body (inp : list Z) (s : loop_state) : loop_state :=
  let block := chacha20_block (ls_block s) (ls_state s) in
  let chunk := if (ls_len s <? 64)%nat then ls_len s else 64%nat in
  let offset := ls_offset s in
  let out :=
    for_loop chunk
      (λ i out,
         <[(offset + i)%nat :=
             u8 (Z.lxor (inp !!! (offset + i)%nat) (block !!! i))]> out)
      (ls_out s) in
  let len := (ls_len s - chunk)%nat in
  let offset := (offset + chunk)%nat in
  let state := <[12%nat := u32 (ls_state s !!! 12%nat + 1)]> (ls_state s) in
  LoopState state block out len offset.

Definition chacha20_xor_init (out : list Z) (len : nat)
    (key nonce : list Z) (counter : Z) : loop_state :=
  LoopState (chacha20_xor_state key nonce counter) (replicate 64 0) out len 0.

(** The loop of [chacha20_xor], with all its variables at the exit. *)
Definition chacha20_xor_loop (fuel : nat) (out inp : list Z) (len : nat)
    (key nonce : list Z) (counter : Z) : option loop_state :=
  while fuel chacha20_xor_cond (chacha20_xor_body inp)
    (chacha20_xor_init out len key nonce counter).

(** [chacha20_xor(out, in, len, key, nonce, counter)]: the new contents of
    the buffer behind [out].  Every iteration consumes a byte at least, so
    [len] iterations are enough fuel. *)
Definition chacha20_xor (out inp : list Z) (len : nat)
    (key nonce : list Z) (counter : Z) : option (list Z) :=
  ls_out <$> chacha20_xor_loop len out inp len key nonce counter.

End Chacha20.

(** ** arm_neon.h *)

(** Modelled from the spec: the type [uint32x4_t] and the intrinsics of
    [arm_neon.h], which is not part of the repository.  A lane vector is
    "a 4-wide parallel value"; the operations are "vector add, xor, and
    fixed-amount rotate operating on all 4 lanes at once", a value
    "broadcast across all 4 lanes", and the extraction of "lane 0..3". *)
Record uint32x4_t : Type := V4 { lane0 : Z; lane1 : Z; lane2 : Z; lane3 : Z }.

Global Instance uint32x4_t_inhabited : Inhabited uint32x4_t :=
  populate (V4 0 0 0 0).

Definition lanewise1 (f : Z → Z) (a : uint32x4_t) : uint32x4_t :=
  V4 (f (lane0 a)) (f (lane1 a)) (f (lane2 a)) (f (lane3 a)).

Definition lanewise2 (f : Z → Z → Z) (a b : uint32x4_t) : uint32x4_t :=
  V4 (f (lane0 a) (lane0 b)) (f (lane1 a) (lane1 b))
     (f (lane2 a) (lane2 b)) (f (lane3 a) (lane3 b)).

Definition vdupq_n_u32 (x : Z) : uint32x4_t := V4 x x x x.
Definition vaddq_u32 : uint32x4_t → uint32x4_t → uint32x4_t :=
  lanewise2 (λ x y, u32 (x + y)).
Definition veorq_u32 : uint32x4_t → uint32x4_t → uint32x4_t :=
  lanewise2 Z.lxor.
Definition vorrq_u32 : uint32x4_t → uint32x4_t → uint32x4_t :=
  lanewise2 Z.lor.
Definition vshlq_n_u32 (v : uint32x4_t) (n : Z) : uint32x4_t :=
  lanewise1 (λ x, u32 (Z.shiftl x n)) v.
Definition vshrq_n_u32 (v : uint32x4_t) (n : Z) : uint32x4_t :=
  lanewise1 (λ x, Z.shiftr x n) v.
Definition vgetq_lane_u32 (v : uint32x4_t) (lane : nat) : Z :=
  match lane with
  | 0%nat => lane0 v
  | 1%nat => lane1 v
  | 2%nat => lane2 v
  | _ => lane3 v
  end.

(** ** chacha20_simd.c *)

Module Chacha20Simd.

Definition ROTL32 (x r : Z) : Z :=
  Z.lor (u32 (Z.shiftl x r)) (Z.shiftr x (32 - r)).

(** [load32_le(p + i)] *)
Definition load32_le (p : list Z) (i : nat) : Z :=
  Z.lor (Z.lor (Z.lor (p !!! i)
                      (u32 (Z.shiftl (p !!! (i + 1)%nat) 8)))
               (u32 (Z.shiftl (p !!! (i + 2)%nat) 16)))
        (u32 (Z.shiftl (p !!! (i + 3)%nat) 24)).

(** [store32_le(p + i, v)] *)
Definition store32_le (p : list Z) (i : nat) (v : Z) : list Z :=
  let p := <[i := u8 v]> p in
  let p := <[(i + 1)%nat := u8 (Z.shiftr v 8)]> p in
  let p := <[(i + 2)%nat := u8 (Z.shiftr v 16)]> p in
  let p := <[(i + 3)%nat := u8 (Z.shiftr v 24)]> p in
  p.

Definition QUARTERROUND (q : Z * Z * Z * Z) : Z * Z * Z * Z :=
  let '(a, b, c, d) := q in
  let a := u32 (a + b) in
  let d := Z.lxor d a in
  let d := ROTL32 d 16 in
  let c := u32 (c + d) in
  let b := Z.lxor b c in
  let b := ROTL32 b 12 in
  let a := u32 (a + b) in
  let d := Z.lxor d a in
  let d := ROTL32 d 8 in
  let c := u32 (c + d) in
  let b := Z.lxor b c in
  let b := ROTL32 b 7 in
  (a, b, c, d).

(** The body of the round loop of [chacha20_block]. *)
Definition double_round (x : regs Z) : regs Z :=
  let '(Regs x0 x1 x2 x3 x4 x5 x6 x7 x8 x9 x10 x11 x12 x13 x14 x15) := x in
  (* Column rounds *)
  let '(x0, x4, x8, x12) := QUARTERROUND (x0, x4, x8, x12) in
  let '(x1, x5, x9, x13) := QUARTERROUND (x1, x5, x9, x13) in
  let '(x2, x6, x10, x14) := QUARTERROUND (x2, x6, x10, x14) in
  let '(x3, x7, x11, x15) := QUARTERROUND (x3, x7, x11, x15) in
  (* Diagonal rounds *)
  let '(x0, x5, x10, x15) := QUARTERROUND (x0, x5, x10, x15) in
  let '(x1, x6, x11, x12) := QUARTERROUND (x1, x6, x11, x12) in
  let '(x2, x7, x8, x13) := QUARTERROUND (x2, x7, x8, x13) in
  let '(x3, x4, x9, x14) := QUARTERROUND (x3, x4, x9, x14) in
  Regs x0 x1 x2 x3 x4 x5 x6 x7 x8 x9 x10 x11 x12 x13 x14 x15.

(** [chacha20_block(out, input)]: the new contents of [out]. *)
Definition chacha20_block (out : list Z) (input : list Z) : list Z :=
  let x := regs_of_array input in
  let x := for_loop 10 (λ _ x, double_round x) x in
  let out := store32_le out 0 (u32 (x0 x + input !!! 0%nat)) in
  let out := store32_le out 4 (u32 (x1 x + input !!! 1%nat)) in
  let out := store32_le out 8 (u32 (x2 x + input !!! 2%nat)) in
  let out := store32_le out 12 (u32 (x3 x + input !!! 3%nat)) in
  let out := store32_le out 16 (u32 (x4 x + input !!! 4%nat)) in
  let out := store32_le out 20 (u32 (x5 x + input !!! 5%nat)) in
  let out := store32_le out 24 (u32 (x6 x + input !!! 6%nat)) in
  let out := store32_le out 28 (u32 (x7 x + input !!! 7%nat)) in
  let out := store32_le out 32 (u32 (x8 x + input !!! 8%nat)) in
  let out := store32_le out 36 (u32 (x9 x + input !!! 9%nat)) in
  let out := store32_le out 40 (u32 (x10 x + input !!! 10%nat)) in
  let out := store32_le out 44 (u32 (x11 x + input !!! 11%nat)) in
  let out := store32_le out 48 (u32 (x12 x + input !!! 12%nat)) in
  let out := store32_le out 52 (u32 (x13 x + input !!! 13%nat)) in
  let out := store32_le out 56 (u32 (x14 x + input !!! 14%nat)) in
  let out := store32_le out 60 (u32 (x15 x + input !!! 15%nat)) in
  out.

(** [chacha20_init_state(state, key, nonce, counter)]: the new contents
    of [state]. *)
Definition chacha20_init_state (state : list Z) (key nonce : list Z)
    (counter : Z) : list Z :=
  let state := <[0%nat := 0x61707865]> state in
  let state := <[1%nat := 0x3320646e]> state in
  let state := <[2%nat := 0x79622d32]> state in
  let state := <[3%nat := 0x6b206574]> state in
  let state :=
    for_loop 8 (λ i state, <[(4 + i)%nat := load32_le key (4 * i)]> state)
      state in
  let state := <[12%nat := counter]> state in
  let state := <[13%nat := load32_le nonce 0]> state in
  let state := <[14%nat := load32_le nonce 4]> state in
  let state := <[15%nat := load32_le nonce 8]> state in
  state.

(** The variables that the loops of [chacha20_xor_interleaved4] and of
    [chacha20_xor_neon4] change. *)
Record loop_state : Type := LoopState {
  ls_block : list (list Z);  (* uint8_t block[4][64]; ks[4][64] with NEON *)
  ls_out : list Z;           (* the buffer behind out *)
  ls_len : nat;
  ls_off : nat;
  ls_counter : Z
}.

(** The two nested [for] loops that XOR four blocks into [out]. *)
Definition xor4 (out inp : list Z) (off : nat) (block : list (list Z))
    : list Z :=
  for_loop 4
    (λ k out,
       for_loop 64
         (λ i out,
            <[(off + k * 64 + i)%nat :=
                u8 (Z.lxor (inp !!! (off + k * 64 + i)%nat)
                           ((block !!! k) !!! i))]> out)
         out)
    out.

Definition interleaved4_cond (s : loop_state) : bool :=
  (256 <=? ls_len s)%nat.

Definition interleaved4_body (inp key nonce : list Z) (s : loop_state)
    : loop_state :=
  let counter := ls_counter s in
  (* Generate 4 blocks *)
  let block :=
    for_loop 4
      (λ k block,
         let st := replicate 16 0 in
         let st :=
           chacha20_init_state st key nonce (u32 (counter + Z.of_nat k)) in
         <[k := chacha20_block (block !!! k) st]> block)
      (ls_block s) in
  (* XOR *)
  let out := xor4 (ls_out s) inp (ls_off s) block in
  let off := (ls_off s + 256)%nat in
  let len := (ls_len s - 256)%nat in
  let counter := u32 (counter + 4) in
  LoopState block out len off counter.

Definition tail_cond (s : loop_state) : bool :=
  (0 <? ls_len s)%nat.

Definition tail_body (inp key nonce : list Z) (s : loop_state)
    : loop_state :=
  let st := replicate 16 0 in
  let buf := replicate 64 0 in
  let c := if (ls_len s <? 64)%nat then ls_len s else 64%nat in
  let st := chacha20_init_state st key nonce (ls_counter s) in
  let buf := chacha20_block buf st in
  let off := ls_off s in
  let out :=
    for_loop c
      (λ i out,
         <[(off + i)%nat :=
             u8 (Z.lxor (inp !!! (off + i)%nat) (buf !!! i))]> out)
      (ls_out s) in
  let off := (off + c)%nat in
  let len := (ls_len s - c)%nat in
  let counter := u32 (ls_counter s + 1) in
  LoopState (ls_block s) out len off counter.

(** [chacha20_xor_interleaved4(out, in, len, key, nonce, counter)]: the new
    contents of the buffer behind [out].  Both loops consume a byte at
    least in every iteration. *)
Definition chacha20_xor_interleaved4 (out inp : list Z) (len : nat)
    (key nonce : list Z) (counter : Z) : option (list Z) :=
  s ← while len interleaved4_cond (interleaved4_body inp key nonce)
        (LoopState (replicate 4 (replicate 64 0)) out len 0 counter);
  s ← while (ls_len s) tail_cond (tail_body inp key nonce) s;
  Some (ls_out s).

(** The fixed rotates of the NEON path. *)
Definition ROTL16 (v : uint32x4_t) : uint32x4_t :=
  vorrq_u32 (vshlq_n_u32 v 16) (vshrq_n_u32 v 16).
Definition ROTL12 (v : uint32x4_t) : uint32x4_t :=
  vorrq_u32 (vshlq_n_u32 v 12) (vshrq_n_u32 v 20).
Definition ROTL8 (v : uint32x4_t) : uint32x4_t :=
  vorrq_u32 (vshlq_n_u32 v 8) (vshrq_n_u32 v 24).
Definition ROTL7 (v : uint32x4_t) : uint32x4_t :=
  vorrq_u32 (vshlq_n_u32 v 7) (vshrq_n_u32 v 25).

Definition NEON_QR (q : uint32x4_t * uint32x4_t * uint32x4_t * uint32x4_t)
    : uint32x4_t * uint32x4_t * uint32x4_t * uint32x4_t :=
  let '(a, b, c, d) := q in
  let a := vaddq_u32 a b in
  let d := veorq_u32 d a in
  let d := ROTL16 d in
  let c := vaddq_u32 c d in
  let b := veorq_u32 b c in
  let b := ROTL12 b in
  let a := vaddq_u32 a b in
  let d := veorq_u32 d a in
  let d := ROTL8 d in
  let c := vaddq_u32 c d in
  let b := veorq_u32 b c in
  let b := ROTL7 b in
  (a, b, c, d).

(** The body of the round loop of [chacha20_xor_neon4]. *)
Definition neon_double_round (x : regs uint32x4_t) : regs uint32x4_t :=
  let '(Regs x0 x1 x2 x3 x4 x5 x6 x7 x8 x9 x10 x11 x12 x13 x14 x15) := x in
  let '(x0, x4, x8, x12) := NEON_QR (x0, x4, x8, x12) in
  let '(x1, x5, x9, x13) := NEON_QR (x1, x5, x9, x13) in
  let '(x2, x6, x10, x14) := NEON_QR (x2, x6, x10, x14) in
  let '(x3, x7, x11, x15) := NEON_QR (x3, x7, x11, x15) in
  let '(x0, x5, x10, x15) := NEON_QR (x0, x5, x10, x15) in
  let '(x1, x6, x11, x12) := NEON_QR (x1, x6, x11, x12) in
  let '(x2, x7, x8, x13) := NEON_QR (x2, x7, x8, x13) in
  let '(x3, x4, x9, x14) := NEON_QR (x3, x4, x9, x14) in
  Regs x0 x1 x2 x3 x4 x5 x6 x7 x8 x9 x10 x11 x12 x13 x14 x15.

(** The sixteen lane vectors [in0 .. in15]. *)
Definition neon4_input (key nonce : list Z) (counter : Z)
    : regs uint32x4_t :=
  let in0 := vdupq_n_u32 0x61707865 in
  let in1 := vdupq_n_u32 0x3320646e in
  let in2 := vdupq_n_u32 0x79622d32 in
  let in3 := vdupq_n_u32 0x6b206574 in
  let in4 := vdupq_n_u32 (load32_le key 0) in
  let in5 := vdupq_n_u32 (load32_le key 4) in
  let in6 := vdupq_n_u32 (load32_le key 8) in
  let in7 := vdupq_n_u32 (load32_le key 12) in
  let in8 := vdupq_n_u32 (load32_le key 16) in
  let in9 := vdupq_n_u32 (load32_le key 20) in
  let in10 := vdupq_n_u32 (load32_le key 24) in
  let in11 := vdupq_n_u32 (load32_le key 28) in
  let in12 :=
    V4 counter (u32 (counter + 1)) (u32 (counter + 2)) (u32 (counter + 3)) in
  let in13 := vdupq_n_u32 (load32_le nonce 0) in
  let in14 := vdupq_n_u32 (load32_le nonce 4) in
  let in15 := vdupq_n_u32 (load32_le nonce 8) in
  Regs in0 in1 in2 in3 in4 in5 in6 in7 in8 in9 in10 in11 in12 in13 in14 in15.

(** One iteration of the NEON loop up to the XOR: the rounds, the
    feed-forward and the extraction of the lanes into [ks]. *)
Definition neon4_keystream (ks : list (list Z)) (key nonce : list Z)
    (counter : Z) : list (list Z) :=
  let inv := neon4_input key nonce counter in
  (* Working copy *)
  let x := inv in
  (* 20 rounds *)
  let x := for_loop 10 (λ _ x, neon_double_round x) x in
  (* Feed-forward *)
  let x0' := vaddq_u32 (x0 x) (x0 inv) in
  let x1' := vaddq_u32 (x1 x) (x1 inv) in
  let x2' := vaddq_u32 (x2 x) (x2 inv) in
  let x3' := vaddq_u32 (x3 x) (x3 inv) in
  let x4' := vaddq_u32 (x4 x) (x4 inv) in
  let x5' := vaddq_u32 (x5 x) (x5 inv) in
  let x6' := vaddq_u32 (x6 x) (x6 inv) in
  let x7' := vaddq_u32 (x7 x) (x7 inv) in
  let x8' := vaddq_u32 (x8 x) (x8 inv) in
  let x9' := vaddq_u32 (x9 x) (x9 inv) in
  let x10' := vaddq_u32 (x10 x) (x10 inv) in
  let x11' := vaddq_u32 (x11 x) (x11 inv) in
  let x12' := vaddq_u32 (x12 x) (x12 inv) in
  let x13' := vaddq_u32 (x13 x) (x13 inv) in
  let x14' := vaddq_u32 (x14 x) (x14 inv) in
  let x15' := vaddq_u32 (x15 x) (x15 inv) in
  (* Gather into array of 16 vectors *)
  let xs :=
    [x0'; x1'; x2'; x3'; x4'; x5'; x6'; x7';
     x8'; x9'; x10'; x11'; x12'; x13'; x14'; x15'] in
  (* Extract lanes for each of 4 streams *)
  for_loop 16
    (λ w ks,
       let ks :=
         <[0%nat := store32_le (ks !!! 0%nat) (4 * w)
                      (vgetq_lane_u32 (xs !!! w) 0)]> ks in
       let ks :=
         <[1%nat := store32_le (ks !!! 1%nat) (4 * w)
                      (vgetq_lane_u32 (xs !!! w) 1)]> ks in
       let ks :=
         <[2%nat := store32_le (ks !!! 2%nat) (4 * w)
                      (vgetq_lane_u32 (xs !!! w) 2)]> ks in
       let ks :=
         <[3%nat := store32_le (ks !!! 3%nat) (4 * w)
                      (vgetq_lane_u32 (xs !!! w) 3)]> ks in
       ks)
    ks.

Definition neon4_cond (s : loop_state) : bool :=
  (256 <=? ls_len s)%nat.

Definition neon4_body (inp key nonce : list Z) (s : loop_state)
    : loop_state :=
  let ks := neon4_keystream (ls_block s) key nonce (ls_counter s) in
  (* XOR 4 blocks *)
  let out := xor4 (ls_out s) inp (ls_off s) ks in
  let off := (ls_off s + 256)%nat in
  let len := (ls_len s - 256)%nat in
  let counter := u32 (ls_counter s + 4) in
  LoopState ks out len off counter.

(** [chacha20_xor_neon4(out, in, len, key, nonce, counter)]: the new
    contents of the buffer behind [out].  The tail call receives the
    pointers [out + off] and [in + off]: it works on the buffers from
    offset [off] on, and the bytes before [off] stay as they are. *)
Definition chacha20_xor_neon4 (out inp : list Z) (len : nat)
    (key nonce : list Z) (counter : Z) : option (list Z) :=
  s ← while len neon4_cond (neon4_body inp key nonce)
        (LoopState (replicate 4 (replicate 64 0)) out len 0 counter);
  if (0 <? ls_len s)%nat then
    t ← chacha20_xor_interleaved4 (drop (ls_off s) (ls_out s))
          (drop (ls_off s) inp) (ls_len s) key nonce (ls_counter s);
    Some (take (ls_off s) (ls_out s) ++ t)
  else Some (ls_out s).

(** [chacha20_xor_best(out, in, len, key, nonce, counter)], for either
    value of the compile-time macro [HAVE_NEON]. *)
Definition chacha20_xor_best (HAVE_NEON : bool) (out inp : list Z)
    (len : nat) (key nonce : list Z) (counter : Z) : option (list Z) :=
  if HAVE_NEON then chacha20_xor_neon4 out inp len key nonce counter
  else chacha20_xor_interleaved4 out inp len key nonce counter.

End Chacha20Simd.

(** ** RFC 8439, section 2.4.2 *)

(** The bytes that a string of hexadecimal digits (lower case) writes. *)
Fixpoint hex_bytes (l : list ascii) : list Z :=
  match l with
  | a :: b :: r =>
      let digit c :=
        let n := Z.of_N (N_of_ascii c) in
        if n <? 58 then n - 48 else n - 87 in
      (16 * digit a + digit b) :: hex_bytes r
  | _ => []
  end.
Definition hex (s : string) : list Z := hex_bytes (list_ascii_of_string s).

Definition rfc_key : list Z :=
  hex "000102030405060708090a0b0c0d0e0f101112131415161718191a1b1c1d1e1f".
Definition rfc_nonce : list Z := hex "000000000000004a00000000".
Definition rfc_plaintext : list Z :=
  cstr "Ladies and Gentlemen of the class of '99: If I could offer you only one tip for the future, sunscreen would be it.".
Definition rfc_ciphertext : list Z :=
  hex "6e2e359a2568f98041ba0728dd0d6981e97e7aec1d4360c20a27afccfd9fae0bf91b65c5524733ab8f593dabcd62b3571639d624e65152ab8f530c359f0861d807ca0dbf500d6a6156a38e088a22b65e52bc514d16ccf806818ce91ab77937365af90bbf74a35be6b40b8eedf2785e42874d".

(** ** The block function in the words of RFC 8439

    A second description of the block core, on the sixteen-word state as a
    whole: quarter rounds address the state by word index, additions are
    modulo 2^32 and rotations are arithmetic. *)

Module Rfc.

Definition add32 (x y : Z) : Z := (x + y) mod 2 ^ 32.

(** Rotation to the left by [n] bits of a 32-bit word [x]. *)
Definition rotl (x n : Z) : Z := (x * 2 ^ n) mod 2 ^ 32 + x / 2 ^ (32 - n).

(** The quarter round on four words (section 2.1). *)
Definition qr (q : Z * Z * Z * Z) : Z * Z * Z * Z :=
  let '(a, b, c, d) := q in
  let a := add32 a b in let d := Z.lxor d a in let d := rotl d 16 in
  let c := add32 c d in let b := Z.lxor b c in let b := rotl b 12 in
  let a := add32 a b in let d := Z.lxor d a in let d := rotl d 8 in
  let c := add32 c d in let b := Z.lxor b c in let b := rotl b 7 in
  (a, b, c, d).

(** The quarter round on the words number [a], [b], [c], [d] of the state
    [s] (section 2.2). *)
Definition quarter_round (a b c d : nat) (s : list Z) : list Z :=
  let '(wa, wb, wc, wd) := qr (s !!! a, s !!! b, s !!! c, s !!! d) in
  <[d := wd]> (<[c := wc]> (<[b := wb]> (<[a := wa]> s))).

Definition columns (s : list Z) : list Z :=
  let s := quarter_round 0 4 8 12 s in
  let s := quarter_round 1 5 9 13 s in
  let s := quarter_round 2 6 10 14 s in
  let s := quarter_round 3 7 11 15 s in
  s.

Definition diagonals (s : list Z) : list Z :=
  let s := quarter_round 0 5 10 15 s in
  let s := quarter_round 1 6 11 12 s in
  let s := quarter_round 2 7 8 13 s in
  let s := quarter_round 3 4 9 14 s in
  s.

Definition double_round (s : list Z) : list Z := diagonals (columns s).

(** The four bytes of a 32-bit word, least significant first. *)
Definition le_bytes (w : Z) : list Z :=
  [w mod 2 ^ 8; (w / 2 ^ 8) mod 2 ^ 8; (w / 2 ^ 16) mod 2 ^ 8;
   (w / 2 ^ 24) mod 2 ^ 8].

(** The little-endian 32-bit word of four bytes. *)
Definition le_word (b0 b1 b2 b3 : Z) : Z :=
  b0 + 2 ^ 8 * b1 + 2 ^ 16 * b2 + 2 ^ 24 * b3.

(** Ten double rounds, the feed-forward and the serialization. *)
Definition block (s : list Z) : list Z :=
  let mixed := Nat.iter 10 double_round s in
  mjoin (le_bytes <$> zip_with add32 mixed s).

(** The first [n] little-endian 32-bit words of the bytes [p]. *)
Definition le_words (p : list Z) (n : nat) : list Z :=
  (λ i, le_word (p !!! (4 * i)%nat) (p !!! (4 * i + 1)%nat)
                (p !!! (4 * i + 2)%nat) (p !!! (4 * i + 3)%nat))
  <$> seq 0 n.

Definition constants : list Z :=
  [0x61707865; 0x3320646e; 0x79622d32; 0x6b206574].

(** The state of section 2.3: words 0-3 the constants, words 4-11 the key,
    word 12 the counter, words 13-15 the nonce. *)
Definition state (key nonce : list Z) (counter : Z) : list Z :=
  constants ++ le_words key 8 ++ [counter] ++ le_words nonce 3.

End Rfc.

(** ** The transformation as a whole *)

Definition is_u8 (x : Z) : Prop := 0 ≤ x < 2 ^ 8.
Definition is_u32 (x : Z) : Prop := 0 ≤ x < 2 ^ 32.

Global Instance is_u8_dec (x : Z) : Decision (is_u8 x).
Proof. unfold is_u8. apply _. Defined.

Global Instance is_u32_dec (x : Z) : Decision (is_u32 x).
Proof. unfold is_u32. apply _. Defined.

(** The keystream block of the block counter [counter]. *)
Definition keystream_block (key nonce : list Z) (counter : Z) : list Z :=
  Chacha20Simd.chacha20_block (replicate 64 0)
    (Chacha20Simd.chacha20_init_state (replicate 16 0) key nonce counter).

(** Byte [i] of the keystream that starts at the block counter [counter]:
    block [i / 64] has the counter [counter + i / 64] modulo 2^32. *)
Definition keystream_byte (key nonce : list Z) (counter : Z) (i : nat) : Z :=
  keystream_block key nonce (u32 (counter + Z.of_nat (i / 64)))
    !!! (i mod 64)%nat.

(** The buffer [out] after its first [len] bytes have become the XOR of the
    bytes of [inp] with the keystream. *)
Definition xor_keystream (out inp : list Z) (len : nat) (key nonce : list Z)
    (counter : Z) : list Z :=
  imap (λ i o,
          if decide (i < len)%nat
          then u8 (Z.lxor (inp !!! i) (keystream_byte key nonce counter i))
          else o)
       out.

Definition is_u32_4 (q : Z * Z * Z * Z) : Prop :=
  let '(a, b, c, d) := q in is_u32 a ∧ is_u32 b ∧ is_u32 c ∧ is_u32 d.

Definition is_u32_regs (x : regs Z) : Prop :=
  Forall is_u32 (array_of_regs x).

(** Four keystream blocks, for the block counters [counter .. counter + 3]
    modulo 2^32. *)
Definition keystream4 (key nonce : list Z) (counter : Z) : list (list Z) :=
  (λ k, keystream_block key nonce (u32 (counter + Z.of_nat k))) <$> seq 0 4.

(** An array of four blocks of 64 bytes. *)
Definition is_blocks4 (block : list (list Z)) : Prop :=
  length block = 4%nat ∧ Forall (λ b, length b = 64%nat) block.

(** The same function on each of the sixteen locals. *)
Definition regs_map {A B : Type} (f : A → B) (x : regs A) : regs B :=
  Regs (f (x0 x)) (f (x1 x)) (f (x2 x)) (f (x3 x))
       (f (x4 x)) (f (x5 x)) (f (x6 x)) (f (x7 x))
       (f (x8 x)) (f (x9 x)) (f (x10 x)) (f (x11 x))
       (f (x12 x)) (f (x13 x)) (f (x14 x)) (f (x15 x)).

(** Lane [k] of each of sixteen lane vectors. *)
Definition lanes (k : nat) (x : regs uint32x4_t) : regs Z :=
  regs_map (λ v, vgetq_lane_u32 v k) x.

(** The lengths around the block and super-block boundaries, and an input
    of each length to run the paths on. *)
Definition boundary_lengths : list nat :=
  [0; 1; 63; 64; 65; 255; 256; 257; 1024]%nat.

Definition sample_input (n : nat) : list Z :=
  (λ i, Z.of_nat (i mod 251)) <$> seq 0 n.

(** The three paths return, with the same bytes, on the sample input of
    length [n]; the counter wraps on the way. *)
Definition paths_agree_on (n : nat) : Prop :=
  let out := replicate n 0 in
  let inp := sample_input n in
  let r := Chacha20.chacha20_xor out inp n rfc_key rfc_nonce 0xFFFFFFFE in
  is_Some r
  ∧ Chacha20Simd.chacha20_xor_interleaved4 out inp n rfc_key rfc_nonce
      0xFFFFFFFE = r
  ∧ Chacha20Simd.chacha20_xor_neon4 out inp n rfc_key rfc_nonce 0xFFFFFFFE
    = r.

Global Instance paths_agree_on_dec (n : nat) : Decision (paths_agree_on n).
Proof. unfold paths_agree_on. cbv zeta. apply _. Defined.

(** * More of the code *)

(** The buffer [r] that a path returns for the buffer [out] and the length
    [len]: same size, the bytes from [len] on untouched, the first [len]
    bytes byte values. *)
Definition writes_only (out : list Z) (len : nat) (r : option (list Z))
    : Prop :=
  ∃ r', r = Some r' ∧ length r' = length out ∧ drop len r' = drop len out
        ∧ Forall is_u8 (take len r').

(** The keystream as one list: the blocks of the counters [counter],
    [counter + 1], ..., [counter + n - 1] modulo 2^32, one after the other. *)
Definition keystream (key nonce : list Z) (counter : Z) (n : nat) : list Z :=
  mjoin ((λ j, Chacha20Simd.chacha20_block (replicate 64 0)
                 (Chacha20Simd.chacha20_init_state (replicate 16 0) key nonce
                    (u32 (counter + Z.of_nat j))))
         <$> seq 0 n).

(** ** In-place calls

    The paths again, for a call with [out == in]: one buffer, which every
    read of [in[...]] and every write of [out[...]] goes to. *)

Module InPlace.

(** [chacha20_xor(buf, buf, len, key, nonce, counter)] of [chacha20.c]. *)
Definition chacha20_xor_body (s : Chacha20.loop_state) : Chacha20.loop_state :=
  let block := Chacha20.chacha20_block (Chacha20.ls_block s)
                 (Chacha20.ls_state s) in
  let chunk :=
    if (Chacha20.ls_len s <? 64)%nat then Chacha20.ls_len s else 64%nat in
  let offset := Chacha20.ls_offset s in
  let out :=
    for_loop chunk
      (λ i out,
         <[(offset + i)%nat :=
             u8 (Z.lxor (out !!! (offset + i)%nat) (block !!! i))]> out)
      (Chacha20.ls_out s) in
  let len := (Chacha20.ls_len s - chunk)%nat in
  let offset := (offset + chunk)%nat in
  let state :=
    <[12%nat := u32 (Chacha20.ls_state s !!! 12%nat + 1)]>
      (Chacha20.ls_state s) in
  Chacha20.LoopState state block out len offset.

Definition chacha20_xor (buf : list Z) (len : nat) (key nonce : list Z)
    (counter : Z) : option (list Z) :=
  Chacha20.ls_out <$>
    while len Chacha20.chacha20_xor_cond chacha20_xor_body
      (Chacha20.chacha20_xor_init buf len key nonce counter).

(** The two nested loops of [chacha20_simd.c] that XOR four blocks. *)
Definition xor4 (out : list Z) (off : nat) (block : list (list Z)) : list Z :=
  for_loop 4
    (λ k out,
       for_loop 64
         (λ i out,
            <[(off + k * 64 + i)%nat :=
                u8 (Z.lxor (out !!! (off + k * 64 + i)%nat)
                           ((block !!! k) !!! i))]> out)
         out)
    out.

Definition interleaved4_body (key nonce : list Z)
    (s : Chacha20Simd.loop_state) : Chacha20Simd.loop_state :=
  let counter := Chacha20Simd.ls_counter s in
  let block :=
    for_loop 4
      (λ k block,
         let st := replicate 16 0 in
         let st :=
           Chacha20Simd.chacha20_init_state st key nonce
             (u32 (counter + Z.of_nat k)) in
         <[k := Chacha20Simd.chacha20_block (block !!! k) st]> block)
      (Chacha20Simd.ls_block s) in
  let out := xor4 (Chacha20Simd.ls_out s) (Chacha20Simd.ls_off s) block in
  let off := (Chacha20Simd.ls_off s + 256)%nat in
  let len := (Chacha20Simd.ls_len s - 256)%nat in
  let counter := u32 (counter + 4) in
  Chacha20Simd.LoopState block out len off counter.

Definition tail_body (key nonce : list Z) (s : Chacha20Simd.loop_state)
    : Chacha20Simd.loop_state :=
  let st := replicate 16 0 in
  let buf := replicate 64 0 in
  let c :=
    if (Chacha20Simd.ls_len s <? 64)%nat then Chacha20Simd.ls_len s
    else 64%nat in
  let st :=
    Chacha20Simd.chacha20_init_state st key nonce (Chacha20Simd.ls_counter s)
  in
  let buf := Chacha20Simd.chacha20_block buf st in
  let off := Chacha20Simd.ls_off s in
  let out :=
    for_loop c
      (λ i out,
         <[(off + i)%nat :=
             u8 (Z.lxor (out !!! (off + i)%nat) (buf !!! i))]> out)
      (Chacha20Simd.ls_out s) in
  let off := (off + c)%nat in
  let len := (Chacha20Simd.ls_len s - c)%nat in
  let counter := u32 (Chacha20Simd.ls_counter s + 1) in
  Chacha20Simd.LoopState (Chacha20Simd.ls_block s) out len off counter.

Definition chacha20_xor_interleaved4 (buf : list Z) (len : nat)
    (key nonce : list Z) (counter : Z) : option (list Z) :=
  s ← while len Chacha20Simd.interleaved4_cond (interleaved4_body key nonce)
        (Chacha20Simd.LoopState (replicate 4 (replicate 64 0)) buf len 0
           counter);
  s ← while (Chacha20Simd.ls_len s) Chacha20Simd.tail_cond
        (tail_body key nonce) s;
  Some (Chacha20Simd.ls_out s).

Definition neon4_body (key nonce : list Z) (s : Chacha20Simd.loop_state)
    : Chacha20Simd.loop_state :=
  let ks :=
    Chacha20Simd.neon4_keystream (Chacha20Simd.ls_block s) key nonce
      (Chacha20Simd.ls_counter s) in
  let out := xor4 (Chacha20Simd.ls_out s) (Chacha20Simd.ls_off s) ks in
  let off := (Chacha20Simd.ls_off s + 256)%nat in
  let len := (Chacha20Simd.ls_len s - 256)%nat in
  let counter := u32 (Chacha20Simd.ls_counter s + 4) in
  Chacha20Simd.LoopState ks out len off counter.

(** The tail call gets [out + off] and [in + off], one pointer again. *)
Definition chacha20_xor_neon4 (buf : list Z) (len : nat)
    (key nonce : list Z) (counter : Z) : option (list Z) :=
  s ← while len Chacha20Simd.neon4_cond (neon4_body key nonce)
        (Chacha20Simd.LoopState (replicate 4 (replicate 64 0)) buf len 0
           counter);
  if (0 <? Chacha20Simd.ls_len s)%nat then
    t ← chacha20_xor_interleaved4
          (drop (Chacha20Simd.ls_off s) (Chacha20Simd.ls_out s))
          (Chacha20Simd.ls_len s) key nonce (Chacha20Simd.ls_counter s);
    Some (take (Chacha20Simd.ls_off s) (Chacha20Simd.ls_out s) ++ t)
  else Some (Chacha20Simd.ls_out s).

Definition chacha20_xor_best (HAVE_NEON : bool) (buf : list Z) (len : nat)
    (key nonce : list Z) (counter : Z) : option (list Z) :=
  if HAVE_NEON then chacha20_xor_neon4 buf len key nonce counter
  else chacha20_xor_interleaved4 buf len key nonce counter.

End InPlace.

(** What holds whenever a loop over [buf] is about to run its body: the
    loop is at a block boundary, or at a super-block boundary, with the
    counter of that block, and the bytes before it are transformed. *)
Definition scalar_at_boundary (buf key nonce : list Z) (counter : Z)
    (s : Chacha20.loop_state) : Prop :=
  (0 < Chacha20.ls_len s)%nat →
  ∃ q, Chacha20.ls_offset s = (64 * q)%nat
       ∧ Chacha20.ls_state s
         = Chacha20.chacha20_xor_state key nonce (u32 (counter + Z.of_nat q))
       ∧ Chacha20.ls_out s = xor_keystream buf buf (64 * q) key nonce counter
       ∧ length (Chacha20.ls_block s) = 64%nat.

Definition simd_at_superblock (buf key nonce : list Z) (counter : Z)
    (s : Chacha20Simd.loop_state) : Prop :=
  ∃ q, Chacha20Simd.ls_off s = (256 * q)%nat
       ∧ Chacha20Simd.ls_counter s = u32 (counter + Z.of_nat (4 * q))
       ∧ Chacha20Simd.ls_out s
         = xor_keystream buf buf (256 * q) key nonce counter
       ∧ is_blocks4 (Chacha20Simd.ls_block s).

Definition simd_at_boundary (buf key nonce : list Z) (counter : Z)
    (s : Chacha20Simd.loop_state) : Prop :=
  (0 < Chacha20Simd.ls_len s)%nat →
  ∃ q, Chacha20Simd.ls_off s = (64 * q)%nat
       ∧ Chacha20Simd.ls_counter s = u32 (counter + Z.of_nat q)
       ∧ Chacha20Simd.ls_out s
         = xor_keystream buf buf (64 * q) key nonce counter.

(** ** chacha_main.c *)

Module ChachaMain.

(** The digit that [%x] prints for a value below 16. *)
Definition hex_digit (n : Z) : ascii :=
  ascii_of_N (Z.to_N (if n <? 10 then 48 + n else 87 + n)).

(** [printf("%02x", b)] for a [uint8_t b]: what it appends to the output.
    A byte has no more than two hexadecimal digits. *)
Definition printf_02x (b : Z) : list ascii :=
  [hex_digit (b / 16); hex_digit (b mod 16)].

(** [for (i = 0; i < len; i++) printf("%02x", out[i]);] *)
Definition print_hex (stdout : list ascii) (out : list Z) (len : nat)
    : list ascii :=
  for_loop len (λ i stdout, stdout ++ printf_02x (out !!! i)) stdout.

(** [main]: what it writes to the standard output, and its return value. *)
Definition main (HAVE_NEON : bool) : option (list ascii * Z) :=
  let key := replicate 32 0 in
  let nonce := replicate 12 0 in
  let pt := cstr "Cryptography and Security Implementation!" in
  let len := length pt in
  let out := replicate len 0 in
  out ← Chacha20Simd.chacha20_xor_best HAVE_NEON out pt len key nonce 1;
  let stdout := print_hex [] out len in
  let stdout := stdout ++ ["010"%char] in
  Some (stdout, 0).

End ChachaMain.

(** * Properties *)

(** ** Loops *)

Lemma for_loop_0 {S : Type} (body : nat → S → S) (s : S) :
  for_loop 0 body s = s.
Proof. reflexivity. Qed.

Lemma for_loop_S {S : Type} (n : nat) (body : nat → S → S) (s : S) :
  for_loop (Datatypes.S n) body s = body n (for_loop n body s).
Proof. unfold for_loop. rewrite seq_S, foldl_app. reflexivity. Qed.

(** ** Words and bytes *)

Lemma u32_is_u32 (x : Z) : is_u32 (u32 x).
Proof. unfold is_u32, u32. apply Z.mod_pos_bound. lia. Qed.

Lemma u8_is_u8 (x : Z) : is_u8 (u8 x).
Proof. unfold is_u8, u8. apply Z.mod_pos_bound. lia. Qed.

Lemma u32_id (x : Z) : is_u32 x → u32 x = x.
Proof. unfold is_u32, u32. intros. apply Z.mod_small. lia. Qed.

Lemma u8_id (x : Z) : is_u8 x → u8 x = x.
Proof. unfold is_u8, u8. intros. apply Z.mod_small. lia. Qed.

Lemma testbit_above (n x i : Z) :
  0 ≤ x < 2 ^ n → n ≤ i → Z.testbit x i = false.
Proof.
  intros [H0 Hx] Hi. destruct (Z.eq_dec x 0) as [->|Hne].
  - apply Z.bits_0.
  - apply Z.bits_above_log2; [done|].
    assert (0 ≤ n) by (destruct (Z.le_gt_cases 0 n); [done|];
      rewrite Z.pow_neg_r in Hx; lia).
    assert (Z.log2 x < n) by (apply Z.log2_lt_pow2; lia). lia.
Qed.

Lemma below_pow2 (n x : Z) :
  0 ≤ n → 0 ≤ x → (∀ i, n ≤ i → Z.testbit x i = false) →
  x < 2 ^ n.
Proof.
  intros Hn H0 Hbits. destruct (Z.eq_dec x 0) as [->|Hne].
  - apply Z.pow_pos_nonneg; lia.
  - apply Z.log2_lt_pow2; [lia|].
    destruct (Z.lt_ge_cases (Z.log2 x) n) as [|Hge]; [done|].
    specialize (Hbits _ Hge). rewrite Z.bit_log2 in Hbits; [done | lia].
Qed.

Lemma lxor_is_u32 (a b : Z) : is_u32 a → is_u32 b → is_u32 (Z.lxor a b).
Proof.
  unfold is_u32. intros Ha Hb. split.
  - apply Z.lxor_nonneg. lia.
  - apply below_pow2; [lia | apply Z.lxor_nonneg; lia |].
    intros i Hi. rewrite Z.lxor_spec.
    rewrite (testbit_above 32 a i), (testbit_above 32 b i); done.
Qed.

Lemma lxor_is_u8 (a b : Z) : is_u8 a → is_u8 b → is_u8 (Z.lxor a b).
Proof.
  unfold is_u8. intros Ha Hb. split.
  - apply Z.lxor_nonneg. lia.
  - apply below_pow2; [lia | apply Z.lxor_nonneg; lia |].
    intros i Hi. rewrite Z.lxor_spec.
    rewrite (testbit_above 8 a i), (testbit_above 8 b i); done.
Qed.

(** Two numbers whose bits do not overlap: [|] adds them. *)
Lemma lor_disjoint_add (n hi lo : Z) :
  0 ≤ n → 0 ≤ lo < 2 ^ n → Z.lor (hi * 2 ^ n) lo = hi * 2 ^ n + lo.
Proof.
  intros Hn Hlo.
  assert (Z.land (hi * 2 ^ n) lo = 0) as Hland.
  { apply Z.bits_inj'. intros i Hi. rewrite Z.land_spec, Z.bits_0.
    destruct (Z.lt_ge_cases i n).
    - rewrite Z.mul_pow2_bits_low by lia. done.
    - rewrite (testbit_above n lo i) by done. apply andb_false_r. }
  rewrite <- Z.lxor_lor by done. symmetry. apply Z.add_nocarry_lxor. done.
Qed.

(** The shifts and [|] of [ROTL32] rotate a 32-bit word. *)
Lemma ROTL32_rotl (x r : Z) :
  is_u32 x → 0 < r < 32 →
  Chacha20.ROTL32 x r = Rfc.rotl x r ∧ is_u32 (Chacha20.ROTL32 x r).
Proof.
  unfold is_u32, Chacha20.ROTL32, Rfc.rotl, u32. intros Hx Hr.
  rewrite Z.shiftl_mul_pow2, Z.shiftr_div_pow2 by lia.
  assert (2 ^ 32 = 2 ^ (32 - r) * 2 ^ r) as Hsplit
    by (rewrite <- Z.pow_add_r by lia; f_equal; lia).
  assert (0 < 2 ^ r) by (apply Z.pow_pos_nonneg; lia).
  assert (0 < 2 ^ (32 - r)) by (apply Z.pow_pos_nonneg; lia).
  assert (0 ≤ x / 2 ^ (32 - r) < 2 ^ r) as Hlo.
  { split; [apply Z.div_pos; lia|]. apply Z.div_lt_upper_bound; lia. }
  assert ((x * 2 ^ r) mod 2 ^ 32 = (x mod 2 ^ (32 - r)) * 2 ^ r) as ->.
  { rewrite Hsplit. rewrite Z.mul_mod_distr_r by lia. done. }
  rewrite lor_disjoint_add by lia. split; [done|].
  pose proof (Z.mod_pos_bound x (2 ^ (32 - r)) ltac:(lia)). nia.
Qed.

Lemma store_bytes_le (v : Z) :
  [u8 v; u8 (Z.shiftr v 8); u8 (Z.shiftr v 16); u8 (Z.shiftr v 24)]
  = Rfc.le_bytes v.
Proof.
  unfold Rfc.le_bytes, u8. rewrite !Z.shiftr_div_pow2 by lia. done.
Qed.

(** [load32_le] reads four bytes as a little-endian word. *)
Lemma load32_le_word (p : list Z) (i : nat) :
  is_u8 (p !!! i) → is_u8 (p !!! (i + 1)%nat) →
  is_u8 (p !!! (i + 2)%nat) → is_u8 (p !!! (i + 3)%nat) →
  Chacha20Simd.load32_le p i
  = Rfc.le_word (p !!! i) (p !!! (i + 1)%nat) (p !!! (i + 2)%nat)
      (p !!! (i + 3)%nat)
  ∧ is_u32 (Chacha20Simd.load32_le p i).
Proof.
  unfold Chacha20Simd.load32_le, Rfc.le_word, is_u8.
  generalize (p !!! i) (p !!! (i + 1)%nat) (p !!! (i + 2)%nat)
    (p !!! (i + 3)%nat).
  intros b0 b1 b2 b3 H0 H1 H2 H3.
  rewrite !Z.shiftl_mul_pow2 by lia.
  rewrite !u32_id by (unfold is_u32; lia).
  rewrite (Z.lor_comm b0), (lor_disjoint_add 8) by lia.
  rewrite (Z.lor_comm _ (b2 * _)), (lor_disjoint_add 16) by lia.
  rewrite (Z.lor_comm _ (b3 * _)), (lor_disjoint_add 24) by lia.
  unfold is_u32. lia.
Qed.


(** ** The block core *)

Ltac destruct_length l H :=
  repeat (destruct l as [|? l]; [discriminate H|]);
  destruct l; [|discriminate H].

(** The two source files define the same helpers and block function. *)
Lemma ROTL32_files_agree : Chacha20.ROTL32 = Chacha20Simd.ROTL32.
Proof. reflexivity. Qed.

Lemma load32_le_files_agree : Chacha20.load32_le = Chacha20Simd.load32_le.
Proof. reflexivity. Qed.

Lemma store32_le_files_agree : Chacha20.store32_le = Chacha20Simd.store32_le.
Proof. reflexivity. Qed.

Lemma QUARTERROUND_files_agree :
  Chacha20.QUARTERROUND = Chacha20Simd.QUARTERROUND.
Proof.
  unfold Chacha20.QUARTERROUND, Chacha20Simd.QUARTERROUND.
  rewrite ROTL32_files_agree. reflexivity.
Qed.

Lemma double_round_files_agree :
  Chacha20.double_round = Chacha20Simd.double_round.
Proof.
  unfold Chacha20.double_round, Chacha20Simd.double_round.
  rewrite QUARTERROUND_files_agree. reflexivity.
Qed.

Lemma block_files_agree (out input : list Z) :
  Chacha20.chacha20_block out input = Chacha20Simd.chacha20_block out input.
Proof.
  unfold Chacha20.chacha20_block, Chacha20Simd.chacha20_block.
  rewrite double_round_files_agree, store32_le_files_agree. reflexivity.
Qed.

(** One third of a quarter-round line: [a += b; d ^= a; d = ROTL32(d, r)]. *)
Lemma qr_line (a b d r : Z) :
  is_u32 d → 0 < r < 32 →
  Rfc.add32 a b = u32 (a + b)
  ∧ is_u32 (u32 (a + b))
  ∧ Rfc.rotl (Z.lxor d (u32 (a + b))) r
    = Chacha20Simd.ROTL32 (Z.lxor d (u32 (a + b))) r
  ∧ is_u32 (Chacha20Simd.ROTL32 (Z.lxor d (u32 (a + b))) r).
Proof.
  intros Hd Hr. pose proof (u32_is_u32 (a + b)) as Ha.
  destruct (ROTL32_rotl _ r (lxor_is_u32 _ _ Hd Ha) Hr) as [E R].
  split; [reflexivity|]. split; [exact Ha|].
  split; [symmetry; exact E | exact R].
Qed.

Lemma QUARTERROUND_qr (q : Z * Z * Z * Z) :
  is_u32_4 q →
  Rfc.qr q = Chacha20Simd.QUARTERROUND q
  ∧ is_u32_4 (Chacha20Simd.QUARTERROUND q).
Proof.
  destruct q as [[[a b] c] d]. intros (Ha & Hb & Hc & Hd).
  unfold Rfc.qr, Chacha20Simd.QUARTERROUND, is_u32_4.
  destruct (qr_line a b d 16 Hd ltac:(lia)) as (-> & Ha1 & -> & Hd1).
  remember (u32 (a + b)) as a1 eqn:Ea1.
  remember (Chacha20Simd.ROTL32 (Z.lxor d a1) 16) as d1 eqn:Ed1.
  destruct (qr_line c d1 b 12 Hb ltac:(lia)) as (-> & Hc1 & -> & Hb1).
  remember (u32 (c + d1)) as c1 eqn:Ec1.
  remember (Chacha20Simd.ROTL32 (Z.lxor b c1) 12) as b1 eqn:Eb1.
  destruct (qr_line a1 b1 d1 8 Hd1 ltac:(lia)) as (-> & Ha2 & -> & Hd2).
  remember (u32 (a1 + b1)) as a2 eqn:Ea2.
  remember (Chacha20Simd.ROTL32 (Z.lxor d1 a2) 8) as d2 eqn:Ed2.
  destruct (qr_line c1 d2 b1 7 Hb1 ltac:(lia)) as (-> & Hc2 & -> & Hb2).
  split; [reflexivity|]. split; [assumption|]. split; [assumption|].
  split; assumption.
Qed.



Lemma quarter_round_unfold (a b c d : nat) (s : list Z) :
  Rfc.quarter_round a b c d s
  = let '(wa, wb, wc, wd) := Rfc.qr (s !!! a, s !!! b, s !!! c, s !!! d) in
    <[d := wd]> (<[c := wc]> (<[b := wb]> (<[a := wa]> s))).
Proof. reflexivity. Qed.

Local Opaque Rfc.qr Chacha20Simd.QUARTERROUND Rfc.quarter_round.

Lemma double_round_rfc (x : regs Z) :
  is_u32_regs x →
  Rfc.double_round (array_of_regs x)
  = array_of_regs (Chacha20Simd.double_round x)
  ∧ is_u32_regs (Chacha20Simd.double_round x).
Proof.
  destruct x as [w0 w1 w2 w3 w4 w5 w6 w7 w8 w9 w10 w11 w12 w13 w14 w15].
  unfold is_u32_regs, array_of_regs; simpl. intros H.
  repeat match goal with
         | H : Forall _ (_ :: _) |- _ =>
             apply Forall_cons_1 in H; destruct H as [? H]
         end.
  clear H.
  unfold Rfc.double_round, Rfc.columns, Rfc.diagonals; cbv zeta.
  repeat match goal with
         | |- context [Rfc.quarter_round ?a ?b ?c ?d (?h :: ?t)] =>
             rewrite (quarter_round_unfold a b c d (h :: t)); simpl;
             match goal with
             | |- context [Rfc.qr ?q] =>
                 let E := fresh "E" in let R := fresh "R" in
                 destruct (QUARTERROUND_qr q) as [E R];
                 [ unfold is_u32_4; tauto | ];
                 rewrite E; clear E;
                 destruct (Chacha20Simd.QUARTERROUND q) as [[[? ?] ?] ?];
                 destruct R as (? & ? & ? & ?); simpl
             end
         end.
  split; [reflexivity|]. unfold is_u32_regs; simpl.
  repeat (constructor; [assumption|]). constructor.
Qed.

Local Transparent Rfc.qr Chacha20Simd.QUARTERROUND Rfc.quarter_round.

Lemma rounds_rfc (n : nat) (x : regs Z) :
  is_u32_regs x →
  Nat.iter n Rfc.double_round (array_of_regs x)
  = array_of_regs (for_loop n (λ _ x, Chacha20Simd.double_round x) x)
  ∧ is_u32_regs (for_loop n (λ _ x, Chacha20Simd.double_round x) x).
Proof.
  intros Hx. induction n as [|n [IH1 IH2]]; [done|].
  rewrite for_loop_S. simpl. rewrite IH1. by apply double_round_rfc.
Qed.

(** Sixteen stores of four bytes fill a buffer of 64 bytes. *)
Lemma stores_fill (out : list Z)
    (v0 v1 v2 v3 v4 v5 v6 v7 v8 v9 v10 v11 v12 v13 v14 v15 : Z) :
  length out = 64%nat →
  Chacha20Simd.store32_le (Chacha20Simd.store32_le (Chacha20Simd.store32_le
  (Chacha20Simd.store32_le (Chacha20Simd.store32_le (Chacha20Simd.store32_le
  (Chacha20Simd.store32_le (Chacha20Simd.store32_le (Chacha20Simd.store32_le
  (Chacha20Simd.store32_le (Chacha20Simd.store32_le (Chacha20Simd.store32_le
  (Chacha20Simd.store32_le (Chacha20Simd.store32_le (Chacha20Simd.store32_le
  (Chacha20Simd.store32_le out
     0 v0) 4 v1) 8 v2) 12 v3) 16 v4) 20 v5) 24 v6) 28 v7)
     32 v8) 36 v9) 40 v10) 44 v11) 48 v12) 52 v13) 56 v14) 60 v15
  = mjoin (Rfc.le_bytes <$>
      [v0; v1; v2; v3; v4; v5; v6; v7; v8; v9; v10; v11; v12; v13; v14; v15]).
Proof.
  intros H. cbn [fmap list_fmap]. rewrite <- !store_bytes_le.
  destruct_length out H. reflexivity.
Qed.

(** The block function as a function of the sixteen input words. *)
Lemma chacha20_block_words (out input : list Z) :
  length out = 64%nat →
  Chacha20Simd.chacha20_block out input
  = let x :=
      for_loop 10 (λ _ x, Chacha20Simd.double_round x) (regs_of_array input) in
    mjoin (Rfc.le_bytes <$>
             zip_with Rfc.add32 (array_of_regs x)
               (array_of_regs (regs_of_array input))).
Proof.
  intros H. unfold Chacha20Simd.chacha20_block. cbv zeta.
  generalize (for_loop 10 (λ _ x, Chacha20Simd.double_round x)
                (regs_of_array input)).
  intros x. rewrite stores_fill by done. destruct x. reflexivity.
Qed.

Lemma chacha20_block_length (out input : list Z) :
  length (Chacha20Simd.chacha20_block out input) = length out.
Proof.
  unfold Chacha20Simd.chacha20_block, Chacha20Simd.store32_le. cbv zeta.
  rewrite !length_insert. reflexivity.
Qed.

(** What [out] held before the call does not matter. *)
Lemma chacha20_block_overwrites (out out' input : list Z) :
  length out = 64%nat → length out' = 64%nat →
  Chacha20Simd.chacha20_block out input
  = Chacha20Simd.chacha20_block out' input.
Proof. intros H H'. rewrite !chacha20_block_words by done. reflexivity. Qed.

Lemma array_regs_array (input : list Z) :
  length input = 16%nat → array_of_regs (regs_of_array input) = input.
Proof. intros H. destruct_length input H. reflexivity. Qed.

(** C2: the block function runs ten double rounds of the RFC 8439 quarter
    round, on the four columns and then the four diagonals, adds the input
    words to the result modulo 2^32 and writes the sixteen words to the 64
    bytes of [out], least significant byte first.  The input array is an
    argument that the function only reads.  Both source files. *)
Theorem chacha20_block_rfc (out input : list Z) :
  length out = 64%nat → length input = 16%nat → Forall is_u32 input →
  Chacha20.chacha20_block out input = Rfc.block input
  ∧ Chacha20Simd.chacha20_block out input = Rfc.block input.
Proof.
  intros Hout Hin Hu. rewrite block_files_agree.
  assert (Chacha20Simd.chacha20_block out input = Rfc.block input) as E;
    [|by rewrite E].
  rewrite chacha20_block_words by done. cbv zeta. unfold Rfc.block.
  assert (is_u32_regs (regs_of_array input)) as Hr.
  { unfold is_u32_regs. by rewrite array_regs_array. }
  destruct (rounds_rfc 10 _ Hr) as [E _].
  rewrite <- E, array_regs_array by done. reflexivity.
Qed.

Lemma chacha20_block_rfc_witness :
  Chacha20.chacha20_block (replicate 64 0) (Rfc.state rfc_key rfc_nonce 1)
  = Rfc.block (Rfc.state rfc_key rfc_nonce 1)
  ∧ Chacha20Simd.chacha20_block (replicate 64 0)
      (Rfc.state rfc_key rfc_nonce 1)
    = Rfc.block (Rfc.state rfc_key rfc_nonce 1).
Proof.
  apply (chacha20_block_rfc (replicate 64 0) (Rfc.state rfc_key rfc_nonce 1)).
  - reflexivity.
  - reflexivity.
  - apply (bool_decide_unpack _). vm_compute. exact I.
Defined.

(** C10: the block functions of [chacha20.c] and of [chacha20_simd.c] write
    the same 64 bytes for every input state. *)
Theorem chacha20_block_same_in_both_files (out input : list Z) :
  Chacha20.chacha20_block out input = Chacha20Simd.chacha20_block out input.
Proof.
  unfold Chacha20.chacha20_block, Chacha20Simd.chacha20_block.
  rewrite double_round_files_agree, store32_le_files_agree. reflexivity.
Qed.

(** ** The state initializer *)

(** The sixteen words that [chacha20_init_state] writes. *)
Lemma chacha20_init_state_words (state key nonce : list Z) (counter : Z) :
  length state = 16%nat →
  Chacha20Simd.chacha20_init_state state key nonce counter
  = [0x61707865; 0x3320646e; 0x79622d32; 0x6b206574;
     Chacha20Simd.load32_le key 0; Chacha20Simd.load32_le key 4;
     Chacha20Simd.load32_le key 8; Chacha20Simd.load32_le key 12;
     Chacha20Simd.load32_le key 16; Chacha20Simd.load32_le key 20;
     Chacha20Simd.load32_le key 24; Chacha20Simd.load32_le key 28;
     counter;
     Chacha20Simd.load32_le nonce 0; Chacha20Simd.load32_le nonce 4;
     Chacha20Simd.load32_le nonce 8].
Proof. intros H. destruct_length state H. reflexivity. Qed.

(** [chacha20_xor] of [chacha20.c] sets up the same state. *)
Lemma chacha20_xor_state_init (state key nonce : list Z) (counter : Z) :
  length state = 16%nat →
  Chacha20.chacha20_xor_state key nonce counter
  = Chacha20Simd.chacha20_init_state state key nonce counter.
Proof.
  intros H. rewrite chacha20_init_state_words by done.
  unfold Chacha20.chacha20_xor_state. rewrite load32_le_files_agree.
  assert (Chacha20Simd.load32_le (cstr "expa") 0 = 0x61707865) as ->
    by reflexivity.
  assert (Chacha20Simd.load32_le (cstr "nd 3") 0 = 0x3320646e) as ->
    by reflexivity.
  assert (Chacha20Simd.load32_le (cstr "2-by") 0 = 0x79622d32) as ->
    by reflexivity.
  assert (Chacha20Simd.load32_le (cstr "te k") 0 = 0x6b206574) as ->
    by reflexivity.
  reflexivity.
Qed.

Lemma chacha20_init_state_length (state key nonce : list Z) (counter : Z) :
  length (Chacha20Simd.chacha20_init_state state key nonce counter)
  = length state.
Proof.
  unfold Chacha20Simd.chacha20_init_state. cbv zeta.
  rewrite !length_insert.
  unfold for_loop. simpl. rewrite !length_insert. reflexivity.
Qed.

Lemma Forall_lookup_total_u8 (p : list Z) (i : nat) :
  Forall is_u8 p → (i < length p)%nat → is_u8 (p !!! i).
Proof.
  intros H Hi. apply (Forall_lookup_1 _ _ i (p !!! i)) in H; [done|].
  by apply list_lookup_lookup_total_lt.
Qed.

Lemma load32_le_words (p : list Z) (i : nat) :
  Forall is_u8 p → (4 * i + 3 < length p)%nat →
  Chacha20Simd.load32_le p (4 * i)
  = Rfc.le_word (p !!! (4 * i)%nat) (p !!! (4 * i + 1)%nat)
      (p !!! (4 * i + 2)%nat) (p !!! (4 * i + 3)%nat).
Proof.
  intros H Hi. apply load32_le_word; apply Forall_lookup_total_u8; done || lia.
Qed.

(** C5: the state has the constants "expand 32-byte k" in words 0-3, the
    key as eight little-endian words in words 4-11, the counter in word 12
    and the nonce as three little-endian words in words 13-15; in
    [chacha20_init_state] and in the set-up of [chacha20_xor]. *)
Theorem chacha20_init_state_layout (state key nonce : list Z) (counter : Z) :
  length state = 16%nat →
  length key = 32%nat → Forall is_u8 key →
  length nonce = 12%nat → Forall is_u8 nonce →
  Chacha20Simd.chacha20_init_state state key nonce counter
  = [0x61707865; 0x3320646e; 0x79622d32; 0x6b206574]
    ++ Rfc.le_words key 8 ++ [counter] ++ Rfc.le_words nonce 3
  ∧ Chacha20.chacha20_xor_state key nonce counter
    = [0x61707865; 0x3320646e; 0x79622d32; 0x6b206574]
      ++ Rfc.le_words key 8 ++ [counter] ++ Rfc.le_words nonce 3
  ∧ [0x61707865; 0x3320646e; 0x79622d32; 0x6b206574]
    = Rfc.le_words (cstr "expand 32-byte k") 4.
Proof.
  intros Hs Hk Hku Hn Hnu.
  rewrite (chacha20_xor_state_init state) by done.
  assert (Chacha20Simd.chacha20_init_state state key nonce counter
          = [0x61707865; 0x3320646e; 0x79622d32; 0x6b206574]
            ++ Rfc.le_words key 8 ++ [counter] ++ Rfc.le_words nonce 3) as E.
  { rewrite chacha20_init_state_words by done.
    unfold Rfc.le_words. cbn [seq fmap list_fmap app].
    rewrite <- !(load32_le_words key) by (done || lia).
    rewrite <- !(load32_le_words nonce) by (done || lia).
    reflexivity. }
  split; [exact E|]. split; [exact E|]. reflexivity.
Qed.

Lemma chacha20_init_state_layout_witness :
  Chacha20Simd.chacha20_init_state (replicate 16 0) rfc_key rfc_nonce 1
  = [0x61707865; 0x3320646e; 0x79622d32; 0x6b206574]
    ++ Rfc.le_words rfc_key 8 ++ [1] ++ Rfc.le_words rfc_nonce 3
  ∧ Chacha20.chacha20_xor_state rfc_key rfc_nonce 1
    = [0x61707865; 0x3320646e; 0x79622d32; 0x6b206574]
      ++ Rfc.le_words rfc_key 8 ++ [1] ++ Rfc.le_words rfc_nonce 3
  ∧ [0x61707865; 0x3320646e; 0x79622d32; 0x6b206574]
    = Rfc.le_words (cstr "expand 32-byte k") 4.
Proof.
  apply (chacha20_init_state_layout (replicate 16 0) rfc_key rfc_nonce 1).
  - reflexivity.
  - reflexivity.
  - apply (bool_decide_unpack _). vm_compute. exact I.
  - reflexivity.
  - apply (bool_decide_unpack _). vm_compute. exact I.
Defined.

(** ** Loops, continued *)

Lemma for_loop_4 {S : Type} (body : nat → S → S) (s : S) :
  for_loop 4 body s = body 3%nat (body 2%nat (body 1%nat (body 0%nat s))).
Proof. reflexivity. Qed.

(** A [while] loop whose condition holds for the first [n] states and fails
    for the next one runs exactly [n] iterations. *)
Lemma while_iter {S : Type} (cond : S → bool) (body : S → S) (n : nat) :
  ∀ (s : S) (fuel : nat),
    (∀ j, (j < n)%nat → cond (Nat.iter j body s) = true) →
    cond (Nat.iter n body s) = false →
    while fuel cond body s
    = if decide (n ≤ fuel)%nat then Some (Nat.iter n body s) else None.
Proof.
  induction n as [|n IH]; intros s fuel Htrue Hfalse.
  - cbn [Nat.iter nat_rect] in *. destruct fuel; cbn [while]; rewrite Hfalse;
      repeat case_decide; done || lia.
  - pose proof (Htrue 0%nat ltac:(lia)) as H0. cbn [Nat.iter nat_rect] in H0.
    rewrite Nat.iter_succ_r in Hfalse.
    destruct fuel as [|fuel]; cbn [while]; rewrite H0.
    + repeat case_decide; done || lia.
    + rewrite IH; [| |done].
      * rewrite Nat.iter_succ_r. repeat case_decide; done || lia.
      * intros j Hj. rewrite <- Nat.iter_succ_r. apply Htrue. lia.
Qed.

(** ** XOR with the keystream *)

Lemma xor_keystream_lookup (out inp : list Z) (len : nat) (key nonce : list Z)
    (counter : Z) (j : nat) :
  xor_keystream out inp len key nonce counter !! j
  = (λ o, if decide (j < len)%nat
          then u8 (Z.lxor (inp !!! j) (keystream_byte key nonce counter j))
          else o) <$> out !! j.
Proof. unfold xor_keystream. apply list_lookup_imap. Qed.

Lemma xor_keystream_length (out inp : list Z) (len : nat) (key nonce : list Z)
    (counter : Z) :
  length (xor_keystream out inp len key nonce counter) = length out.
Proof. unfold xor_keystream. apply length_imap. Qed.

Lemma xor_keystream_0 (out inp : list Z) (key nonce : list Z) (counter : Z) :
  xor_keystream out inp 0 key nonce counter = out.
Proof.
  apply list_eq. intros j. rewrite xor_keystream_lookup.
  destruct (out !! j); simpl; [repeat case_decide; done || lia | done].
Qed.

Lemma xor_loop_length (out inp blk : list Z) (off n : nat) :
  length (for_loop n
    (λ i out,
       <[(off + i)%nat :=
           u8 (Z.lxor (inp !!! (off + i)%nat) (blk !!! i))]> out) out)
  = length out.
Proof.
  induction n as [|n IH]; [done|]. by rewrite for_loop_S, length_insert.
Qed.

(** The loop that XORs [n] bytes of the block [blk] into [out] at [off]. *)
Lemma xor_loop_lookup (out inp blk : list Z) (off n j : nat) :
  for_loop n
    (λ i out,
       <[(off + i)%nat :=
           u8 (Z.lxor (inp !!! (off + i)%nat) (blk !!! i))]> out) out !! j
  = (λ o, if decide (off ≤ j < off + n)%nat
          then u8 (Z.lxor (inp !!! j) (blk !!! (j - off)%nat))
          else o) <$> out !! j.
Proof.
  induction n as [|n IH].
  - rewrite for_loop_0. destruct (out !! j); simpl; [|done].
    repeat case_decide; done || lia.
  - rewrite for_loop_S, list_lookup_insert, xor_loop_length, IH.
    destruct (out !! j) eqn:E; simpl.
    + apply lookup_lt_Some in E.
      repeat case_decide; try done; try lia.
      destruct_and!; subst j.
      assert (off + n - off = n)%nat as -> by (clear; lia). done.
    + apply lookup_ge_None in E. clear IH. case_decide; [lia | done].
Qed.

Lemma keystream_block_unfold (key nonce : list Z) (counter : Z) :
  keystream_block key nonce counter
  = Chacha20Simd.chacha20_block (replicate 64 0)
      (Chacha20Simd.chacha20_init_state (replicate 16 0) key nonce counter).
Proof. reflexivity. Qed.

Global Opaque keystream_block.
Global Opaque Chacha20Simd.chacha20_block Chacha20.chacha20_block.

(** One block more: XOR-ing [n <= 64] bytes of keystream block [q] at offset
    [64 * q] extends the transformed prefix. *)
Lemma xor_loop_keystream (out inp : list Z) (key nonce : list Z) (counter : Z)
    (off q n : nat) (blk : list Z) :
  off = (64 * q)%nat → (n ≤ 64)%nat →
  blk = keystream_block key nonce (u32 (counter + Z.of_nat q)) →
  for_loop n
    (λ i out,
       <[(off + i)%nat :=
           u8 (Z.lxor (inp !!! (off + i)%nat) (blk !!! i))]> out)
    (xor_keystream out inp off key nonce counter)
  = xor_keystream out inp (off + n) key nonce counter.
Proof.
  intros Hoff Hn ->. apply list_eq. intros j.
  rewrite xor_loop_lookup, !xor_keystream_lookup.
  destruct (out !! j); simpl; [|reflexivity]. f_equal.
  destruct (decide (off ≤ j < off + n)%nat) as [Hj|Hj].
  - rewrite decide_True by lia. unfold keystream_byte.
    assert (j / 64 = q)%nat as ->
      by (symmetry; apply (Nat.div_unique j 64 q (j - 64 * q)); lia).
    assert (j mod 64 = j - off)%nat as ->
      by (symmetry; apply (Nat.mod_unique j 64 q (j - off)); lia).
    reflexivity.
  - destruct (decide (j < off)%nat).
    + rewrite decide_True by lia. reflexivity.
    + rewrite decide_False by lia. reflexivity.
Qed.

(** ** The scalar path *)

Lemma u32_add_u32_l (x y : Z) : u32 (u32 x + y) = u32 (x + y).
Proof. unfold u32. apply Z.add_mod_idemp_l. lia. Qed.

Lemma u32_counter_succ (counter : Z) (q : nat) :
  u32 (u32 (counter + Z.of_nat q) + 1) = u32 (counter + Z.of_nat (S q)).
Proof. rewrite u32_add_u32_l. f_equal. lia. Qed.

(** [state[12]++] on an initialized state. *)
Lemma init_state_increment (state key nonce : list Z) (counter : Z) :
  length state = 16%nat →
  <[12%nat :=
      u32 (Chacha20Simd.chacha20_init_state state key nonce counter
             !!! 12%nat + 1)]>
    (Chacha20Simd.chacha20_init_state state key nonce counter)
  = Chacha20Simd.chacha20_init_state state key nonce (u32 (counter + 1)).
Proof. intros H. rewrite !chacha20_init_state_words by done. reflexivity. Qed.

(** Arithmetic with division and remainder by a constant. *)
Ltac div_lia := zify; Z.to_euclidean_division_equations; lia.

Section scalar_path.
Variables (out inp : list Z) (len : nat) (key nonce : list Z) (counter : Z).

(** One iteration of the loop of [chacha20_xor] that starts at a block
    boundary. *)
Lemma chacha20_xor_body_step (s : Chacha20.loop_state) (q : nat) :
  Chacha20.ls_offset s = (64 * q)%nat →
  Chacha20.ls_state s
  = Chacha20.chacha20_xor_state key nonce (u32 (counter + Z.of_nat q)) →
  Chacha20.ls_out s = xor_keystream out inp (64 * q) key nonce counter →
  length (Chacha20.ls_block s) = 64%nat →
  Chacha20.chacha20_xor_body inp s
  = Chacha20.LoopState
      (Chacha20.chacha20_xor_state key nonce
         (u32 (counter + Z.of_nat (S q))))
      (keystream_block key nonce (u32 (counter + Z.of_nat q)))
      (xor_keystream out inp (64 * q + Chacha20.ls_len s `min` 64) key nonce
         counter)
      (Chacha20.ls_len s - Chacha20.ls_len s `min` 64)
      (64 * q + Chacha20.ls_len s `min` 64).
Proof.
  destruct s as [st blk o l off]. cbn [Chacha20.ls_offset Chacha20.ls_state
    Chacha20.ls_out Chacha20.ls_block Chacha20.ls_len].
  intros -> -> -> Hblk. unfold Chacha20.chacha20_xor_body.
  cbn [Chacha20.ls_offset Chacha20.ls_state Chacha20.ls_out
    Chacha20.ls_block Chacha20.ls_len].
  assert ((if (l <? 64)%nat then l else 64%nat) = l `min` 64)%nat as ->.
  { destruct (Nat.ltb_spec l 64); lia. }
  rewrite (block_files_agree blk).
  rewrite (chacha20_block_overwrites blk (replicate 64 0)) by done.
  rewrite !(chacha20_xor_state_init (replicate 16 0)) by done.
  rewrite <- keystream_block_unfold.
  f_equal.
  - rewrite init_state_increment by done. by rewrite u32_counter_succ.
  - apply xor_loop_keystream with (q := q); [done | lia | done].
Qed.

Hypothesis counter_u32 : is_u32 counter.

(** The variables of [chacha20_xor] after [j] iterations of its loop. *)
Lemma chacha20_xor_iter (j : nat) :
  (64 * j < len + 64)%nat →
  let s :=
    Nat.iter j (Chacha20.chacha20_xor_body inp)
      (Chacha20.chacha20_xor_init out len key nonce counter) in
  Chacha20.ls_offset s = ((64 * j) `min` len)%nat
  ∧ Chacha20.ls_len s = (len - (64 * j) `min` len)%nat
  ∧ Chacha20.ls_state s
    = Chacha20.chacha20_xor_state key nonce (u32 (counter + Z.of_nat j))
  ∧ Chacha20.ls_out s
    = xor_keystream out inp ((64 * j) `min` len) key nonce counter
  ∧ length (Chacha20.ls_block s) = 64%nat.
Proof.
  induction j as [|j IH]; intros Hj s.
  - subst s. cbn [Nat.iter nat_rect Chacha20.chacha20_xor_init
      Chacha20.ls_offset Chacha20.ls_state Chacha20.ls_out
      Chacha20.ls_block Chacha20.ls_len].
    replace ((64 * 0) `min` len)%nat with 0%nat by lia.
    rewrite xor_keystream_0, Z.add_0_r, u32_id by done.
    split; [done|]. split; [lia|]. split; [done|]. split; [done|].
    apply length_replicate.
  - destruct IH as (Hoff & Hlen & Hst & Hout & Hblk); [lia|].
    replace ((64 * j) `min` len)%nat with (64 * j)%nat in * by lia.
    subst s. rewrite Nat.iter_succ.
    rewrite (chacha20_xor_body_step _ j) by done.
    cbn [Chacha20.ls_offset Chacha20.ls_state Chacha20.ls_out
      Chacha20.ls_block Chacha20.ls_len].
    rewrite Hlen.
    replace (64 * j + (len - 64 * j) `min` 64)%nat
      with ((64 * S j) `min` len)%nat by lia.
    split; [done|]. split; [lia|]. split; [done|]. split; [done|].
    rewrite keystream_block_unfold, chacha20_block_length.
    apply length_replicate.
Qed.

(** The loop runs [(len + 63) / 64] iterations. *)
Lemma chacha20_xor_loop_iter (fuel : nat) :
  Chacha20.chacha20_xor_loop fuel out inp len key nonce counter
  = if decide ((len + 63) / 64 ≤ fuel)%nat
    then Some (Nat.iter ((len + 63) / 64) (Chacha20.chacha20_xor_body inp)
                 (Chacha20.chacha20_xor_init out len key nonce counter))
    else None.
Proof.
  unfold Chacha20.chacha20_xor_loop. apply while_iter.
  - intros j Hj. destruct (chacha20_xor_iter j) as (_ & Hlen & _);
      [div_lia|].
    unfold Chacha20.chacha20_xor_cond. rewrite Hlen.
    apply Nat.ltb_lt. div_lia.
  - destruct (chacha20_xor_iter ((len + 63) / 64)) as (_ & Hlen & _);
      [div_lia|].
    unfold Chacha20.chacha20_xor_cond. rewrite Hlen.
    apply Nat.ltb_ge. div_lia.
Qed.

(** The scalar path XORs the keystream into the first [len] bytes. *)
Lemma chacha20_xor_correct :
  Chacha20.chacha20_xor out inp len key nonce counter
  = Some (xor_keystream out inp len key nonce counter).
Proof.
  unfold Chacha20.chacha20_xor. rewrite chacha20_xor_loop_iter.
  rewrite decide_True by div_lia. cbn [fmap option_fmap option_map].
  destruct (chacha20_xor_iter ((len + 63) / 64)) as (_ & _ & _ & Hout & _);
    [div_lia|].
  rewrite Hout. do 2 f_equal. div_lia.
Qed.
End scalar_path.

(** The keystream block in the terms of [chacha20.c]. *)
Lemma keystream_block_scalar (key nonce : list Z) (counter : Z) :
  Chacha20.chacha20_block (replicate 64 0)
    (Chacha20.chacha20_xor_state key nonce counter)
  = keystream_block key nonce counter.
Proof.
  rewrite keystream_block_unfold.
  rewrite (chacha20_xor_state_init (replicate 16 0)) by done.
  apply block_files_agree.
Qed.

(** C6: the scalar path works region by region.  Its loop runs
    [(len + 63) / 64] iterations, no more and no fewer.  After [j] of them
    it is at offset [min (64 * j) len]: every iteration XORs
    [min 64 remaining] bytes, and the transformed prefix is the XOR of the
    input with the keystream, whose [j]-th block is the block function on the
    state with the counter [counter + j] modulo 2^32.  The state then has the
    counter [counter + j] modulo 2^32, also after a partial last region. *)
Theorem chacha20_xor_regions (out inp : list Z) (len : nat)
    (key nonce : list Z) (counter : Z) :
  is_u32 counter →
  let n := ((len + 63) / 64)%nat in
  let step := Chacha20.chacha20_xor_body inp in
  let start := Chacha20.chacha20_xor_init out len key nonce counter in
  (∀ fuel,
     Chacha20.chacha20_xor_loop fuel out inp len key nonce counter
     = if decide (n ≤ fuel)%nat then Some (Nat.iter n step start) else None)
  ∧ (∀ j, (j ≤ n)%nat →
       let s := Nat.iter j step start in
       Chacha20.ls_offset s = ((64 * j) `min` len)%nat
       ∧ Chacha20.ls_len s = (len - (64 * j) `min` len)%nat
       ∧ Chacha20.ls_state s
         = Chacha20.chacha20_xor_state key nonce (u32 (counter + Z.of_nat j))
       ∧ Chacha20.ls_out s
         = xor_keystream out inp ((64 * j) `min` len) key nonce counter)
  ∧ (∀ j, (j < n)%nat →
       Chacha20.ls_block (Nat.iter (S j) step start)
       = Chacha20.chacha20_block (replicate 64 0)
           (Chacha20.chacha20_xor_state key nonce
              (u32 (counter + Z.of_nat j))))
  ∧ (∀ i, keystream_byte key nonce counter i
          = Chacha20.chacha20_block (replicate 64 0)
              (Chacha20.chacha20_xor_state key nonce
                 (u32 (counter + Z.of_nat (i / 64)))) !!! (i mod 64)%nat)
  ∧ Chacha20.chacha20_xor out inp len key nonce counter
    = Some (xor_keystream out inp len key nonce counter).
Proof.
  intros Hc n step start. split; [|split; [|split; [|split]]].
  - intros fuel. by apply chacha20_xor_loop_iter.
  - intros j Hj s.
    destruct (chacha20_xor_iter out inp len key nonce counter Hc j)
      as (H1 & H2 & H3 & H4 & _); [subst n; div_lia|].
    done.
  - intros j Hj.
    destruct (chacha20_xor_iter out inp len key nonce counter Hc j)
      as (H1 & H2 & H3 & H4 & H5); [subst n; div_lia|].
    subst step start. rewrite Nat.iter_succ.
    rewrite (chacha20_xor_body_step out inp key nonce counter _ j);
      [|rewrite H1; subst n; div_lia|done
     |rewrite H4; f_equal; subst n; div_lia|done].
    cbn [Chacha20.ls_block]. symmetry. apply keystream_block_scalar.
  - intros i. unfold keystream_byte. by rewrite keystream_block_scalar.
  - by apply chacha20_xor_correct.
Qed.

Lemma chacha20_xor_regions_witness :
  Chacha20.chacha20_xor (replicate 130 0) (replicate 130 1) 130
    rfc_key rfc_nonce 0xFFFFFFFF
  = Some (xor_keystream (replicate 130 0) (replicate 130 1) 130
            rfc_key rfc_nonce 0xFFFFFFFF).
Proof.
  apply (chacha20_xor_regions (replicate 130 0) (replicate 130 1) 130
           rfc_key rfc_nonce 0xFFFFFFFF).
  unfold is_u32. lia.
Defined.


(** ** The paths that work on four blocks at a time *)

Global Opaque Chacha20Simd.chacha20_init_state.

(** The contents of [block[4][64]] and of [ks[4][64]] for the block counters
    [counter .. counter + 3]. *)
Lemma keystream4_lookup (key nonce : list Z) (counter : Z) (k : nat) :
  (k < 4)%nat →
  keystream4 key nonce counter !!! k
  = keystream_block key nonce (u32 (counter + Z.of_nat k)).
Proof.
  intros Hk. destruct k as [|[|[|[|k]]]]; try reflexivity. lia.
Qed.

Lemma keystream4_is_blocks4 (key nonce : list Z) (counter : Z) :
  is_blocks4 (keystream4 key nonce counter).
Proof.
  unfold is_blocks4, keystream4. split; [reflexivity|].
  cbn [seq fmap list_fmap].
  repeat (constructor;
          [rewrite keystream_block_unfold, chacha20_block_length;
           apply length_replicate|]).
  constructor.
Qed.

(** The loop of [chacha20_xor_interleaved4] that generates four blocks. *)
Lemma interleaved4_generate (block : list (list Z)) (key nonce : list Z)
    (counter : Z) :
  is_blocks4 block →
  for_loop 4
    (λ k block,
       let st := replicate 16 0 in
       let st :=
         Chacha20Simd.chacha20_init_state st key nonce
           (u32 (counter + Z.of_nat k)) in
       <[k := Chacha20Simd.chacha20_block (block !!! k) st]> block)
    block
  = keystream4 key nonce counter.
Proof.
  intros [Hlen Hall]. destruct_length block Hlen.
  repeat match goal with
         | H : Forall _ (_ :: _) |- _ =>
             apply Forall_cons_1 in H; destruct H as [? H]
         end.
  rewrite for_loop_4. cbv zeta.
  cbn [lookup_total list_lookup_total insert list_insert].
  unfold keystream4. cbn [seq fmap list_fmap].
  rewrite !keystream_block_unfold.
  repeat match goal with
         | H : length ?b = 64%nat |- _ =>
             rewrite (chacha20_block_overwrites b (replicate 64 0)) by done;
             clear H
         end.
  reflexivity.
Qed.

Lemma xor_loop_keystream_at (out inp : list Z) (key nonce : list Z)
    (counter : Z) (off0 off q n : nat) (blk : list Z) :
  off0 = off → off = (64 * q)%nat → (n ≤ 64)%nat →
  blk = keystream_block key nonce (u32 (counter + Z.of_nat q)) →
  for_loop n
    (λ i out,
       <[(off + i)%nat :=
           u8 (Z.lxor (inp !!! (off + i)%nat) (blk !!! i))]> out)
    (xor_keystream out inp off0 key nonce counter)
  = xor_keystream out inp (off + n) key nonce counter.
Proof. intros ->. apply xor_loop_keystream. Qed.

(** The two nested loops that XOR four keystream blocks into [out]. *)
Lemma xor4_keystream (out inp : list Z) (key nonce : list Z) (counter : Z)
    (q : nat) :
  Chacha20Simd.xor4 (xor_keystream out inp (256 * q) key nonce counter) inp
    (256 * q) (keystream4 key nonce (u32 (counter + Z.of_nat (4 * q))))
  = xor_keystream out inp (256 * q + 256) key nonce counter.
Proof.
  unfold Chacha20Simd.xor4. rewrite for_loop_4.
  assert (∀ k, (k < 4)%nat →
            keystream4 key nonce (u32 (counter + Z.of_nat (4 * q))) !!! k
            = keystream_block key nonce
                (u32 (counter + Z.of_nat (4 * q + k)))) as Hks.
  { intros k Hk. rewrite keystream4_lookup, u32_add_u32_l by done.
    replace (counter + Z.of_nat (4 * q) + Z.of_nat k)
      with (counter + Z.of_nat (4 * q + k)) by lia.
    reflexivity. }
  generalize dependent
    (keystream4 key nonce (u32 (counter + Z.of_nat (4 * q)))).
  intros ks Hks.
  rewrite (xor_loop_keystream_at _ _ _ _ _ _ _ (4 * q + 0));
    [|lia|lia|lia|apply Hks; lia].
  rewrite (xor_loop_keystream_at _ _ _ _ _ _ _ (4 * q + 1));
    [|lia|lia|lia|apply Hks; lia].
  rewrite (xor_loop_keystream_at _ _ _ _ _ _ _ (4 * q + 2));
    [|lia|lia|lia|apply Hks; lia].
  rewrite (xor_loop_keystream_at _ _ _ _ _ _ _ (4 * q + 3));
    [|lia|lia|lia|apply Hks; lia].
  replace (256 * q + 3 * 64 + 64)%nat with (256 * q + 256)%nat by lia.
  reflexivity.
Qed.

Section four_block_loop.
Variables (out inp : list Z) (len : nat) (key nonce : list Z) (counter : Z).

(** The loop condition and body of either path: [len >= 256], and a body
    that fills the four blocks and XORs them. *)
Variable cond : Chacha20Simd.loop_state → bool.
Variable body : Chacha20Simd.loop_state → Chacha20Simd.loop_state.

Hypothesis cond_spec : ∀ s, cond s = (256 <=? Chacha20Simd.ls_len s)%nat.

Hypothesis body_spec : ∀ s,
  is_blocks4 (Chacha20Simd.ls_block s) →
  is_u32 (Chacha20Simd.ls_counter s) →
  body s
  = let ks := keystream4 key nonce (Chacha20Simd.ls_counter s) in
    Chacha20Simd.LoopState ks
      (Chacha20Simd.xor4 (Chacha20Simd.ls_out s) inp (Chacha20Simd.ls_off s)
         ks)
      (Chacha20Simd.ls_len s - 256)
      (Chacha20Simd.ls_off s + 256)
      (u32 (Chacha20Simd.ls_counter s + 4)).

Hypothesis counter_u32 : is_u32 counter.

Let start : Chacha20Simd.loop_state :=
  Chacha20Simd.LoopState (replicate 4 (replicate 64 0)) out len 0 counter.

(** The variables after [j] iterations. *)
Lemma four_block_iter (j : nat) :
  (256 * j ≤ len)%nat →
  let s := Nat.iter j body start in
  Chacha20Simd.ls_off s = (256 * j)%nat
  ∧ Chacha20Simd.ls_len s = (len - 256 * j)%nat
  ∧ Chacha20Simd.ls_counter s = u32 (counter + Z.of_nat (4 * j))
  ∧ Chacha20Simd.ls_out s
    = xor_keystream out inp (256 * j) key nonce counter
  ∧ is_blocks4 (Chacha20Simd.ls_block s).
Proof.
  induction j as [|j IH]; intros Hj s.
  - subst s start. cbn [Nat.iter nat_rect Chacha20Simd.ls_off
      Chacha20Simd.ls_len Chacha20Simd.ls_counter Chacha20Simd.ls_out
      Chacha20Simd.ls_block].
    rewrite xor_keystream_0, Z.add_0_r, u32_id by done.
    split; [done|]. split; [lia|]. split; [done|]. split; [done|].
    split; [reflexivity|]. repeat constructor.
  - destruct IH as (Hoff & Hlen & Hctr & Hout & Hblk); [lia|].
    subst s. rewrite Nat.iter_succ.
    rewrite body_spec by (done || rewrite Hctr; apply u32_is_u32).
    cbv zeta. cbn [Chacha20Simd.ls_off Chacha20Simd.ls_len
      Chacha20Simd.ls_counter Chacha20Simd.ls_out Chacha20Simd.ls_block].
    rewrite Hoff, Hlen, Hctr, Hout, xor4_keystream, u32_add_u32_l.
    split; [lia|]. split; [lia|]. split; [f_equal; lia|].
    split; [f_equal; lia|]. apply keystream4_is_blocks4.
Qed.

(** The loop runs [len / 256] iterations. *)
Lemma four_block_loop (fuel : nat) :
  while fuel cond body start
  = if decide (len / 256 ≤ fuel)%nat
    then Some (Nat.iter (len / 256) body start) else None.
Proof.
  apply while_iter.
  - intros j Hj. destruct (four_block_iter j) as (_ & Hlen & _); [div_lia|].
    rewrite cond_spec, Hlen. apply Nat.leb_le. div_lia.
  - destruct (four_block_iter (len / 256)) as (_ & Hlen & _); [div_lia|].
    rewrite cond_spec, Hlen. apply Nat.leb_gt. div_lia.
Qed.
End four_block_loop.

Section tail_loop.
Variables (out inp : list Z) (key nonce : list Z) (counter : Z).

(** One iteration of the tail loop of [chacha20_xor_interleaved4] that
    starts at a block boundary. *)
Lemma tail_body_step (s : Chacha20Simd.loop_state) (q : nat) :
  Chacha20Simd.ls_off s = (64 * q)%nat →
  Chacha20Simd.ls_counter s = u32 (counter + Z.of_nat q) →
  Chacha20Simd.ls_out s = xor_keystream out inp (64 * q) key nonce counter →
  Chacha20Simd.tail_body inp key nonce s
  = Chacha20Simd.LoopState (Chacha20Simd.ls_block s)
      (xor_keystream out inp (64 * q + Chacha20Simd.ls_len s `min` 64)
         key nonce counter)
      (Chacha20Simd.ls_len s - Chacha20Simd.ls_len s `min` 64)
      (64 * q + Chacha20Simd.ls_len s `min` 64)
      (u32 (counter + Z.of_nat (S q))).
Proof.
  destruct s as [blk o l off c]. cbn [Chacha20Simd.ls_off
    Chacha20Simd.ls_len Chacha20Simd.ls_counter Chacha20Simd.ls_out
    Chacha20Simd.ls_block].
  intros -> -> ->. unfold Chacha20Simd.tail_body. cbv zeta.
  cbn [Chacha20Simd.ls_off Chacha20Simd.ls_len Chacha20Simd.ls_counter
    Chacha20Simd.ls_out Chacha20Simd.ls_block].
  assert ((if (l <? 64)%nat then l else 64%nat) = l `min` 64)%nat as ->.
  { destruct (Nat.ltb_spec l 64); lia. }
  rewrite <- keystream_block_unfold, u32_counter_succ.
  f_equal. apply xor_loop_keystream with (q := q); [done | lia | done].
Qed.

(** The tail loop from a state [s0] at the block boundary [64 * q0]. *)
Variables (s0 : Chacha20Simd.loop_state) (q0 : nat).
Hypothesis s0_off : Chacha20Simd.ls_off s0 = (64 * q0)%nat.
Hypothesis s0_counter :
  Chacha20Simd.ls_counter s0 = u32 (counter + Z.of_nat q0).
Hypothesis s0_out :
  Chacha20Simd.ls_out s0 = xor_keystream out inp (64 * q0) key nonce counter.

Lemma tail_iter (j : nat) :
  (64 * j < Chacha20Simd.ls_len s0 + 64)%nat →
  let s := Nat.iter j (Chacha20Simd.tail_body inp key nonce) s0 in
  let done_ := ((64 * j) `min` Chacha20Simd.ls_len s0)%nat in
  Chacha20Simd.ls_off s = (64 * q0 + done_)%nat
  ∧ Chacha20Simd.ls_len s = (Chacha20Simd.ls_len s0 - done_)%nat
  ∧ Chacha20Simd.ls_counter s = u32 (counter + Z.of_nat (q0 + j))
  ∧ Chacha20Simd.ls_out s
    = xor_keystream out inp (64 * q0 + done_) key nonce counter.
Proof.
  induction j as [|j IH]; intros Hj s done_.
  - subst s done_. cbn [Nat.iter nat_rect].
    replace ((64 * 0) `min` Chacha20Simd.ls_len s0)%nat with 0%nat by lia.
    rewrite !Nat.add_0_r. split; [done|]. split; [lia|]. split; done.
  - destruct IH as (Hoff & Hlen & Hctr & Hout); [lia|].
    replace ((64 * j) `min` Chacha20Simd.ls_len s0)%nat
      with (64 * j)%nat in * by lia.
    subst s. rewrite Nat.iter_succ.
    rewrite (tail_body_step _ (q0 + j));
      [|rewrite Hoff; lia|done|rewrite Hout; f_equal; lia].
    cbn [Chacha20Simd.ls_off Chacha20Simd.ls_len Chacha20Simd.ls_counter
      Chacha20Simd.ls_out Chacha20Simd.ls_block].
    rewrite Hlen.
    replace (64 * (q0 + j) + (Chacha20Simd.ls_len s0 - 64 * j) `min` 64)%nat
      with (64 * q0 + done_)%nat by (subst done_; lia).
    split; [done|]. split; [subst done_; lia|]. split; [|done].
    do 2 f_equal. lia.
Qed.

(** The tail loop runs [(len + 63) / 64] iterations for the [len] bytes
    that are left, and transforms them all. *)
Lemma tail_loop (fuel : nat) :
  let n := ((Chacha20Simd.ls_len s0 + 63) / 64)%nat in
  while fuel Chacha20Simd.tail_cond (Chacha20Simd.tail_body inp key nonce) s0
  = if decide (n ≤ fuel)%nat
    then Some (Nat.iter n (Chacha20Simd.tail_body inp key nonce) s0)
    else None.
Proof.
  intros n. apply while_iter.
  - intros j Hj. destruct (tail_iter j) as (_ & Hlen & _);
      [subst n; div_lia|].
    unfold Chacha20Simd.tail_cond. rewrite Hlen.
    apply Nat.ltb_lt. subst n; div_lia.
  - destruct (tail_iter n) as (_ & Hlen & _); [subst n; div_lia|].
    unfold Chacha20Simd.tail_cond. rewrite Hlen.
    apply Nat.ltb_ge. subst n; div_lia.
Qed.

Lemma tail_loop_out :
  ∃ s,
    while (Chacha20Simd.ls_len s0) Chacha20Simd.tail_cond
      (Chacha20Simd.tail_body inp key nonce) s0 = Some s
    ∧ Chacha20Simd.ls_out s
      = xor_keystream out inp (64 * q0 + Chacha20Simd.ls_len s0) key nonce
          counter.
Proof.
  rewrite tail_loop. rewrite decide_True by div_lia.
  eexists. split; [reflexivity|].
  destruct (tail_iter ((Chacha20Simd.ls_len s0 + 63) / 64))
    as (_ & _ & _ & Hout); [div_lia|].
  rewrite Hout. f_equal. div_lia.
Qed.
End tail_loop.

(** ** The interleaved-4 path *)

Lemma interleaved4_body_spec (inp key nonce : list Z)
    (s : Chacha20Simd.loop_state) :
  is_blocks4 (Chacha20Simd.ls_block s) →
  is_u32 (Chacha20Simd.ls_counter s) →
  Chacha20Simd.interleaved4_body inp key nonce s
  = let ks := keystream4 key nonce (Chacha20Simd.ls_counter s) in
    Chacha20Simd.LoopState ks
      (Chacha20Simd.xor4 (Chacha20Simd.ls_out s) inp (Chacha20Simd.ls_off s)
         ks)
      (Chacha20Simd.ls_len s - 256)
      (Chacha20Simd.ls_off s + 256)
      (u32 (Chacha20Simd.ls_counter s + 4)).
Proof.
  intros Hblk _. unfold Chacha20Simd.interleaved4_body. cbv zeta.
  rewrite interleaved4_generate by done. reflexivity.
Qed.

(** The interleaved-4 path XORs the keystream into the first [len] bytes. *)
Lemma chacha20_xor_interleaved4_correct (out inp : list Z) (len : nat)
    (key nonce : list Z) (counter : Z) :
  is_u32 counter →
  Chacha20Simd.chacha20_xor_interleaved4 out inp len key nonce counter
  = Some (xor_keystream out inp len key nonce counter).
Proof.
  intros Hc. unfold Chacha20Simd.chacha20_xor_interleaved4.
  rewrite (four_block_loop out inp len key nonce counter);
    [|done|apply interleaved4_body_spec|done].
  rewrite decide_True by div_lia. cbn [mbind option_bind].
  destruct (four_block_iter out inp len key nonce counter
              (Chacha20Simd.interleaved4_body inp key nonce)
              (interleaved4_body_spec inp key nonce) Hc (len / 256))
    as (Hoff & Hlen & Hctr & Hout & _); [div_lia|].
  match type of Hoff with Chacha20Simd.ls_off ?s = _ => set (s1 := s) in * end.
  destruct (tail_loop_out out inp key nonce counter s1 (4 * (len / 256)))
    as (s & -> & Hs); [rewrite Hoff; lia|done|rewrite Hout; f_equal; lia|].
  cbn [mbind option_bind]. rewrite Hs, Hlen. do 2 f_equal. div_lia.
Qed.

(** ** The NEON path: lanes *)

Ltac destruct_lane k H :=
  destruct k as [|[|[|[|k]]]]; [| | | |exfalso; clear -H; lia].

(** On every lane the NEON quarter round is the scalar quarter round. *)
Lemma NEON_QR_lane (k : nat) (a b c d : uint32x4_t) :
  (k < 4)%nat →
  (let '(a', b', c', d') := Chacha20Simd.NEON_QR (a, b, c, d) in
   (vgetq_lane_u32 a' k, vgetq_lane_u32 b' k, vgetq_lane_u32 c' k,
    vgetq_lane_u32 d' k))
  = Chacha20Simd.QUARTERROUND
      (vgetq_lane_u32 a k, vgetq_lane_u32 b k, vgetq_lane_u32 c k,
       vgetq_lane_u32 d k).
Proof.
  intros Hk.
  cbv [Chacha20Simd.NEON_QR Chacha20Simd.QUARTERROUND Chacha20Simd.ROTL16
       Chacha20Simd.ROTL12 Chacha20Simd.ROTL8 Chacha20Simd.ROTL7
       Chacha20Simd.ROTL32 vaddq_u32 veorq_u32 vorrq_u32 vshlq_n_u32
       vshrq_n_u32 lanewise1 lanewise2 lane0 lane1 lane2 lane3].
  destruct a as [a0 a1 a2 a3], b as [b0 b1 b2 b3], c as [c0 c1 c2 c3],
    d as [d0 d1 d2 d3].
  destruct_lane k Hk; cbv [vgetq_lane_u32 lane0 lane1 lane2 lane3];
    reflexivity.
Qed.

Local Opaque Chacha20Simd.NEON_QR Chacha20Simd.QUARTERROUND.

Lemma neon_double_round_lanes (k : nat) (x : regs uint32x4_t) :
  (k < 4)%nat →
  lanes k (Chacha20Simd.neon_double_round x)
  = Chacha20Simd.double_round (lanes k x).
Proof.
  intros Hk.
  destruct x as [v0 v1 v2 v3 v4 v5 v6 v7 v8 v9 v10 v11 v12 v13 v14 v15].
  unfold Chacha20Simd.neon_double_round, Chacha20Simd.double_round, lanes,
    regs_map.
  cbn [x0 x1 x2 x3 x4 x5 x6 x7 x8 x9 x10 x11 x12 x13 x14 x15].
  repeat match goal with
         | |- context [Chacha20Simd.NEON_QR (?a, ?b, ?c, ?d)] =>
             let E := fresh "E" in
             pose proof (NEON_QR_lane k a b c d Hk) as E;
             destruct (Chacha20Simd.NEON_QR (a, b, c, d)) as [[[? ?] ?] ?];
             rewrite <- E; clear E
         end.
  reflexivity.
Qed.

Local Transparent Chacha20Simd.NEON_QR Chacha20Simd.QUARTERROUND.

Lemma neon_rounds_lanes (k n : nat) (x : regs uint32x4_t) :
  (k < 4)%nat →
  lanes k (for_loop n (λ _ x, Chacha20Simd.neon_double_round x) x)
  = for_loop n (λ _ x, Chacha20Simd.double_round x) (lanes k x).
Proof.
  intros Hk. induction n as [|n IH]; [done|].
  rewrite !for_loop_S, neon_double_round_lanes, IH by done. reflexivity.
Qed.

(** Lane [k] of the input vectors is the state with the counter
    [counter + k]. *)
Lemma neon4_input_lanes (k : nat) (key nonce : list Z) (counter : Z) :
  (k < 4)%nat → is_u32 counter →
  lanes k (Chacha20Simd.neon4_input key nonce counter)
  = regs_of_array
      (Chacha20Simd.chacha20_init_state (replicate 16 0) key nonce
         (u32 (counter + Z.of_nat k))).
Proof.
  intros Hk Hc. rewrite chacha20_init_state_words by done.
  destruct_lane k Hk; try reflexivity.
  change (Z.of_nat 0) with 0. rewrite Z.add_0_r, u32_id by done. reflexivity.
Qed.

Lemma feed_forward_lanes (k : nat) (x y : regs uint32x4_t) :
  (k < 4)%nat →
  array_of_regs
    (lanes k
       (Regs (vaddq_u32 (x0 x) (x0 y)) (vaddq_u32 (x1 x) (x1 y))
          (vaddq_u32 (x2 x) (x2 y)) (vaddq_u32 (x3 x) (x3 y))
          (vaddq_u32 (x4 x) (x4 y)) (vaddq_u32 (x5 x) (x5 y))
          (vaddq_u32 (x6 x) (x6 y)) (vaddq_u32 (x7 x) (x7 y))
          (vaddq_u32 (x8 x) (x8 y)) (vaddq_u32 (x9 x) (x9 y))
          (vaddq_u32 (x10 x) (x10 y)) (vaddq_u32 (x11 x) (x11 y))
          (vaddq_u32 (x12 x) (x12 y)) (vaddq_u32 (x13 x) (x13 y))
          (vaddq_u32 (x14 x) (x14 y)) (vaddq_u32 (x15 x) (x15 y))))
  = zip_with Rfc.add32 (array_of_regs (lanes k x)) (array_of_regs (lanes k y)).
Proof.
  intros Hk. destruct x, y. destruct_lane k Hk; reflexivity.
Qed.

Local Opaque Chacha20Simd.store32_le vgetq_lane_u32.

(** The loop that extracts the lanes: block [k] receives lane [k] of the
    sixteen vectors, word by word. *)
Lemma extract_lanes (ks : list (list Z))
    (v0 v1 v2 v3 v4 v5 v6 v7 v8 v9 v10 v11 v12 v13 v14 v15 : uint32x4_t) :
  is_blocks4 ks →
  for_loop 16
    (λ w ks,
       let ks :=
         <[0%nat := Chacha20Simd.store32_le (ks !!! 0%nat) (4 * w)
                      (vgetq_lane_u32
                         ([v0; v1; v2; v3; v4; v5; v6; v7;
                           v8; v9; v10; v11; v12; v13; v14; v15] !!! w) 0)]>
           ks in
       let ks :=
         <[1%nat := Chacha20Simd.store32_le (ks !!! 1%nat) (4 * w)
                      (vgetq_lane_u32
                         ([v0; v1; v2; v3; v4; v5; v6; v7;
                           v8; v9; v10; v11; v12; v13; v14; v15] !!! w) 1)]>
           ks in
       let ks :=
         <[2%nat := Chacha20Simd.store32_le (ks !!! 2%nat) (4 * w)
                      (vgetq_lane_u32
                         ([v0; v1; v2; v3; v4; v5; v6; v7;
                           v8; v9; v10; v11; v12; v13; v14; v15] !!! w) 2)]>
           ks in
       let ks :=
         <[3%nat := Chacha20Simd.store32_le (ks !!! 3%nat) (4 * w)
                      (vgetq_lane_u32
                         ([v0; v1; v2; v3; v4; v5; v6; v7;
                           v8; v9; v10; v11; v12; v13; v14; v15] !!! w) 3)]>
           ks in
       ks)
    ks
  = (λ k, mjoin (Rfc.le_bytes <$>
                   array_of_regs
                     (lanes k (Regs v0 v1 v2 v3 v4 v5 v6 v7
                                    v8 v9 v10 v11 v12 v13 v14 v15))))
    <$> seq 0 4.
Proof.
  intros [Hlen Hall]. destruct_length ks Hlen.
  repeat match goal with
         | H : Forall _ (_ :: _) |- _ =>
             apply Forall_cons_1 in H; destruct H as [? H]
         end.
  unfold for_loop. cbv zeta.
  cbn [seq foldl lookup_total list_lookup_total insert list_insert
       Nat.mul Nat.add].
  rewrite !stores_fill by done. reflexivity.
Qed.

Local Transparent Chacha20Simd.store32_le vgetq_lane_u32.

(** One iteration of the NEON loop leaves in [ks] the four keystream blocks
    of the counters [counter .. counter + 3]. *)
Lemma neon4_keystream_correct (ks : list (list Z)) (key nonce : list Z)
    (counter : Z) :
  is_blocks4 ks → is_u32 counter →
  Chacha20Simd.neon4_keystream ks key nonce counter
  = keystream4 key nonce counter.
Proof.
  intros Hks Hc. unfold Chacha20Simd.neon4_keystream. cbv zeta.
  rewrite extract_lanes by done.
  unfold keystream4. apply list_fmap_ext. intros i k Hk.
  apply lookup_seq in Hk as [-> Hk]. simpl in Hk. cbn [Nat.add].
  rewrite feed_forward_lanes, neon_rounds_lanes, neon4_input_lanes by done.
  rewrite keystream_block_unfold, chacha20_block_words by done.
  reflexivity.
Qed.

(** C3: the four blocks that one iteration of the NEON path gathers from
    the lanes of its sixteen vectors are the outputs of the block function on
    the states with the counters [counter], [counter + 1], [counter + 2] and
    [counter + 3] modulo 2^32. *)
Theorem neon4_lanes_are_sequential_blocks (ks : list (list Z))
    (key nonce : list Z) (counter : Z) :
  is_blocks4 ks → is_u32 counter →
  Chacha20Simd.neon4_keystream ks key nonce counter
  = [Chacha20Simd.chacha20_block (replicate 64 0)
       (Chacha20Simd.chacha20_init_state (replicate 16 0) key nonce counter);
     Chacha20Simd.chacha20_block (replicate 64 0)
       (Chacha20Simd.chacha20_init_state (replicate 16 0) key nonce
          (u32 (counter + 1)));
     Chacha20Simd.chacha20_block (replicate 64 0)
       (Chacha20Simd.chacha20_init_state (replicate 16 0) key nonce
          (u32 (counter + 2)));
     Chacha20Simd.chacha20_block (replicate 64 0)
       (Chacha20Simd.chacha20_init_state (replicate 16 0) key nonce
          (u32 (counter + 3)))].
Proof.
  intros Hks Hc. rewrite neon4_keystream_correct by done.
  unfold keystream4. cbn [seq fmap list_fmap].
  rewrite !keystream_block_unfold.
  change (Z.of_nat 0) with 0. rewrite Z.add_0_r, (u32_id counter) by done.
  reflexivity.
Qed.

Lemma neon4_lanes_are_sequential_blocks_witness :
  Chacha20Simd.neon4_keystream (replicate 4 (replicate 64 0))
    rfc_key rfc_nonce 0xFFFFFFFE
  = [Chacha20Simd.chacha20_block (replicate 64 0)
       (Chacha20Simd.chacha20_init_state (replicate 16 0) rfc_key rfc_nonce
          0xFFFFFFFE);
     Chacha20Simd.chacha20_block (replicate 64 0)
       (Chacha20Simd.chacha20_init_state (replicate 16 0) rfc_key rfc_nonce
          (u32 (0xFFFFFFFE + 1)));
     Chacha20Simd.chacha20_block (replicate 64 0)
       (Chacha20Simd.chacha20_init_state (replicate 16 0) rfc_key rfc_nonce
          (u32 (0xFFFFFFFE + 2)));
     Chacha20Simd.chacha20_block (replicate 64 0)
       (Chacha20Simd.chacha20_init_state (replicate 16 0) rfc_key rfc_nonce
          (u32 (0xFFFFFFFE + 3)))].
Proof.
  apply (neon4_lanes_are_sequential_blocks (replicate 4 (replicate 64 0))
           rfc_key rfc_nonce 0xFFFFFFFE).
  - split; [reflexivity | repeat constructor].
  - unfold is_u32. lia.
Defined.

(** ** The NEON path *)

Lemma neon4_body_spec (inp key nonce : list Z) (s : Chacha20Simd.loop_state) :
  is_blocks4 (Chacha20Simd.ls_block s) →
  is_u32 (Chacha20Simd.ls_counter s) →
  Chacha20Simd.neon4_body inp key nonce s
  = let ks := keystream4 key nonce (Chacha20Simd.ls_counter s) in
    Chacha20Simd.LoopState ks
      (Chacha20Simd.xor4 (Chacha20Simd.ls_out s) inp (Chacha20Simd.ls_off s)
         ks)
      (Chacha20Simd.ls_len s - 256)
      (Chacha20Simd.ls_off s + 256)
      (u32 (Chacha20Simd.ls_counter s + 4)).
Proof.
  intros Hblk Hc. unfold Chacha20Simd.neon4_body. cbv zeta.
  rewrite neon4_keystream_correct by done. reflexivity.
Qed.

(** The keystream from block [q] on is the keystream of the counter
    [counter + q]. *)
Lemma keystream_byte_shift (key nonce : list Z) (counter : Z) (q i : nat) :
  keystream_byte key nonce (u32 (counter + Z.of_nat q)) i
  = keystream_byte key nonce counter (64 * q + i).
Proof.
  unfold keystream_byte. rewrite u32_add_u32_l.
  replace ((64 * q + i) / 64)%nat with (q + i / 64)%nat by div_lia.
  replace ((64 * q + i) mod 64)%nat with (i mod 64)%nat by div_lia.
  replace (counter + Z.of_nat q + Z.of_nat (i / 64))
    with (counter + Z.of_nat (q + i / 64)) by lia.
  reflexivity.
Qed.

(** Transforming [n] bytes more through the pointers [out + off] and
    [in + off], with the counter moved on to block [q]. *)
Lemma xor_keystream_split (out inp : list Z) (key nonce : list Z)
    (counter : Z) (off q n : nat) :
  off = (64 * q)%nat →
  take off (xor_keystream out inp off key nonce counter)
  ++ xor_keystream (drop off (xor_keystream out inp off key nonce counter))
       (drop off inp) n key nonce (u32 (counter + Z.of_nat q))
  = xor_keystream out inp (off + n) key nonce counter.
Proof.
  intros Hoff. apply list_eq. intros j.
  rewrite lookup_app, lookup_take, length_take, xor_keystream_length.
  rewrite !xor_keystream_lookup, lookup_drop, xor_keystream_lookup.
  destruct (decide (j < off)%nat) as [Hj|Hj].
  - destruct (out !! j) as [o|] eqn:E; cbn [fmap option_fmap option_map].
    + rewrite !decide_True by lia. reflexivity.
    + apply lookup_ge_None in E.
      rewrite lookup_ge_None_2 by lia. reflexivity.
  - destruct (out !! j) as [o|] eqn:E.
    + apply lookup_lt_Some in E as Hlt.
      replace (off + (j - off `min` length out))%nat with j by lia.
      rewrite E. cbn [fmap option_fmap option_map].
      rewrite (decide_False (P := (j < off)%nat)) by done.
      rewrite lookup_total_drop, keystream_byte_shift.
      replace (off + (j - off `min` length out))%nat with j by lia.
      replace (64 * q + (j - off `min` length out))%nat with j by lia.
      destruct (decide (j - off `min` length out < n)%nat).
      * rewrite decide_True by lia. reflexivity.
      * rewrite decide_False by lia. reflexivity.
    + apply lookup_ge_None in E.
      rewrite lookup_ge_None_2 by lia. reflexivity.
Qed.

(** The NEON path XORs the keystream into the first [len] bytes. *)
Lemma chacha20_xor_neon4_correct (out inp : list Z) (len : nat)
    (key nonce : list Z) (counter : Z) :
  is_u32 counter →
  Chacha20Simd.chacha20_xor_neon4 out inp len key nonce counter
  = Some (xor_keystream out inp len key nonce counter).
Proof.
  intros Hc. unfold Chacha20Simd.chacha20_xor_neon4.
  rewrite (four_block_loop out inp len key nonce counter);
    [|done|apply neon4_body_spec|done].
  rewrite decide_True by div_lia. cbn [mbind option_bind].
  destruct (four_block_iter out inp len key nonce counter
              (Chacha20Simd.neon4_body inp key nonce)
              (neon4_body_spec inp key nonce) Hc (len / 256))
    as (Hoff & Hlen & Hctr & Hout & _); [div_lia|].
  rewrite Hoff, Hlen, Hctr, Hout.
  destruct (Nat.ltb_spec 0 (len - 256 * (len / 256))) as [Hrest|Hrest].
  - rewrite chacha20_xor_interleaved4_correct by apply u32_is_u32.
    cbn [mbind option_bind].
    rewrite (xor_keystream_split _ _ _ _ _ _ (4 * (len / 256))) by lia.
    do 2 f_equal. lia.
  - do 2 f_equal. lia.
Qed.

(** ** The paths as a whole *)

Lemma chacha20_xor_best_correct (HAVE_NEON : bool) (out inp : list Z)
    (len : nat) (key nonce : list Z) (counter : Z) :
  is_u32 counter →
  Chacha20Simd.chacha20_xor_best HAVE_NEON out inp len key nonce counter
  = Some (xor_keystream out inp len key nonce counter).
Proof.
  intros Hc. destruct HAVE_NEON; cbn [Chacha20Simd.chacha20_xor_best].
  - by apply chacha20_xor_neon4_correct.
  - by apply chacha20_xor_interleaved4_correct.
Qed.

(** C1: for every key, nonce, counter and input of any length, so also of
    the lengths 0, 1, 63, 64, 65, 255, 256, 257 and 1024, the scalar path,
    the interleaved-4 path and the NEON path all return, and they leave the
    same bytes in the output buffer. *)
Theorem paths_write_the_same_bytes (out inp : list Z) (len : nat)
    (key nonce : list Z) (counter : Z) :
  is_u32 counter →
  ∃ r,
    Chacha20.chacha20_xor out inp len key nonce counter = Some r
    ∧ Chacha20Simd.chacha20_xor_interleaved4 out inp len key nonce counter
      = Some r
    ∧ Chacha20Simd.chacha20_xor_neon4 out inp len key nonce counter = Some r.
Proof.
  intros Hc. exists (xor_keystream out inp len key nonce counter).
  split; [by apply chacha20_xor_correct|].
  split; [by apply chacha20_xor_interleaved4_correct|].
  by apply chacha20_xor_neon4_correct.
Qed.

Lemma paths_write_the_same_bytes_witness :
  ∃ r,
    Chacha20.chacha20_xor (replicate 257 0) (replicate 257 1) 257
      rfc_key rfc_nonce 0xffffffff = Some r
    ∧ Chacha20Simd.chacha20_xor_interleaved4 (replicate 257 0)
        (replicate 257 1) 257 rfc_key rfc_nonce 0xffffffff = Some r
    ∧ Chacha20Simd.chacha20_xor_neon4 (replicate 257 0) (replicate 257 1) 257
        rfc_key rfc_nonce 0xffffffff = Some r.
Proof.
  apply (paths_write_the_same_bytes (replicate 257 0) (replicate 257 1) 257
           rfc_key rfc_nonce 0xffffffff).
  unfold is_u32. lia.
Defined.

(** The three paths, run on an input of each boundary length. *)
Example paths_agree_at_boundary_lengths :
  Forall paths_agree_on boundary_lengths.
Proof. apply (bool_decide_unpack _). vm_compute. exact I. Qed.

(** C4: the test vector of RFC 8439, section 2.4.2.  With the key
    00 01 .. 1f, the nonce 00 00 00 00 00 00 00 4a 00 00 00 00 and the
    counter 1, the entry point [chacha20_xor_best], with or without NEON,
    and the scalar path turn the 114 bytes of the plaintext into the 114
    bytes of the ciphertext that the RFC prints. *)
Theorem rfc8439_test_vector (HAVE_NEON : bool) (out : list Z) :
  length out = 114%nat →
  length rfc_plaintext = 114%nat
  ∧ Chacha20Simd.chacha20_xor_best HAVE_NEON out rfc_plaintext 114
      rfc_key rfc_nonce 1 = Some rfc_ciphertext
  ∧ Chacha20.chacha20_xor out rfc_plaintext 114 rfc_key rfc_nonce 1
    = Some rfc_ciphertext.
Proof.
  intros Hout. split; [reflexivity|].
  assert (is_u32 1) as Hc by (unfold is_u32; lia).
  rewrite chacha20_xor_best_correct, chacha20_xor_correct by done.
  assert (xor_keystream out rfc_plaintext 114 rfc_key rfc_nonce 1
          = rfc_ciphertext) as ->; [|done].
  destruct_length out Hout. vm_compute. reflexivity.
Qed.

Lemma rfc8439_test_vector_witness :
  length (replicate 114 0) = 114%nat
  ∧ length rfc_plaintext = 114%nat
  ∧ Chacha20Simd.chacha20_xor_best true (replicate 114 0) rfc_plaintext 114
      rfc_key rfc_nonce 1 = Some rfc_ciphertext
  ∧ Chacha20.chacha20_xor (replicate 114 0) rfc_plaintext 114
      rfc_key rfc_nonce 1 = Some rfc_ciphertext.
Proof.
  split; [reflexivity|].
  exact (rfc8439_test_vector true (replicate 114 0) eq_refl).
Defined.

(** ** XOR twice *)

Lemma u8_lxor (a b : Z) : u8 (Z.lxor a b) = Z.lxor (u8 a) (u8 b).
Proof.
  unfold u8. rewrite <- !Z.land_ones by lia.
  apply Z.bits_inj'. intros i Hi.
  rewrite Z.lxor_spec, !Z.land_spec, Z.lxor_spec.
  destruct (Z.testbit a i), (Z.testbit b i), (Z.testbit (Z.ones 8) i); done.
Qed.

Lemma u8_u8 (a : Z) : u8 (u8 a) = u8 a.
Proof. apply u8_id, u8_is_u8. Qed.

Lemma xor_twice (p k : Z) :
  is_u8 p → u8 (Z.lxor (u8 (Z.lxor p k)) k) = p.
Proof.
  intros Hp. rewrite !u8_lxor, !u8_u8, Z.lxor_assoc, Z.lxor_nilpotent,
    Z.lxor_0_r.
  by apply u8_id.
Qed.

(** The transformation of a whole buffer, applied to its own result. *)
Lemma xor_keystream_twice (out1 out2 P : list Z) (key nonce : list Z)
    (counter : Z) :
  Forall is_u8 P → length out1 = length P → length out2 = length P →
  xor_keystream out2
    (xor_keystream out1 P (length P) key nonce counter)
    (length P) key nonce counter
  = P.
Proof.
  intros HP H1 H2. apply list_eq. intros j.
  rewrite xor_keystream_lookup.
  destruct (P !! j) as [p|] eqn:E.
  - apply lookup_lt_Some in E as Hj.
    destruct (lookup_lt_is_Some_2 out2 j) as [o2 ->]; [lia|].
    destruct (lookup_lt_is_Some_2 out1 j) as [o1 E1]; [lia|].
    cbn [fmap option_fmap option_map]. rewrite decide_True by done.
    rewrite (list_lookup_total_correct _ j
               (u8 (Z.lxor p (keystream_byte key nonce counter j)))).
    + f_equal. apply xor_twice.
      by apply (Forall_lookup_1 _ _ _ _ HP E).
    + rewrite xor_keystream_lookup, E1. cbn [fmap option_fmap option_map].
      rewrite decide_True by done.
      by rewrite (list_lookup_total_correct _ _ _ E).
  - apply lookup_ge_None in E.
    rewrite (lookup_ge_None_2 out2) by lia. reflexivity.
Qed.

(** C7: the transformation is its own inverse.  For a plaintext [P] of any
    length, the entry point [chacha20_xor_best] (with or without NEON) and
    the scalar path [chacha20_xor], applied with the same key, nonce and
    counter to their own output, give [P] back. *)
Theorem transform_twice_is_identity (HAVE_NEON : bool) (out1 out2 P : list Z)
    (key nonce : list Z) (counter : Z) :
  is_u32 counter → Forall is_u8 P →
  length out1 = length P → length out2 = length P →
  (∃ C,
     Chacha20Simd.chacha20_xor_best HAVE_NEON out1 P (length P) key nonce
       counter = Some C
     ∧ Chacha20Simd.chacha20_xor_best HAVE_NEON out2 C (length P) key nonce
         counter = Some P)
  ∧ (∃ C,
       Chacha20.chacha20_xor out1 P (length P) key nonce counter = Some C
       ∧ Chacha20.chacha20_xor out2 C (length P) key nonce counter = Some P).
Proof.
  intros Hc HP H1 H2.
  split; exists (xor_keystream out1 P (length P) key nonce counter).
  - rewrite !chacha20_xor_best_correct by done.
    split; [done|]. f_equal. by apply xor_keystream_twice.
  - rewrite !chacha20_xor_correct by done.
    split; [done|]. f_equal. by apply xor_keystream_twice.
Qed.

Lemma transform_twice_is_identity_witness :
  (∃ C,
     Chacha20Simd.chacha20_xor_best true (replicate 114 0) rfc_plaintext
       (length rfc_plaintext) rfc_key rfc_nonce 7 = Some C
     ∧ Chacha20Simd.chacha20_xor_best true (replicate 114 9) C
         (length rfc_plaintext) rfc_key rfc_nonce 7 = Some rfc_plaintext)
  ∧ (∃ C,
       Chacha20.chacha20_xor (replicate 114 0) rfc_plaintext
         (length rfc_plaintext) rfc_key rfc_nonce 7 = Some C
       ∧ Chacha20.chacha20_xor (replicate 114 9) C (length rfc_plaintext)
           rfc_key rfc_nonce 7 = Some rfc_plaintext).
Proof.
  apply (transform_twice_is_identity true (replicate 114 0) (replicate 114 9)
           rfc_plaintext rfc_key rfc_nonce 7).
  - unfold is_u32. lia.
  - apply (bool_decide_unpack _). vm_compute. exact I.
  - reflexivity.
  - reflexivity.
Defined.

(** ** The counter wraps *)

(** C8: from the counter 0xFFFFFFFF every path goes on without an error,
    and the second block of 64 bytes is XOR-ed with the keystream block of
    the counter 0, the output of the block function on the state initialized
    with the counter 0.  In the scalar path the counter word of the state is
    0 after the first iteration; in the other paths the counter of the second
    block, [counter + 1], and every counter that the loops compute are
    reduced modulo 2^32. *)
Theorem counter_wraps_to_zero (out inp : list Z) (len : nat)
    (key nonce : list Z) :
  (64 < len)%nat →
  let second_block :=
    Chacha20Simd.chacha20_block (replicate 64 0)
      (Chacha20Simd.chacha20_init_state (replicate 16 0) key nonce 0) in
  let wrapped (r : list Z) :=
    ∀ i o, (i < 64)%nat → (64 + i < len)%nat →
      out !! (64 + i)%nat = Some o →
      r !! (64 + i)%nat
      = Some (u8 (Z.lxor (inp !!! (64 + i)%nat) (second_block !!! i))) in
  (∃ r, Chacha20.chacha20_xor out inp len key nonce 0xFFFFFFFF = Some r
        ∧ wrapped r)
  ∧ (∃ r, Chacha20Simd.chacha20_xor_interleaved4 out inp len key nonce
            0xFFFFFFFF = Some r
          ∧ wrapped r)
  ∧ (∃ r, Chacha20Simd.chacha20_xor_neon4 out inp len key nonce 0xFFFFFFFF
          = Some r
          ∧ wrapped r)
  ∧ Chacha20.ls_state
      (Chacha20.chacha20_xor_body inp
         (Chacha20.chacha20_xor_init out len key nonce 0xFFFFFFFF))
    !!! 12%nat = 0
  ∧ Chacha20.chacha20_block (replicate 64 0)
      (Chacha20.chacha20_xor_state key nonce 0) = second_block
  ∧ (∀ s,
       Chacha20Simd.ls_counter (Chacha20Simd.tail_body inp key nonce s)
       = u32 (Chacha20Simd.ls_counter s + 1)
       ∧ Chacha20Simd.ls_counter
           (Chacha20Simd.interleaved4_body inp key nonce s)
         = u32 (Chacha20Simd.ls_counter s + 4)
       ∧ Chacha20Simd.ls_counter (Chacha20Simd.neon4_body inp key nonce s)
         = u32 (Chacha20Simd.ls_counter s + 4))
  ∧ u32 (0xFFFFFFFF + 1) = 0.
Proof.
  intros Hlen second_block wrapped.
  assert (is_u32 0xFFFFFFFF) as Hc by (unfold is_u32; lia).
  assert (wrapped (xor_keystream out inp len key nonce 0xFFFFFFFF)) as Hw.
  { intros i o Hi Hil Ho. rewrite xor_keystream_lookup, Ho.
    cbn [fmap option_fmap option_map]. rewrite decide_True by done.
    unfold keystream_byte.
    replace ((64 + i) / 64)%nat with 1%nat by div_lia.
    replace ((64 + i) mod 64)%nat with i by div_lia.
    change (u32 (0xFFFFFFFF + Z.of_nat 1)) with 0.
    rewrite keystream_block_unfold. reflexivity. }
  split; [|split; [|split; [|split; [|split; [|split]]]]].
  - eexists. split; [by apply chacha20_xor_correct | done].
  - eexists. split; [by apply chacha20_xor_interleaved4_correct | done].
  - eexists. split; [by apply chacha20_xor_neon4_correct | done].
  - unfold Chacha20.chacha20_xor_body, Chacha20.chacha20_xor_init. cbv zeta.
    cbn [Chacha20.ls_state].
    rewrite (chacha20_xor_state_init (replicate 16 0)) by done.
    rewrite init_state_increment, chacha20_init_state_words by done.
    reflexivity.
  - subst second_block. rewrite keystream_block_scalar.
    apply keystream_block_unfold.
  - intros s. repeat split.
  - reflexivity.
Qed.

Lemma counter_wraps_to_zero_witness :
  ∃ r, Chacha20Simd.chacha20_xor_neon4 (replicate 300 0) (replicate 300 1)
         300 rfc_key rfc_nonce 0xFFFFFFFF = Some r
       ∧ ∀ i o, (i < 64)%nat → (64 + i < 300)%nat →
           replicate 300 0 !! (64 + i)%nat = Some o →
           r !! (64 + i)%nat
           = Some (u8 (Z.lxor (replicate 300 1 !!! (64 + i)%nat)
                     (Chacha20Simd.chacha20_block (replicate 64 0)
                        (Chacha20Simd.chacha20_init_state (replicate 16 0)
                           rfc_key rfc_nonce 0) !!! i))).
Proof.
  apply (counter_wraps_to_zero (replicate 300 0) (replicate 300 1) 300
           rfc_key rfc_nonce).
  lia.
Defined.

(** ** Nothing to do *)

(** C9: with the length 0 every path returns at once and leaves the output
    buffer as it was. *)
Theorem zero_length_is_a_no_op (HAVE_NEON : bool) (out inp : list Z)
    (key nonce : list Z) (counter : Z) :
  Chacha20.chacha20_xor out inp 0 key nonce counter = Some out
  ∧ Chacha20Simd.chacha20_xor_interleaved4 out inp 0 key nonce counter
    = Some out
  ∧ Chacha20Simd.chacha20_xor_neon4 out inp 0 key nonce counter = Some out
  ∧ Chacha20Simd.chacha20_xor_best HAVE_NEON out inp 0 key nonce counter
    = Some out.
Proof.
  assert (Chacha20Simd.chacha20_xor_interleaved4 out inp 0 key nonce counter
          = Some out) as Hi by reflexivity.
  assert (Chacha20Simd.chacha20_xor_neon4 out inp 0 key nonce counter
          = Some out) as Hn by reflexivity.
  split; [reflexivity|]. split; [done|]. split; [done|].
  by destruct HAVE_NEON.
Qed.

(** * Properties of the rest of the code *)

(** ** Loads, stores and rotations *)

Lemma testbit_u32 (x i : Z) :
  0 ≤ i < 32 → Z.testbit (u32 x) i = Z.testbit x i.
Proof. intros Hi. unfold u32. apply Z.mod_pow2_bits_low. lia. Qed.

Lemma le_word_bytes (v : Z) :
  is_u32 v →
  Rfc.le_word (u8 v) (u8 (Z.shiftr v 8)) (u8 (Z.shiftr v 16))
    (u8 (Z.shiftr v 24)) = v.
Proof.
  unfold is_u32, Rfc.le_word, u8. intros Hv.
  rewrite !Z.shiftr_div_pow2 by lia.
  Z.to_euclidean_division_equations. lia.
Qed.

Lemma store32_le_lookup (p : list Z) (i : nat) (v : Z) :
  (i + 3 < length p)%nat →
  Chacha20Simd.store32_le p i v !!! i = u8 v
  ∧ Chacha20Simd.store32_le p i v !!! (i + 1)%nat = u8 (Z.shiftr v 8)
  ∧ Chacha20Simd.store32_le p i v !!! (i + 2)%nat = u8 (Z.shiftr v 16)
  ∧ Chacha20Simd.store32_le p i v !!! (i + 3)%nat = u8 (Z.shiftr v 24).
Proof.
  intros Hi. unfold Chacha20Simd.store32_le. cbv zeta.
  repeat split;
    repeat (rewrite list_lookup_total_insert_ne by lia);
    rewrite list_lookup_total_insert_eq; rewrite ?length_insert; done || lia.
Qed.

Lemma le_word_split (b0 b1 b2 b3 : Z) :
  is_u8 b0 → is_u8 b1 → is_u8 b2 → is_u8 b3 →
  u8 (Rfc.le_word b0 b1 b2 b3) = b0
  ∧ u8 (Z.shiftr (Rfc.le_word b0 b1 b2 b3) 8) = b1
  ∧ u8 (Z.shiftr (Rfc.le_word b0 b1 b2 b3) 16) = b2
  ∧ u8 (Z.shiftr (Rfc.le_word b0 b1 b2 b3) 24) = b3.
Proof.
  unfold is_u8, Rfc.le_word, u8. intros ? ? ? ?.
  rewrite !Z.shiftr_div_pow2 by lia.
  Z.to_euclidean_division_equations. lia.
Qed.

(** X1: [store32_le] and [load32_le] are inverse to each other.  A 32-bit
    word stored at [p + i] is the word loaded from there, and storing the
    word loaded from four bytes leaves the buffer as it is; in both source
    files. *)
Theorem load32_le_store32_le (p : list Z) (i : nat) (v : Z) :
  (i + 3 < length p)%nat → is_u32 v → Forall is_u8 p →
  Chacha20Simd.load32_le (Chacha20Simd.store32_le p i v) i = v
  ∧ Chacha20.load32_le (Chacha20.store32_le p i v) i = v
  ∧ Chacha20Simd.store32_le p i (Chacha20Simd.load32_le p i) = p
  ∧ Chacha20.store32_le p i (Chacha20.load32_le p i) = p.
Proof.
  intros Hi Hv Hp. rewrite load32_le_files_agree, store32_le_files_agree.
  assert (Chacha20Simd.load32_le (Chacha20Simd.store32_le p i v) i = v) as E.
  { destruct (store32_le_lookup p i v Hi) as (E0 & E1 & E2 & E3).
    destruct (load32_le_word (Chacha20Simd.store32_le p i v) i) as [-> _];
      rewrite ?E0, ?E1, ?E2, ?E3; try apply u8_is_u8.
    by apply le_word_bytes. }
  assert (Chacha20Simd.store32_le p i (Chacha20Simd.load32_le p i) = p) as E'.
  { assert (is_u8 (p !!! i)) as H0
      by (apply Forall_lookup_total_u8; done || lia).
    assert (is_u8 (p !!! (i + 1)%nat)) as H1
      by (apply Forall_lookup_total_u8; done || lia).
    assert (is_u8 (p !!! (i + 2)%nat)) as H2
      by (apply Forall_lookup_total_u8; done || lia).
    assert (is_u8 (p !!! (i + 3)%nat)) as H3
      by (apply Forall_lookup_total_u8; done || lia).
    destruct (load32_le_word p i H0 H1 H2 H3) as [-> _].
    unfold Chacha20Simd.store32_le. cbv zeta.
    destruct (le_word_split _ _ _ _ H0 H1 H2 H3) as (-> & -> & -> & ->).
    rewrite (list_insert_id p i) by (apply list_lookup_lookup_total_lt; lia).
    rewrite (list_insert_id p (i + 1))
      by (apply list_lookup_lookup_total_lt; lia).
    rewrite (list_insert_id p (i + 2))
      by (apply list_lookup_lookup_total_lt; lia).
    apply list_insert_id, list_lookup_lookup_total_lt. lia. }
  rewrite E, E'. done.
Qed.

Lemma load32_le_store32_le_witness :
  Chacha20Simd.load32_le
    (Chacha20Simd.store32_le [1; 2; 3; 4; 5; 6; 7; 8] 4 0x12345678) 4
  = 0x12345678
  ∧ Chacha20.load32_le
      (Chacha20.store32_le [1; 2; 3; 4; 5; 6; 7; 8] 4 0x12345678) 4
    = 0x12345678
  ∧ Chacha20Simd.store32_le [1; 2; 3; 4; 5; 6; 7; 8] 4
      (Chacha20Simd.load32_le [1; 2; 3; 4; 5; 6; 7; 8] 4)
    = [1; 2; 3; 4; 5; 6; 7; 8]
  ∧ Chacha20.store32_le [1; 2; 3; 4; 5; 6; 7; 8] 4
      (Chacha20.load32_le [1; 2; 3; 4; 5; 6; 7; 8] 4)
    = [1; 2; 3; 4; 5; 6; 7; 8].
Proof.
  apply (load32_le_store32_le [1; 2; 3; 4; 5; 6; 7; 8] 4 0x12345678).
  - simpl. lia.
  - unfold is_u32. lia.
  - apply (bool_decide_unpack _). vm_compute. exact I.
Defined.

(** [ROTL32] rotates: bit [i] of the result is bit [i - r] of the word,
    counted modulo 32. *)
Lemma ROTL32_testbit (x r i : Z) :
  is_u32 x → 0 < r < 32 → 0 ≤ i < 32 →
  Z.testbit (Chacha20Simd.ROTL32 x r) i = Z.testbit x ((i - r) mod 32).
Proof.
  intros Hx Hr Hi. unfold Chacha20Simd.ROTL32.
  rewrite Z.lor_spec, testbit_u32, Z.shiftl_spec, Z.shiftr_spec by lia.
  destruct (Z.lt_ge_cases i r).
  - rewrite (Z.testbit_neg_r x (i - r)) by lia.
    replace ((i - r) mod 32) with (i + (32 - r))
      by (Z.to_euclidean_division_equations; lia).
    done.
  - rewrite (testbit_above 32 x (i + (32 - r))) by (done || lia).
    replace ((i - r) mod 32) with (i - r)
      by (Z.to_euclidean_division_equations; lia).
    by rewrite orb_false_r.
Qed.

Lemma u32_bits_eq (x y : Z) :
  is_u32 x → is_u32 y →
  (∀ i, 0 ≤ i < 32 → Z.testbit x i = Z.testbit y i) → x = y.
Proof.
  intros Hx Hy H. apply Z.bits_inj'. intros i Hi.
  destruct (Z.lt_ge_cases i 32); [apply H; lia|].
  by rewrite (testbit_above 32 x i), (testbit_above 32 y i).
Qed.

Lemma ROTL32_is_u32 (x r : Z) :
  is_u32 x → 0 < r < 32 → is_u32 (Chacha20Simd.ROTL32 x r).
Proof. intros. rewrite <- ROTL32_files_agree. by apply ROTL32_rotl. Qed.

Lemma ROTL32_back (x r : Z) :
  is_u32 x → 0 < r < 32 →
  Chacha20Simd.ROTL32 (Chacha20Simd.ROTL32 x r) (32 - r) = x.
Proof.
  intros Hx Hr. pose proof (ROTL32_is_u32 x r Hx Hr) as Hrot.
  apply u32_bits_eq; [apply ROTL32_is_u32; done || lia|done|].
  intros i Hi. rewrite (ROTL32_testbit _ (32 - r)) by (done || lia).
  rewrite ROTL32_testbit by (done || lia || apply Z.mod_pos_bound; lia).
  f_equal. Z.to_euclidean_division_equations. lia.
Qed.

(** X2: [ROTL32] is the rotation to the left of a 32-bit word.  Bit [i] of
    [ROTL32(x, r)] is bit [(i - r) mod 32] of [x], the result is a 32-bit
    word again, and rotating on by [32 - r] gives [x] back; in both source
    files. *)
Theorem ROTL32_rotates (x r : Z) :
  is_u32 x → 0 < r < 32 →
  (∀ i, 0 ≤ i < 32 →
     Z.testbit (Chacha20Simd.ROTL32 x r) i = Z.testbit x ((i - r) mod 32))
  ∧ is_u32 (Chacha20Simd.ROTL32 x r)
  ∧ Chacha20Simd.ROTL32 (Chacha20Simd.ROTL32 x r) (32 - r) = x
  ∧ Chacha20.ROTL32 x r = Chacha20Simd.ROTL32 x r.
Proof.
  intros Hx Hr.
  split; [intros i Hi; by apply ROTL32_testbit|].
  split; [by apply ROTL32_is_u32|].
  split; [by apply ROTL32_back | by rewrite ROTL32_files_agree].
Qed.

Lemma ROTL32_rotates_witness :
  Chacha20Simd.ROTL32 (Chacha20Simd.ROTL32 0x80000001 7) (32 - 7)
  = 0x80000001.
Proof.
  apply (ROTL32_rotates 0x80000001 7); unfold is_u32; lia.
Defined.

(** ** The rounds are a permutation *)

Lemma u32_add_inj (a a' b : Z) :
  is_u32 a → is_u32 a' → u32 (a + b) = u32 (a' + b) → a = a'.
Proof.
  unfold is_u32, u32. intros Ha Ha' H.
  Z.to_euclidean_division_equations. lia.
Qed.

Lemma lxor_inj_r (d d' a : Z) : Z.lxor d a = Z.lxor d' a → d = d'.
Proof.
  intros H. apply (f_equal (λ z, Z.lxor z a)) in H.
  by rewrite !Z.lxor_assoc, !Z.lxor_nilpotent, !Z.lxor_0_r in H.
Qed.

Lemma ROTL32_inj (x x' r : Z) :
  is_u32 x → is_u32 x' → 0 < r < 32 →
  Chacha20Simd.ROTL32 x r = Chacha20Simd.ROTL32 x' r → x = x'.
Proof.
  intros Hx Hx' Hr H.
  rewrite <- (ROTL32_back x r), <- (ROTL32_back x' r) by done.
  by rewrite H.
Qed.

(** One line of the quarter round, [a += b; d ^= a; d = ROTL32(d, r)], can
    be undone when [b] is known. *)
Lemma qr_line_inj (a b d a' d' r : Z) :
  is_u32 a → is_u32 d → is_u32 a' → is_u32 d' → 0 < r < 32 →
  u32 (a + b) = u32 (a' + b) →
  Chacha20Simd.ROTL32 (Z.lxor d (u32 (a + b))) r
  = Chacha20Simd.ROTL32 (Z.lxor d' (u32 (a' + b))) r →
  a = a' ∧ d = d'.
Proof.
  intros Ha Hd Ha' Hd' Hr E1 E2.
  assert (a = a') as <- by by apply (u32_add_inj a a' b).
  split; [done|].
  apply ROTL32_inj in E2; [|apply lxor_is_u32; done || apply u32_is_u32..|done].
  by apply lxor_inj_r in E2.
Qed.

Lemma QUARTERROUND_is_u32 (q : Z * Z * Z * Z) :
  is_u32_4 q → is_u32_4 (Chacha20Simd.QUARTERROUND q).
Proof. intros H. by apply QUARTERROUND_qr. Qed.

Lemma QUARTERROUND_inj (q q' : Z * Z * Z * Z) :
  is_u32_4 q → is_u32_4 q' →
  Chacha20Simd.QUARTERROUND q = Chacha20Simd.QUARTERROUND q' → q = q'.
Proof.
  destruct q as [[[a b] c] d], q' as [[[a' b'] c'] d'].
  intros (Ha & Hb & Hc & Hd) (Ha' & Hb' & Hc' & Hd').
  unfold Chacha20Simd.QUARTERROUND.
  destruct (qr_line a b d 16 Hd ltac:(lia)) as (_ & Ha1 & _ & Hd1).
  destruct (qr_line a' b' d' 16 Hd' ltac:(lia)) as (_ & Ha1' & _ & Hd1').
  set (a1 := u32 (a + b)) in *.
  set (d1 := Chacha20Simd.ROTL32 (Z.lxor d a1) 16) in *.
  set (a1' := u32 (a' + b')) in *.
  set (d1' := Chacha20Simd.ROTL32 (Z.lxor d' a1') 16) in *.
  destruct (qr_line c d1 b 12 Hb ltac:(lia)) as (_ & Hc1 & _ & Hb1).
  destruct (qr_line c' d1' b' 12 Hb' ltac:(lia)) as (_ & Hc1' & _ & Hb1').
  set (c1 := u32 (c + d1)) in *.
  set (b1 := Chacha20Simd.ROTL32 (Z.lxor b c1) 12) in *.
  set (c1' := u32 (c' + d1')) in *.
  set (b1' := Chacha20Simd.ROTL32 (Z.lxor b' c1') 12) in *.
  destruct (qr_line a1 b1 d1 8 Hd1 ltac:(lia)) as (_ & Ha2 & _ & Hd2).
  destruct (qr_line a1' b1' d1' 8 Hd1' ltac:(lia)) as (_ & Ha2' & _ & Hd2').
  set (a2 := u32 (a1 + b1)) in *.
  set (d2 := Chacha20Simd.ROTL32 (Z.lxor d1 a2) 8) in *.
  set (a2' := u32 (a1' + b1')) in *.
  set (d2' := Chacha20Simd.ROTL32 (Z.lxor d1' a2') 8) in *.
  intros H. injection H as Ea Eb Ec Ed.
  (* c += d; b ^= c; b = ROTL32(b, 7) *)
  rewrite <- Ed in Eb, Ec.
  destruct (qr_line_inj c1 d2 b1 c1' b1' 7) as [Ec1 Eb1];
    [done | done | done | done | lia | done | done |].
  (* a += b; d ^= a; d = ROTL32(d, 8) *)
  unfold a2' in Ea. unfold d2, d2', a2' in Ed. rewrite <- Eb1 in Ea, Ed.
  destruct (qr_line_inj a1 b1 d1 a1' d1' 8) as [Ea1 Ed1];
    [done | done | done | done | lia | done | done |].
  (* c += d; b ^= c; b = ROTL32(b, 12) *)
  unfold c1' in Ec1. unfold b1, b1', c1' in Eb1. rewrite <- Ed1 in Ec1, Eb1.
  destruct (qr_line_inj c d1 b c' b' 12) as [-> ->];
    [done | done | done | done | lia | done | done |].
  (* a += b; d ^= a; d = ROTL32(d, 16) *)
  unfold a1, a1' in Ea1. unfold d1, d1', a1' in Ed1.
  destruct (qr_line_inj a b' d a' d' 16) as [-> ->];
    [done | done | done | done | lia | done | done |].
  reflexivity.
Qed.

Local Opaque Chacha20Simd.QUARTERROUND.

Lemma double_round_is_u32 (x : regs Z) :
  is_u32_regs x → is_u32_regs (Chacha20Simd.double_round x).
Proof. intros H. by apply double_round_rfc. Qed.

Lemma double_round_inj (x x' : regs Z) :
  is_u32_regs x → is_u32_regs x' →
  Chacha20Simd.double_round x = Chacha20Simd.double_round x' → x = x'.
Proof.
  destruct x as [w0 w1 w2 w3 w4 w5 w6 w7 w8 w9 w10 w11 w12 w13 w14 w15].
  destruct x' as [v0 v1 v2 v3 v4 v5 v6 v7 v8 v9 v10 v11 v12 v13 v14 v15].
  unfold is_u32_regs, array_of_regs; simpl. intros H H'.
  repeat match goal with
         | H : Forall _ (_ :: _) |- _ =>
             apply Forall_cons_1 in H; destruct H as [? H]
         end.
  clear H H'. unfold Chacha20Simd.double_round.
  repeat match goal with
         | |- context [Chacha20Simd.QUARTERROUND (?a, ?b, ?c, ?d)] =>
             let E := fresh "E" in let R := fresh "R" in
             pose proof (QUARTERROUND_is_u32 (a, b, c, d)) as R;
             destruct (Chacha20Simd.QUARTERROUND (a, b, c, d))
               as [[[? ?] ?] ?] eqn:E;
             destruct R as (? & ? & ? & ?); [unfold is_u32_4; tauto|]
         end.
  intros Heq. injection Heq as <- <- <- <- <- <- <- <- <- <- <- <- <- <- <- <-.
  repeat match goal with
         | E : Chacha20Simd.QUARTERROUND ?q = ?o,
           E' : Chacha20Simd.QUARTERROUND ?q' = ?o |- _ =>
             assert (q = q') as Hq
               by (apply QUARTERROUND_inj;
                   [unfold is_u32_4; tauto | unfold is_u32_4; tauto
                   | by rewrite E, E']);
             clear E'; injection Hq as -> -> -> ->
         end.
  reflexivity.
Qed.

Local Transparent Chacha20Simd.QUARTERROUND.

Lemma rounds_is_u32 (n : nat) (x : regs Z) :
  is_u32_regs x →
  is_u32_regs (for_loop n (λ _ x, Chacha20Simd.double_round x) x).
Proof. intros H. by apply rounds_rfc. Qed.

Lemma rounds_inj (n : nat) (x x' : regs Z) :
  is_u32_regs x → is_u32_regs x' →
  for_loop n (λ _ x, Chacha20Simd.double_round x) x
  = for_loop n (λ _ x, Chacha20Simd.double_round x) x' →
  x = x'.
Proof.
  intros Hx Hx'. induction n as [|n IH]; [done|].
  rewrite !for_loop_S. intros H.
  apply double_round_inj in H; [by apply IH | by apply rounds_is_u32..].
Qed.

(** X3: the rounds are a permutation of the 32-bit states.  The quarter
    round maps four 32-bit words to four 32-bit words and maps different
    words to different results, and so do the ten double rounds of the block
    function on sixteen words: two states that the rounds send to the same
    words are the same state.  In both source files. *)
Theorem rounds_are_a_permutation (q q' : Z * Z * Z * Z) (x x' : regs Z) :
  is_u32_4 q → is_u32_4 q' → is_u32_regs x → is_u32_regs x' →
  is_u32_4 (Chacha20Simd.QUARTERROUND q)
  ∧ (Chacha20Simd.QUARTERROUND q = Chacha20Simd.QUARTERROUND q' → q = q')
  ∧ is_u32_regs (for_loop 10 (λ _ x, Chacha20Simd.double_round x) x)
  ∧ (for_loop 10 (λ _ x, Chacha20Simd.double_round x) x
     = for_loop 10 (λ _ x, Chacha20Simd.double_round x) x' → x = x')
  ∧ Chacha20.QUARTERROUND = Chacha20Simd.QUARTERROUND
  ∧ Chacha20.double_round = Chacha20Simd.double_round.
Proof.
  intros Hq Hq' Hx Hx'.
  split; [by apply QUARTERROUND_is_u32|].
  split; [by apply QUARTERROUND_inj|].
  split; [by apply rounds_is_u32|].
  split; [by apply rounds_inj|].
  split; [apply QUARTERROUND_files_agree | apply double_round_files_agree].
Qed.

Lemma rounds_are_a_permutation_witness :
  is_u32_4 (Chacha20Simd.QUARTERROUND (1, 2, 3, 4)).
Proof.
  apply (rounds_are_a_permutation (1, 2, 3, 4) (4, 3, 2, 1)
           (regs_of_array (Rfc.state rfc_key rfc_nonce 1))
           (regs_of_array (Rfc.state rfc_key rfc_nonce 2))).
  - apply (bool_decide_unpack _). vm_compute. exact I.
  - apply (bool_decide_unpack _). vm_compute. exact I.
  - apply (bool_decide_unpack _). vm_compute. exact I.
  - apply (bool_decide_unpack _). vm_compute. exact I.
Defined.

(** ** The NEON macros *)

(** X4: the NEON macros are the scalar operations on every lane.  Lane [k]
    of [ROTL16(v)], [ROTL12(v)], [ROTL8(v)] and [ROTL7(v)] is [ROTL32] of
    lane [k] of [v] by 16, 12, 8 and 7 bits, and lane [k] of the four
    vectors that [NEON_QR] computes is [QUARTERROUND] of lane [k] of its four
    arguments. *)
Theorem NEON_QR_is_QUARTERROUND_on_lanes (k : nat) (a b c d : uint32x4_t) :
  (k < 4)%nat →
  vgetq_lane_u32 (Chacha20Simd.ROTL16 a) k
  = Chacha20Simd.ROTL32 (vgetq_lane_u32 a k) 16
  ∧ vgetq_lane_u32 (Chacha20Simd.ROTL12 a) k
    = Chacha20Simd.ROTL32 (vgetq_lane_u32 a k) 12
  ∧ vgetq_lane_u32 (Chacha20Simd.ROTL8 a) k
    = Chacha20Simd.ROTL32 (vgetq_lane_u32 a k) 8
  ∧ vgetq_lane_u32 (Chacha20Simd.ROTL7 a) k
    = Chacha20Simd.ROTL32 (vgetq_lane_u32 a k) 7
  ∧ (let '(a', b', c', d') := Chacha20Simd.NEON_QR (a, b, c, d) in
     (vgetq_lane_u32 a' k, vgetq_lane_u32 b' k, vgetq_lane_u32 c' k,
      vgetq_lane_u32 d' k))
    = Chacha20Simd.QUARTERROUND
        (vgetq_lane_u32 a k, vgetq_lane_u32 b k, vgetq_lane_u32 c k,
         vgetq_lane_u32 d k).
Proof.
  intros Hk.
  split; [|split; [|split; [|split]]]; [| | | |by apply NEON_QR_lane];
    destruct a as [a0 a1 a2 a3]; destruct_lane k Hk; reflexivity.
Qed.

Lemma NEON_QR_is_QUARTERROUND_on_lanes_witness :
  vgetq_lane_u32 (Chacha20Simd.ROTL16 (V4 1 2 3 0x80000000)) 3
  = Chacha20Simd.ROTL32 (vgetq_lane_u32 (V4 1 2 3 0x80000000) 3) 16.
Proof.
  apply (NEON_QR_is_QUARTERROUND_on_lanes 3 (V4 1 2 3 0x80000000)
           (V4 0 0 0 0) (V4 0 0 0 0) (V4 0 0 0 0)).
  lia.
Defined.

(** ** The block function fills its buffer *)

Lemma le_bytes_is_u8 (w : Z) : Forall is_u8 (Rfc.le_bytes w).
Proof.
  unfold Rfc.le_bytes. repeat constructor; apply Z.mod_pos_bound; lia.
Qed.

Lemma chacha20_block_is_u8 (out input : list Z) :
  length out = 64%nat →
  Forall is_u8 (Chacha20Simd.chacha20_block out input).
Proof.
  intros H. rewrite chacha20_block_words by done. cbv zeta.
  apply Forall_join, Forall_fmap, Forall_forall.
  intros w _. apply le_bytes_is_u8.
Qed.

(** X5: [chacha20_block] overwrites all of its 64-byte buffer.  The buffer
    keeps its length, every byte of it is a byte value afterwards, and none
    depends on what the buffer held before the call; in both source files. *)
Theorem chacha20_block_fills_out (out out' input : list Z) :
  length out = 64%nat → length out' = 64%nat →
  length (Chacha20Simd.chacha20_block out input) = 64%nat
  ∧ Forall is_u8 (Chacha20Simd.chacha20_block out input)
  ∧ Chacha20Simd.chacha20_block out input
    = Chacha20Simd.chacha20_block out' input
  ∧ Chacha20.chacha20_block out input
    = Chacha20.chacha20_block out' input.
Proof.
  intros H H'. split; [by rewrite chacha20_block_length|].
  split; [by apply chacha20_block_is_u8|].
  split; [by apply chacha20_block_overwrites|].
  etransitivity; [apply block_files_agree|].
  etransitivity; [|symmetry; apply block_files_agree].
  by apply chacha20_block_overwrites.
Qed.

Lemma chacha20_block_fills_out_witness :
  Chacha20.chacha20_block (replicate 64 0) (Rfc.state rfc_key rfc_nonce 1)
  = Chacha20.chacha20_block (replicate 64 255)
      (Rfc.state rfc_key rfc_nonce 1).
Proof.
  apply (chacha20_block_fills_out (replicate 64 0) (replicate 64 255)
           (Rfc.state rfc_key rfc_nonce 1)); reflexivity.
Defined.

(** ** The state determines key, nonce and counter *)

Lemma le_word_inj (a0 a1 a2 a3 b0 b1 b2 b3 : Z) :
  is_u8 a0 → is_u8 a1 → is_u8 a2 → is_u8 a3 →
  is_u8 b0 → is_u8 b1 → is_u8 b2 → is_u8 b3 →
  Rfc.le_word a0 a1 a2 a3 = Rfc.le_word b0 b1 b2 b3 →
  a0 = b0 ∧ a1 = b1 ∧ a2 = b2 ∧ a3 = b3.
Proof. unfold is_u8, Rfc.le_word. lia. Qed.

Lemma load32_le_inj (p p' : list Z) (i : nat) :
  Forall is_u8 p → Forall is_u8 p' →
  (4 * i + 3 < length p)%nat → (4 * i + 3 < length p')%nat →
  Chacha20Simd.load32_le p (4 * i) = Chacha20Simd.load32_le p' (4 * i) →
  p !!! (4 * i)%nat = p' !!! (4 * i)%nat
  ∧ p !!! (4 * i + 1)%nat = p' !!! (4 * i + 1)%nat
  ∧ p !!! (4 * i + 2)%nat = p' !!! (4 * i + 2)%nat
  ∧ p !!! (4 * i + 3)%nat = p' !!! (4 * i + 3)%nat.
Proof.
  intros Hp Hp' Hi Hi'. rewrite !load32_le_words by done.
  apply le_word_inj; apply Forall_lookup_total_u8; done || lia.
Qed.

Lemma init_state_inj (state state' key key' nonce nonce' : list Z)
    (counter counter' : Z) :
  length state = 16%nat → length state' = 16%nat →
  length key = 32%nat → Forall is_u8 key →
  length key' = 32%nat → Forall is_u8 key' →
  length nonce = 12%nat → Forall is_u8 nonce →
  length nonce' = 12%nat → Forall is_u8 nonce' →
  Chacha20Simd.chacha20_init_state state key nonce counter
  = Chacha20Simd.chacha20_init_state state' key' nonce' counter' →
  key = key' ∧ nonce = nonce' ∧ counter = counter'.
Proof.
  intros Hs Hs' Hk Hku Hk' Hku' Hn Hnu Hn' Hnu'.
  rewrite !chacha20_init_state_words by done. intros H.
  injection H as E0 E1 E2 E3 E4 E5 E6 E7 Ec E8 E9 E10.
  apply (load32_le_inj key key' 0) in E0; [|done || lia..].
  apply (load32_le_inj key key' 1) in E1; [|done || lia..].
  apply (load32_le_inj key key' 2) in E2; [|done || lia..].
  apply (load32_le_inj key key' 3) in E3; [|done || lia..].
  apply (load32_le_inj key key' 4) in E4; [|done || lia..].
  apply (load32_le_inj key key' 5) in E5; [|done || lia..].
  apply (load32_le_inj key key' 6) in E6; [|done || lia..].
  apply (load32_le_inj key key' 7) in E7; [|done || lia..].
  apply (load32_le_inj nonce nonce' 0) in E8; [|done || lia..].
  apply (load32_le_inj nonce nonce' 1) in E9; [|done || lia..].
  apply (load32_le_inj nonce nonce' 2) in E10; [|done || lia..].
  clear Hku Hku' Hnu Hnu'.
  destruct_length key Hk. destruct_length key' Hk'.
  destruct_length nonce Hn. destruct_length nonce' Hn'.
  cbn in *. destruct_and!. subst. done.
Qed.

(** X6: the state keeps key, nonce and counter apart.  Two calls of
    [chacha20_init_state], or two runs of the set-up in [chacha20_xor], that
    give the same sixteen words were given the same 32 key bytes, the same 12
    nonce bytes and the same counter. *)
Theorem chacha20_init_state_injective
    (state state' key key' nonce nonce' : list Z) (counter counter' : Z) :
  length state = 16%nat → length state' = 16%nat →
  length key = 32%nat → Forall is_u8 key →
  length key' = 32%nat → Forall is_u8 key' →
  length nonce = 12%nat → Forall is_u8 nonce →
  length nonce' = 12%nat → Forall is_u8 nonce' →
  (Chacha20Simd.chacha20_init_state state key nonce counter
   = Chacha20Simd.chacha20_init_state state' key' nonce' counter' →
   key = key' ∧ nonce = nonce' ∧ counter = counter')
  ∧ (Chacha20.chacha20_xor_state key nonce counter
     = Chacha20.chacha20_xor_state key' nonce' counter' →
     key = key' ∧ nonce = nonce' ∧ counter = counter').
Proof.
  intros Hs Hs' Hk Hku Hk' Hku' Hn Hnu Hn' Hnu'. split.
  - by apply init_state_inj.
  - rewrite (chacha20_xor_state_init state), (chacha20_xor_state_init state')
      by done.
    by apply init_state_inj.
Qed.

Lemma chacha20_init_state_injective_witness :
  (Chacha20Simd.chacha20_init_state (replicate 16 0) rfc_key rfc_nonce 1
   = Chacha20Simd.chacha20_init_state (replicate 16 0) rfc_key rfc_nonce 1 →
   rfc_key = rfc_key ∧ rfc_nonce = rfc_nonce ∧ 1 = 1)
  ∧ (Chacha20.chacha20_xor_state rfc_key rfc_nonce 1
     = Chacha20.chacha20_xor_state rfc_key rfc_nonce 1 →
     rfc_key = rfc_key ∧ rfc_nonce = rfc_nonce ∧ 1 = 1).
Proof.
  apply (chacha20_init_state_injective (replicate 16 0) (replicate 16 0)
           rfc_key rfc_key rfc_nonce rfc_nonce 1 1);
    try reflexivity; apply (bool_decide_unpack _); vm_compute; exact I.
Defined.

(** ** What the paths write *)

Lemma xor_keystream_drop (out inp : list Z) (len : nat) (key nonce : list Z)
    (counter : Z) :
  drop len (xor_keystream out inp len key nonce counter) = drop len out.
Proof.
  apply list_eq. intros j. rewrite !lookup_drop, xor_keystream_lookup.
  destruct (out !! (len + j)%nat); cbn [fmap option_fmap option_map]; [|done].
  rewrite decide_False by lia. done.
Qed.

Lemma xor_keystream_take_is_u8 (out inp : list Z) (len : nat)
    (key nonce : list Z) (counter : Z) :
  Forall is_u8 (take len (xor_keystream out inp len key nonce counter)).
Proof.
  apply Forall_lookup. intros j x Hj.
  apply lookup_take_Some in Hj as [Hj Hlen].
  rewrite xor_keystream_lookup in Hj.
  destruct (out !! j); cbn [fmap option_fmap option_map] in Hj; [|done].
  rewrite decide_True in Hj by done. injection Hj as <-. apply u8_is_u8.
Qed.

Lemma xor_keystream_writes_only (out inp : list Z) (len : nat)
    (key nonce : list Z) (counter : Z) :
  writes_only out len (Some (xor_keystream out inp len key nonce counter)).
Proof.
  eexists. split; [done|]. split; [apply xor_keystream_length|].
  split; [apply xor_keystream_drop | apply xor_keystream_take_is_u8].
Qed.

(** The first [len] bytes do not depend on what [out] held. *)
Lemma xor_keystream_take_ext (out out' inp : list Z) (len : nat)
    (key nonce : list Z) (counter : Z) :
  length out = length out' →
  take len (xor_keystream out inp len key nonce counter)
  = take len (xor_keystream out' inp len key nonce counter).
Proof.
  intros Hlen. apply list_eq. intros j. rewrite !lookup_take.
  case_decide; [|done]. rewrite !xor_keystream_lookup.
  destruct (out !! j) eqn:E, (out' !! j) eqn:E';
    cbn [fmap option_fmap option_map].
  - by rewrite !decide_True by done.
  - apply lookup_lt_Some in E. apply lookup_ge_None in E'. lia.
  - apply lookup_lt_Some in E'. apply lookup_ge_None in E. lia.
  - done.
Qed.

(** X7: no path writes outside the first [len] bytes.  Each of
    [chacha20_xor], [chacha20_xor_interleaved4], [chacha20_xor_neon4] and
    [chacha20_xor_best] returns a buffer of the size of [out] in which the
    bytes from offset [len] on are the ones [out] held, and the first [len]
    bytes are byte values that do not depend on the old contents of
    [out]. *)
Theorem paths_write_only_len_bytes (HAVE_NEON : bool) (out out' inp : list Z)
    (len : nat) (key nonce : list Z) (counter : Z) :
  is_u32 counter → length out = length out' →
  writes_only out len (Chacha20.chacha20_xor out inp len key nonce counter)
  ∧ writes_only out len
      (Chacha20Simd.chacha20_xor_interleaved4 out inp len key nonce counter)
  ∧ writes_only out len
      (Chacha20Simd.chacha20_xor_neon4 out inp len key nonce counter)
  ∧ writes_only out len
      (Chacha20Simd.chacha20_xor_best HAVE_NEON out inp len key nonce counter)
  ∧ (take len <$>
       Chacha20Simd.chacha20_xor_best HAVE_NEON out inp len key nonce counter)
    = (take len <$>
         Chacha20Simd.chacha20_xor_best HAVE_NEON out' inp len key nonce
           counter)
  ∧ (take len <$> Chacha20.chacha20_xor out inp len key nonce counter)
    = (take len <$> Chacha20.chacha20_xor out' inp len key nonce counter).
Proof.
  intros Hc Hlen. split; [|split; [|split; [|split; [|split]]]].
  - rewrite chacha20_xor_correct by done. apply xor_keystream_writes_only.
  - rewrite chacha20_xor_interleaved4_correct by done.
    apply xor_keystream_writes_only.
  - rewrite chacha20_xor_neon4_correct by done.
    apply xor_keystream_writes_only.
  - rewrite chacha20_xor_best_correct by done.
    apply xor_keystream_writes_only.
  - rewrite (chacha20_xor_best_correct _ out) by done.
    rewrite (chacha20_xor_best_correct _ out') by done.
    cbn [fmap option_fmap option_map].
    by rewrite (xor_keystream_take_ext out out').
  - rewrite (chacha20_xor_correct out), (chacha20_xor_correct out') by done.
    cbn [fmap option_fmap option_map].
    by rewrite (xor_keystream_take_ext out out').
Qed.

Lemma paths_write_only_len_bytes_witness :
  writes_only (replicate 100 7) 70
    (Chacha20.chacha20_xor (replicate 100 7) (replicate 70 1) 70
       rfc_key rfc_nonce 1).
Proof.
  refine (proj1 (paths_write_only_len_bytes true (replicate 100 7)
                   (replicate 100 9) (replicate 70 1) 70 rfc_key rfc_nonce 1
                   _ _)).
  - unfold is_u32. lia.
  - reflexivity.
Defined.

(** ** Two messages under one keystream *)

Lemma xor_same_key (p1 p2 k : Z) :
  is_u8 p1 → is_u8 p2 →
  Z.lxor (u8 (Z.lxor p1 k)) (u8 (Z.lxor p2 k)) = Z.lxor p1 p2.
Proof.
  intros H1 H2. rewrite !u8_lxor, (u8_id p1), (u8_id p2) by done.
  rewrite Z.lxor_assoc, (Z.lxor_comm p2), <- (Z.lxor_assoc (u8 k)),
    Z.lxor_nilpotent, Z.lxor_0_l.
  done.
Qed.

Lemma lookup_total_is_u8 (p : list Z) (i : nat) :
  Forall is_u8 p → is_u8 (p !!! i).
Proof.
  intros H. destruct (decide (i < length p)%nat).
  - by apply Forall_lookup_total_u8.
  - rewrite list_lookup_total_alt, lookup_ge_None_2 by lia.
    unfold is_u8. simpl. lia.
Qed.

(** X8: the keystream depends on key, nonce, counter and position only,
    not on the data.  When two inputs are transformed with the same key,
    nonce and counter, the XOR of the two outputs is, byte by byte, the XOR
    of the two inputs; so an output byte changes only when the input byte at
    its position does. *)
Theorem same_keystream_for_every_input (HAVE_NEON : bool)
    (out1 out2 P1 P2 : list Z) (len : nat) (key nonce : list Z)
    (counter : Z) :
  is_u32 counter → Forall is_u8 P1 → Forall is_u8 P2 →
  ∃ C1 C2,
    Chacha20Simd.chacha20_xor_best HAVE_NEON out1 P1 len key nonce counter
    = Some C1
    ∧ Chacha20Simd.chacha20_xor_best HAVE_NEON out2 P2 len key nonce counter
      = Some C2
    ∧ Chacha20.chacha20_xor out1 P1 len key nonce counter = Some C1
    ∧ Chacha20.chacha20_xor out2 P2 len key nonce counter = Some C2
    ∧ ∀ i, (i < len)%nat → (i < length out1)%nat → (i < length out2)%nat →
        Z.lxor (C1 !!! i) (C2 !!! i) = Z.lxor (P1 !!! i) (P2 !!! i).
Proof.
  intros Hc H1 H2.
  exists (xor_keystream out1 P1 len key nonce counter),
    (xor_keystream out2 P2 len key nonce counter).
  split; [by apply chacha20_xor_best_correct|].
  split; [by apply chacha20_xor_best_correct|].
  split; [by apply chacha20_xor_correct|].
  split; [by apply chacha20_xor_correct|].
  intros i Hi Hi1 Hi2.
  destruct (lookup_lt_is_Some_2 out1 i Hi1) as [o1 E1].
  destruct (lookup_lt_is_Some_2 out2 i Hi2) as [o2 E2].
  rewrite (list_lookup_total_correct
             (xor_keystream out1 P1 len key nonce counter) i
             (u8 (Z.lxor (P1 !!! i) (keystream_byte key nonce counter i)))).
  2:{ rewrite xor_keystream_lookup, E1. cbn [fmap option_fmap option_map].
      by rewrite decide_True by done. }
  rewrite (list_lookup_total_correct
             (xor_keystream out2 P2 len key nonce counter) i
             (u8 (Z.lxor (P2 !!! i) (keystream_byte key nonce counter i)))).
  2:{ rewrite xor_keystream_lookup, E2. cbn [fmap option_fmap option_map].
      by rewrite decide_True by done. }
  apply xor_same_key; by apply lookup_total_is_u8.
Qed.

Lemma same_keystream_for_every_input_witness :
  ∃ C1 C2,
    Chacha20Simd.chacha20_xor_best true (replicate 114 0) rfc_plaintext 114
      rfc_key rfc_nonce 1 = Some C1
    ∧ Chacha20Simd.chacha20_xor_best true (replicate 114 0)
        (replicate 114 32) 114 rfc_key rfc_nonce 1 = Some C2
    ∧ Chacha20.chacha20_xor (replicate 114 0) rfc_plaintext 114
        rfc_key rfc_nonce 1 = Some C1
    ∧ Chacha20.chacha20_xor (replicate 114 0) (replicate 114 32) 114
        rfc_key rfc_nonce 1 = Some C2
    ∧ ∀ i, (i < 114)%nat → (i < length (replicate 114 0))%nat →
        (i < length (replicate 114 0))%nat →
        Z.lxor (C1 !!! i) (C2 !!! i)
        = Z.lxor (rfc_plaintext !!! i) (replicate 114 32 !!! i).
Proof.
  apply (same_keystream_for_every_input true (replicate 114 0)
           (replicate 114 0) rfc_plaintext (replicate 114 32) 114
           rfc_key rfc_nonce 1).
  - unfold is_u32. lia.
  - apply (bool_decide_unpack _). vm_compute. exact I.
  - apply (bool_decide_unpack _). vm_compute. exact I.
Defined.

(** ** Starting in the middle *)

(** X9: the counter makes the transformation seekable.  A call on
    [64 * q + n] bytes does what two calls do: one on the first [64 * q]
    bytes, and one on the [n] bytes behind them, through the pointers
    [out + 64 * q] and [in + 64 * q], with the counter [counter + q] modulo
    2^32. *)
Theorem transform_in_two_calls (HAVE_NEON : bool) (out inp : list Z)
    (q n : nat) (key nonce : list Z) (counter : Z) :
  is_u32 counter →
  (∃ r1 r2,
     Chacha20Simd.chacha20_xor_best HAVE_NEON out inp (64 * q) key nonce
       counter = Some r1
     ∧ Chacha20Simd.chacha20_xor_best HAVE_NEON (drop (64 * q) r1)
         (drop (64 * q) inp) n key nonce (u32 (counter + Z.of_nat q))
       = Some r2
     ∧ Chacha20Simd.chacha20_xor_best HAVE_NEON out inp (64 * q + n) key
         nonce counter = Some (take (64 * q) r1 ++ r2))
  ∧ (∃ r1 r2,
       Chacha20.chacha20_xor out inp (64 * q) key nonce counter = Some r1
       ∧ Chacha20.chacha20_xor (drop (64 * q) r1) (drop (64 * q) inp) n
           key nonce (u32 (counter + Z.of_nat q)) = Some r2
       ∧ Chacha20.chacha20_xor out inp (64 * q + n) key nonce counter
         = Some (take (64 * q) r1 ++ r2)).
Proof.
  intros Hc.
  pose proof (u32_is_u32 (counter + Z.of_nat q)) as Hq.
  split;
    exists (xor_keystream out inp (64 * q) key nonce counter),
      (xor_keystream
         (drop (64 * q) (xor_keystream out inp (64 * q) key nonce counter))
         (drop (64 * q) inp) n key nonce (u32 (counter + Z.of_nat q))).
  - split; [by apply chacha20_xor_best_correct|].
    split; [by apply chacha20_xor_best_correct|].
    rewrite xor_keystream_split by done. by apply chacha20_xor_best_correct.
  - split; [by apply chacha20_xor_correct|].
    split; [by apply chacha20_xor_correct|].
    rewrite xor_keystream_split by done. by apply chacha20_xor_correct.
Qed.

Lemma transform_in_two_calls_witness :
  ∃ r1 r2,
    Chacha20.chacha20_xor (replicate 200 0) (replicate 200 1) (64 * 2)
      rfc_key rfc_nonce 0xFFFFFFFF = Some r1
    ∧ Chacha20.chacha20_xor (drop (64 * 2) r1)
        (drop (64 * 2) (replicate 200 1)) 72 rfc_key rfc_nonce
        (u32 (0xFFFFFFFF + Z.of_nat 2)) = Some r2
    ∧ Chacha20.chacha20_xor (replicate 200 0) (replicate 200 1)
        (64 * 2 + 72) rfc_key rfc_nonce 0xFFFFFFFF
      = Some (take (64 * 2) r1 ++ r2).
Proof.
  apply (transform_in_two_calls true (replicate 200 0) (replicate 200 1) 2 72
           rfc_key rfc_nonce 0xFFFFFFFF).
  unfold is_u32. lia.
Defined.

(** ** The output is the input XOR the blocks *)

Lemma keystream_block_length (key nonce : list Z) (counter : Z) :
  length (keystream_block key nonce counter) = 64%nat.
Proof.
  rewrite keystream_block_unfold, chacha20_block_length.
  apply length_replicate.
Qed.

Lemma keystream_S (key nonce : list Z) (counter : Z) (n : nat) :
  keystream key nonce counter (S n)
  = keystream key nonce counter n
    ++ keystream_block key nonce (u32 (counter + Z.of_nat n)).
Proof.
  unfold keystream. rewrite seq_S, fmap_app, join_app.
  cbn [fmap list_fmap mjoin list_join Nat.add]. rewrite app_nil_r.
  by rewrite keystream_block_unfold.
Qed.

Lemma keystream_length (key nonce : list Z) (counter : Z) (n : nat) :
  length (keystream key nonce counter n) = (64 * n)%nat.
Proof.
  induction n as [|n IH]; [done|].
  rewrite keystream_S, length_app, IH, keystream_block_length. lia.
Qed.

Lemma keystream_lookup (key nonce : list Z) (counter : Z) (n i : nat) :
  (i < 64 * n)%nat →
  keystream key nonce counter n !! i
  = Some (keystream_byte key nonce counter i).
Proof.
  induction n as [|n IH]; intros Hi; [lia|].
  rewrite keystream_S. destruct (decide (i < 64 * n)%nat).
  - rewrite lookup_app_l by (rewrite keystream_length; lia). by apply IH.
  - rewrite lookup_app_r, keystream_length by (rewrite keystream_length; lia).
    unfold keystream_byte.
    replace (i / 64)%nat with n by div_lia.
    replace (i mod 64)%nat with (i - 64 * n)%nat by div_lia.
    apply list_lookup_lookup_total_lt. rewrite keystream_block_length. lia.
Qed.

(** X10: what the transformation is.  The first [len] bytes that a path
    returns are the first [len] bytes of the input, each XOR-ed with the
    byte at its position in the keystream, and the keystream is the output
    of the block function for the counters [counter], [counter + 1], ...
    modulo 2^32, block after block. *)
Theorem output_is_input_xor_blocks (HAVE_NEON : bool) (out inp : list Z)
    (len : nat) (key nonce : list Z) (counter : Z) :
  is_u32 counter → (len ≤ length out)%nat → (len ≤ length inp)%nat →
  let xor_bytes :=
    zip_with (λ p k, u8 (Z.lxor p k)) (take len inp)
      (keystream key nonce counter ((len + 63) / 64)) in
  Chacha20Simd.chacha20_xor_best HAVE_NEON out inp len key nonce counter
  = Some (xor_bytes ++ drop len out)
  ∧ Chacha20.chacha20_xor out inp len key nonce counter
    = Some (xor_bytes ++ drop len out).
Proof.
  intros Hc Hout Hinp xor_bytes.
  assert (xor_keystream out inp len key nonce counter
          = xor_bytes ++ drop len out) as E.
  { rewrite <- (take_drop len (xor_keystream out inp len key nonce counter)).
    rewrite xor_keystream_drop. f_equal. subst xor_bytes.
    apply list_eq. intros j. rewrite lookup_take, lookup_zip_with.
    rewrite xor_keystream_lookup, lookup_take.
    case_decide as Hj.
    - destruct (lookup_lt_is_Some_2 out j ltac:(lia)) as [o ->].
      destruct (lookup_lt_is_Some_2 inp j ltac:(lia)) as [p Hp].
      rewrite Hp, keystream_lookup by div_lia.
      cbn [fmap option_fmap option_map mbind option_bind].
      by rewrite (list_lookup_total_correct _ _ _ Hp).
    - done. }
  split.
  - rewrite <- E. by apply chacha20_xor_best_correct.
  - rewrite <- E. by apply chacha20_xor_correct.
Qed.

Lemma output_is_input_xor_blocks_witness :
  Chacha20.chacha20_xor (replicate 120 7) rfc_plaintext 114
    rfc_key rfc_nonce 1
  = Some (zip_with (λ p k, u8 (Z.lxor p k)) (take 114 rfc_plaintext)
            (keystream rfc_key rfc_nonce 1 ((114 + 63) / 64))
          ++ drop 114 (replicate 120 7)).
Proof.
  refine (proj2 (output_is_input_xor_blocks true (replicate 120 7)
                   rfc_plaintext 114 rfc_key rfc_nonce 1 _ _ _)).
  - unfold is_u32. lia.
  - simpl. lia.
  - simpl. lia.
Defined.

(** ** Super-blocks *)

Lemma replicate_is_blocks4 : is_blocks4 (replicate 4 (replicate 64 0)).
Proof. split; [reflexivity | repeat constructor]. Qed.

(** The NEON loop and the interleaved loop go through the same states. *)
Lemma neon4_iter_interleaved4 (out inp : list Z) (len : nat)
    (key nonce : list Z) (counter : Z) (j : nat) :
  is_u32 counter →
  let start :=
    Chacha20Simd.LoopState (replicate 4 (replicate 64 0)) out len 0 counter in
  Nat.iter j (Chacha20Simd.neon4_body inp key nonce) start
  = Nat.iter j (Chacha20Simd.interleaved4_body inp key nonce) start
  ∧ is_blocks4
      (Chacha20Simd.ls_block
         (Nat.iter j (Chacha20Simd.interleaved4_body inp key nonce) start))
  ∧ is_u32
      (Chacha20Simd.ls_counter
         (Nat.iter j (Chacha20Simd.interleaved4_body inp key nonce) start)).
Proof.
  intros Hc start. induction j as [|j (IH & Hb & Hu)].
  - split; [done|]. split; [apply replicate_is_blocks4 | done].
  - rewrite !Nat.iter_succ, IH.
    rewrite neon4_body_spec, interleaved4_body_spec by done. cbv zeta.
    split; [done|]. cbn [Chacha20Simd.ls_block Chacha20Simd.ls_counter].
    split; [apply keystream4_is_blocks4 | apply u32_is_u32].
Qed.

(** X11: both four-block paths work in super-blocks of 256 bytes.  The
    main loop of [chacha20_xor_interleaved4] and the loop of
    [chacha20_xor_neon4] run [len / 256] iterations, no more and no fewer,
    and go through the same states: after [j] iterations the offset is
    [256 * j], the counter is [counter + 4 * j] modulo 2^32 and the first
    [256 * j] bytes are transformed.  The tail loop then runs
    [(len mod 256 + 63) / 64] iterations. *)
Theorem four_block_paths_structure (out inp : list Z) (len : nat)
    (key nonce : list Z) (counter : Z) :
  is_u32 counter →
  let n := (len / 256)%nat in
  let start :=
    Chacha20Simd.LoopState (replicate 4 (replicate 64 0)) out len 0 counter in
  let step := Chacha20Simd.interleaved4_body inp key nonce in
  (∀ fuel,
     while fuel Chacha20Simd.interleaved4_cond step start
     = if decide (n ≤ fuel)%nat then Some (Nat.iter n step start) else None)
  ∧ (∀ fuel,
       while fuel Chacha20Simd.neon4_cond
         (Chacha20Simd.neon4_body inp key nonce) start
       = if decide (n ≤ fuel)%nat then Some (Nat.iter n step start) else None)
  ∧ (∀ j, Nat.iter j (Chacha20Simd.neon4_body inp key nonce) start
          = Nat.iter j step start)
  ∧ (∀ j, (j ≤ n)%nat →
       let s := Nat.iter j step start in
       Chacha20Simd.ls_off s = (256 * j)%nat
       ∧ Chacha20Simd.ls_len s = (len - 256 * j)%nat
       ∧ Chacha20Simd.ls_counter s = u32 (counter + Z.of_nat (4 * j))
       ∧ Chacha20Simd.ls_out s
         = xor_keystream out inp (256 * j) key nonce counter)
  ∧ (∀ fuel,
       let s := Nat.iter n step start in
       let m := ((len mod 256 + 63) / 64)%nat in
       while fuel Chacha20Simd.tail_cond (Chacha20Simd.tail_body inp key nonce)
         s
       = if decide (m ≤ fuel)%nat
         then Some (Nat.iter m (Chacha20Simd.tail_body inp key nonce) s)
         else None).
Proof.
  intros Hc n start step.
  assert (∀ j, (j ≤ n)%nat →
            let s := Nat.iter j step start in
            Chacha20Simd.ls_off s = (256 * j)%nat
            ∧ Chacha20Simd.ls_len s = (len - 256 * j)%nat
            ∧ Chacha20Simd.ls_counter s = u32 (counter + Z.of_nat (4 * j))
            ∧ Chacha20Simd.ls_out s
              = xor_keystream out inp (256 * j) key nonce counter) as Hiter.
  { intros j Hj s.
    destruct (four_block_iter out inp len key nonce counter step
                (interleaved4_body_spec inp key nonce) Hc j)
      as (H1 & H2 & H3 & H4 & _); [subst n; div_lia|].
    done. }
  split; [|split; [|split; [|split]]].
  - intros fuel.
    apply (four_block_loop out inp len key nonce counter); [done| |done].
    apply interleaved4_body_spec.
  - intros fuel. subst step.
    destruct (neon4_iter_interleaved4 out inp len key nonce counter n Hc)
      as [E _].
    fold start in E. rewrite <- E.
    apply (four_block_loop out inp len key nonce counter
             Chacha20Simd.neon4_cond (Chacha20Simd.neon4_body inp key nonce));
      [done| |done].
    apply neon4_body_spec.
  - intros j. by apply neon4_iter_interleaved4.
  - done.
  - intros fuel s m.
    destruct (Hiter n ltac:(lia)) as (H1 & H2 & H3 & H4).
    fold s in H1, H2, H3, H4.
    replace m with ((Chacha20Simd.ls_len s + 63) / 64)%nat
      by (rewrite H2; subst m n; div_lia).
    apply (tail_loop out inp key nonce counter s (4 * n));
      [rewrite H1; lia | done | rewrite H4; f_equal; lia].
Qed.

Lemma four_block_paths_structure_witness :
  Nat.iter 2 (Chacha20Simd.neon4_body (replicate 600 1) rfc_key rfc_nonce)
    (Chacha20Simd.LoopState (replicate 4 (replicate 64 0))
       (replicate 600 0) 600 0 0xFFFFFFFE)
  = Nat.iter 2
      (Chacha20Simd.interleaved4_body (replicate 600 1) rfc_key rfc_nonce)
      (Chacha20Simd.LoopState (replicate 4 (replicate 64 0))
         (replicate 600 0) 600 0 0xFFFFFFFE).
Proof.
  refine (proj1 (proj2 (proj2
    (four_block_paths_structure (replicate 600 0) (replicate 600 1) 600
       rfc_key rfc_nonce 0xFFFFFFFE _))) 2%nat).
  unfold is_u32. lia.
Defined.

(** ** In-place calls *)

(** A loop with another body that does the same on every state the loop
    reaches. *)
Lemma while_body_ext {S : Type} (I : S → Prop) (cond : S → bool)
    (body body' : S → S) :
  (∀ s, I s → cond s = true → body' s = body s ∧ I (body s)) →
  ∀ fuel s, I s →
    while fuel cond body' s = while fuel cond body s
    ∧ ∀ s', while fuel cond body s = Some s' → I s'.
Proof.
  intros Hstep fuel. induction fuel as [|fuel IH]; intros s HI;
    cbn [while]; destruct (cond s) eqn:Hc.
  - done.
  - split; [done|]. by intros s' [= <-].
  - destruct (Hstep s HI Hc) as [-> HI']. by apply IH.
  - split; [done|]. by intros s' [= <-].
Qed.

(** The XOR loop that reads the buffer it writes: every byte is read before
    it is written. *)
Lemma xor_loop_in_place (buf inp blk : list Z) (off n : nat) :
  (∀ i, (i < n)%nat → buf !!! (off + i)%nat = inp !!! (off + i)%nat) →
  for_loop n
    (λ i out,
       <[(off + i)%nat :=
           u8 (Z.lxor (out !!! (off + i)%nat) (blk !!! i))]> out) buf
  = for_loop n
      (λ i out,
         <[(off + i)%nat :=
             u8 (Z.lxor (inp !!! (off + i)%nat) (blk !!! i))]> out) buf.
Proof.
  induction n as [|n IH]; intros H; [done|].
  rewrite !for_loop_S, IH by (intros i Hi; apply H; lia).
  do 3 f_equal. rewrite <- H by lia.
  rewrite !list_lookup_total_alt, xor_loop_lookup.
  destruct (buf !! (off + n)%nat); cbn [fmap option_fmap option_map];
    [|done].
  by rewrite decide_False by lia.
Qed.

Lemma xor_keystream_lookup_total_ge (out inp : list Z) (len : nat)
    (key nonce : list Z) (counter : Z) (j : nat) :
  (len ≤ j)%nat →
  xor_keystream out inp len key nonce counter !!! j = out !!! j.
Proof.
  intros Hj. rewrite !list_lookup_total_alt, xor_keystream_lookup.
  destruct (out !! j); cbn [fmap option_fmap option_map]; [|done].
  by rewrite decide_False by lia.
Qed.

Section in_place.
Variables (buf : list Z) (key nonce : list Z) (counter : Z).

(** One iteration of the scalar loop at a block boundary, in place. *)
Lemma in_place_chacha20_xor_body (s : Chacha20.loop_state) (q : nat) :
  Chacha20.ls_offset s = (64 * q)%nat →
  Chacha20.ls_out s = xor_keystream buf buf (64 * q) key nonce counter →
  InPlace.chacha20_xor_body s = Chacha20.chacha20_xor_body buf s.
Proof.
  intros Hoff Hout. unfold InPlace.chacha20_xor_body,
    Chacha20.chacha20_xor_body. cbv zeta.
  f_equal. apply xor_loop_in_place. intros i Hi.
  rewrite Hout, Hoff. apply xor_keystream_lookup_total_ge. lia.
Qed.

Lemma scalar_at_boundary_step (s : Chacha20.loop_state) :
  scalar_at_boundary buf key nonce counter s →
  Chacha20.chacha20_xor_cond s = true →
  InPlace.chacha20_xor_body s = Chacha20.chacha20_xor_body buf s
  ∧ scalar_at_boundary buf key nonce counter
      (Chacha20.chacha20_xor_body buf s).
Proof.
  intros HI Hc. apply Nat.ltb_lt in Hc.
  destruct (HI Hc) as (q & Hoff & Hst & Hout & Hblk).
  split; [by apply (in_place_chacha20_xor_body s q)|].
  rewrite (chacha20_xor_body_step buf buf key nonce counter s q) by done.
  intros Hlen. cbn [Chacha20.ls_len] in Hlen. exists (S q).
  cbn [Chacha20.ls_offset Chacha20.ls_state Chacha20.ls_out
    Chacha20.ls_block].
  replace (64 * q + Chacha20.ls_len s `min` 64)%nat with (64 * S q)%nat
    by lia.
  split; [done|]. split; [done|]. split; [done|].
  rewrite keystream_block_unfold, chacha20_block_length.
  apply length_replicate.
Qed.

Lemma simd_at_superblock_body (s : Chacha20Simd.loop_state) :
  simd_at_superblock buf key nonce counter s →
  Chacha20Simd.interleaved4_body buf key nonce s
  = (let ks := keystream4 key nonce (Chacha20Simd.ls_counter s) in
     Chacha20Simd.LoopState ks
       (Chacha20Simd.xor4 (Chacha20Simd.ls_out s) buf (Chacha20Simd.ls_off s)
          ks)
       (Chacha20Simd.ls_len s - 256)
       (Chacha20Simd.ls_off s + 256)
       (u32 (Chacha20Simd.ls_counter s + 4)))
  ∧ simd_at_superblock buf key nonce counter
      (Chacha20Simd.interleaved4_body buf key nonce s).
Proof.
  intros (q & Hoff & Hctr & Hout & Hblk).
  assert (is_u32 (Chacha20Simd.ls_counter s)) as Hu
    by (rewrite Hctr; apply u32_is_u32).
  rewrite interleaved4_body_spec by done. split; [done|]. cbv zeta.
  exists (S q). cbn [Chacha20Simd.ls_off Chacha20Simd.ls_counter
    Chacha20Simd.ls_out Chacha20Simd.ls_block].
  rewrite Hoff, Hctr, Hout, xor4_keystream, u32_add_u32_l.
  split; [lia|]. split; [f_equal; lia|]. split; [f_equal; lia|].
  apply keystream4_is_blocks4.
Qed.

(** The two nested XOR loops, in place. *)
Lemma xor4_in_place (out : list Z) (off : nat) (block : list (list Z)) :
  (∀ i, (off ≤ i)%nat → out !!! i = buf !!! i) →
  InPlace.xor4 out off block = Chacha20Simd.xor4 out buf off block.
Proof.
  intros H. unfold InPlace.xor4, Chacha20Simd.xor4. rewrite !for_loop_4.
  assert (∀ (o : list Z) (k : nat),
            (∀ i, (off + k * 64 ≤ i)%nat → o !!! i = buf !!! i) →
            for_loop 64
              (λ i out,
                 <[(off + k * 64 + i)%nat :=
                     u8 (Z.lxor (out !!! (off + k * 64 + i)%nat)
                                ((block !!! k) !!! i))]> out) o
            = for_loop 64
                (λ i out,
                   <[(off + k * 64 + i)%nat :=
                       u8 (Z.lxor (buf !!! (off + k * 64 + i)%nat)
                                  ((block !!! k) !!! i))]> out) o
            ∧ ∀ i, (off + S k * 64 ≤ i)%nat →
                for_loop 64
                  (λ i out,
                     <[(off + k * 64 + i)%nat :=
                         u8 (Z.lxor (buf !!! (off + k * 64 + i)%nat)
                                    ((block !!! k) !!! i))]> out) o !!! i
                = buf !!! i) as Hk.
  { intros o k Ho. split.
    - apply xor_loop_in_place. intros i Hi. apply Ho. lia.
    - intros i Hi. rewrite <- Ho by lia.
      rewrite !list_lookup_total_alt, xor_loop_lookup.
      destruct (o !! i); cbn [fmap option_fmap option_map]; [|done].
      by rewrite decide_False by lia. }
  destruct (Hk out 0%nat) as [-> H1]; [intros i Hi; apply H; lia|].
  destruct (Hk _ 1%nat H1) as [-> H2].
  destruct (Hk _ 2%nat H2) as [-> H3].
  destruct (Hk _ 3%nat H3) as [-> _].
  reflexivity.
Qed.

Lemma simd_at_superblock_agrees (s : Chacha20Simd.loop_state) :
  simd_at_superblock buf key nonce counter s →
  ∀ i, (Chacha20Simd.ls_off s ≤ i)%nat →
    Chacha20Simd.ls_out s !!! i = buf !!! i.
Proof.
  intros (q & Hoff & _ & Hout & _) i Hi. rewrite Hout.
  apply xor_keystream_lookup_total_ge. lia.
Qed.

Lemma simd_at_superblock_step (s : Chacha20Simd.loop_state) :
  simd_at_superblock buf key nonce counter s →
  InPlace.interleaved4_body key nonce s
  = Chacha20Simd.interleaved4_body buf key nonce s
  ∧ simd_at_superblock buf key nonce counter
      (Chacha20Simd.interleaved4_body buf key nonce s).
Proof.
  intros HI. split; [|by apply simd_at_superblock_body].
  unfold InPlace.interleaved4_body, Chacha20Simd.interleaved4_body.
  cbv zeta. f_equal. apply xor4_in_place.
  by apply simd_at_superblock_agrees.
Qed.

Lemma simd_at_superblock_neon_step (s : Chacha20Simd.loop_state) :
  simd_at_superblock buf key nonce counter s →
  InPlace.neon4_body key nonce s = Chacha20Simd.neon4_body buf key nonce s
  ∧ simd_at_superblock buf key nonce counter
      (Chacha20Simd.neon4_body buf key nonce s).
Proof.
  intros HI. split.
  - unfold InPlace.neon4_body, Chacha20Simd.neon4_body. cbv zeta. f_equal.
    apply xor4_in_place. by apply simd_at_superblock_agrees.
  - destruct (simd_at_superblock_body s HI) as [E HI'].
    destruct HI as (q & Hoff & Hctr & Hout & Hblk).
    rewrite neon4_body_spec, <- E;
      [done | done | rewrite Hctr; apply u32_is_u32].
Qed.

Lemma simd_at_boundary_step (s : Chacha20Simd.loop_state) :
  simd_at_boundary buf key nonce counter s →
  Chacha20Simd.tail_cond s = true →
  InPlace.tail_body key nonce s = Chacha20Simd.tail_body buf key nonce s
  ∧ simd_at_boundary buf key nonce counter
      (Chacha20Simd.tail_body buf key nonce s).
Proof.
  intros HI Hc. apply Nat.ltb_lt in Hc.
  destruct (HI Hc) as (q & Hoff & Hctr & Hout). split.
  - unfold InPlace.tail_body, Chacha20Simd.tail_body. cbv zeta. f_equal.
    apply xor_loop_in_place. intros i Hi.
    rewrite Hout, Hoff. apply xor_keystream_lookup_total_ge. lia.
  - rewrite (tail_body_step buf buf key nonce counter s q) by done.
    intros Hlen. cbn [Chacha20Simd.ls_len] in Hlen. exists (S q).
    cbn [Chacha20Simd.ls_off Chacha20Simd.ls_counter Chacha20Simd.ls_out].
    replace (64 * q + Chacha20Simd.ls_len s `min` 64)%nat with (64 * S q)%nat
      by lia.
    done.
Qed.
End in_place.

(** The scalar path in place. *)
Lemma in_place_chacha20_xor (buf : list Z) (len : nat) (key nonce : list Z)
    (counter : Z) :
  is_u32 counter →
  InPlace.chacha20_xor buf len key nonce counter
  = Chacha20.chacha20_xor buf buf len key nonce counter.
Proof.
  intros Hc. unfold InPlace.chacha20_xor, Chacha20.chacha20_xor,
    Chacha20.chacha20_xor_loop.
  destruct (while_body_ext (scalar_at_boundary buf key nonce counter)
              Chacha20.chacha20_xor_cond (Chacha20.chacha20_xor_body buf)
              InPlace.chacha20_xor_body
              (scalar_at_boundary_step buf key nonce counter) len
              (Chacha20.chacha20_xor_init buf len key nonce counter))
    as [-> _]; [|done].
  intros _. exists 0%nat.
  cbn [Chacha20.chacha20_xor_init Chacha20.ls_offset Chacha20.ls_state
    Chacha20.ls_out Chacha20.ls_block].
  rewrite xor_keystream_0, Z.add_0_r, u32_id by done.
  split; [done|]. split; [done|]. split; [done|]. apply length_replicate.
Qed.

Lemma simd_start_at_superblock (buf : list Z) (len : nat) (key nonce : list Z)
    (counter : Z) :
  is_u32 counter →
  simd_at_superblock buf key nonce counter
    (Chacha20Simd.LoopState (replicate 4 (replicate 64 0)) buf len 0 counter).
Proof.
  intros Hc. exists 0%nat.
  cbn [Chacha20Simd.ls_off Chacha20Simd.ls_counter Chacha20Simd.ls_out
    Chacha20Simd.ls_block].
  rewrite xor_keystream_0, Z.add_0_r, u32_id by done.
  split; [done|]. split; [done|]. split; [done|]. apply replicate_is_blocks4.
Qed.

Lemma simd_superblock_boundary (buf key nonce : list Z) (counter : Z)
    (s : Chacha20Simd.loop_state) :
  simd_at_superblock buf key nonce counter s →
  simd_at_boundary buf key nonce counter s.
Proof.
  intros (q & Hoff & Hctr & Hout & _) _. exists (4 * q)%nat.
  split; [lia|]. split; [done|]. rewrite Hout. f_equal. lia.
Qed.

(** The interleaved-4 path in place. *)
Lemma in_place_chacha20_xor_interleaved4 (buf : list Z) (len : nat)
    (key nonce : list Z) (counter : Z) :
  is_u32 counter →
  InPlace.chacha20_xor_interleaved4 buf len key nonce counter
  = Chacha20Simd.chacha20_xor_interleaved4 buf buf len key nonce counter.
Proof.
  intros Hc. unfold InPlace.chacha20_xor_interleaved4,
    Chacha20Simd.chacha20_xor_interleaved4.
  destruct (while_body_ext (simd_at_superblock buf key nonce counter)
              Chacha20Simd.interleaved4_cond
              (Chacha20Simd.interleaved4_body buf key nonce)
              (InPlace.interleaved4_body key nonce)
              (λ s HI _, simd_at_superblock_step buf key nonce counter s HI)
              len
              (Chacha20Simd.LoopState (replicate 4 (replicate 64 0)) buf len
                 0 counter))
    as [-> Hexit]; [by apply simd_start_at_superblock|].
  destruct (while len Chacha20Simd.interleaved4_cond _ _) as [s1|];
    cbn [mbind option_bind]; [|done].
  destruct (while_body_ext (simd_at_boundary buf key nonce counter)
              Chacha20Simd.tail_cond (Chacha20Simd.tail_body buf key nonce)
              (InPlace.tail_body key nonce)
              (simd_at_boundary_step buf key nonce counter)
              (Chacha20Simd.ls_len s1) s1) as [-> _]; [|done].
  apply simd_superblock_boundary. by apply Hexit.
Qed.

(** The NEON path in place. *)
Lemma in_place_chacha20_xor_neon4 (buf : list Z) (len : nat)
    (key nonce : list Z) (counter : Z) :
  is_u32 counter →
  InPlace.chacha20_xor_neon4 buf len key nonce counter
  = Chacha20Simd.chacha20_xor_neon4 buf buf len key nonce counter.
Proof.
  intros Hc. unfold InPlace.chacha20_xor_neon4,
    Chacha20Simd.chacha20_xor_neon4.
  destruct (while_body_ext (simd_at_superblock buf key nonce counter)
              Chacha20Simd.neon4_cond
              (Chacha20Simd.neon4_body buf key nonce)
              (InPlace.neon4_body key nonce)
              (λ s HI _,
                 simd_at_superblock_neon_step buf key nonce counter s HI)
              len
              (Chacha20Simd.LoopState (replicate 4 (replicate 64 0)) buf len
                 0 counter))
    as [-> Hexit]; [by apply simd_start_at_superblock|].
  destruct (while len Chacha20Simd.neon4_cond _ _) as [s1|];
    cbn [mbind option_bind]; [|done].
  destruct (Hexit s1 eq_refl) as (q & Hoff & Hctr & Hout & _).
  destruct (0 <? Chacha20Simd.ls_len s1)%nat; [|done].
  rewrite in_place_chacha20_xor_interleaved4
    by (rewrite Hctr; apply u32_is_u32).
  assert (drop (Chacha20Simd.ls_off s1) (Chacha20Simd.ls_out s1)
          = drop (Chacha20Simd.ls_off s1) buf) as ->
    by (rewrite Hout, Hoff; apply xor_keystream_drop).
  done.
Qed.

(** X12: a call may pass the same buffer as [out] and [in].  Every path
    then returns what it returns for a separate copy of the input: each byte
    is read before it is overwritten, and no later read goes back to a byte
    that was written. *)
Theorem in_place_call_gives_the_same_bytes (HAVE_NEON : bool)
    (buf : list Z) (len : nat) (key nonce : list Z) (counter : Z) :
  is_u32 counter →
  InPlace.chacha20_xor buf len key nonce counter
  = Chacha20.chacha20_xor buf buf len key nonce counter
  ∧ InPlace.chacha20_xor_interleaved4 buf len key nonce counter
    = Chacha20Simd.chacha20_xor_interleaved4 buf buf len key nonce counter
  ∧ InPlace.chacha20_xor_neon4 buf len key nonce counter
    = Chacha20Simd.chacha20_xor_neon4 buf buf len key nonce counter
  ∧ InPlace.chacha20_xor_best HAVE_NEON buf len key nonce counter
    = Chacha20Simd.chacha20_xor_best HAVE_NEON buf buf len key nonce counter
  ∧ InPlace.chacha20_xor_best HAVE_NEON buf len key nonce counter
    = Some (xor_keystream buf buf len key nonce counter).
Proof.
  intros Hc.
  assert (InPlace.chacha20_xor_best HAVE_NEON buf len key nonce counter
          = Chacha20Simd.chacha20_xor_best HAVE_NEON buf buf len key nonce
              counter) as E.
  { destruct HAVE_NEON;
      cbn [InPlace.chacha20_xor_best Chacha20Simd.chacha20_xor_best].
    - by apply in_place_chacha20_xor_neon4.
    - by apply in_place_chacha20_xor_interleaved4. }
  split; [by apply in_place_chacha20_xor|].
  split; [by apply in_place_chacha20_xor_interleaved4|].
  split; [by apply in_place_chacha20_xor_neon4|].
  split; [done|]. rewrite E. by apply chacha20_xor_best_correct.
Qed.

Lemma in_place_call_gives_the_same_bytes_witness :
  InPlace.chacha20_xor rfc_plaintext 114 rfc_key rfc_nonce 1
  = Chacha20.chacha20_xor rfc_plaintext rfc_plaintext 114 rfc_key rfc_nonce 1.
Proof.
  refine (proj1 (in_place_call_gives_the_same_bytes true rfc_plaintext 114
                   rfc_key rfc_nonce 1 _)).
  unfold is_u32. lia.
Defined.

(** ** The printed line *)

Lemma hex_bytes_printf_02x (b : Z) (rest : list ascii) :
  is_u8 b → hex_bytes (ChachaMain.printf_02x b ++ rest) = b :: hex_bytes rest.
Proof.
  intros Hb. unfold is_u8 in Hb.
  assert (∀ n, 0 ≤ n < 16 →
            (let m := Z.of_N (N_of_ascii (ChachaMain.hex_digit n)) in
             if m <? 58 then m - 48 else m - 87) = n) as Hdigit.
  { intros n Hn.
    assert (n = 0 ∨ n = 1 ∨ n = 2 ∨ n = 3 ∨ n = 4 ∨ n = 5 ∨ n = 6 ∨ n = 7
            ∨ n = 8 ∨ n = 9 ∨ n = 10 ∨ n = 11 ∨ n = 12 ∨ n = 13 ∨ n = 14
            ∨ n = 15) as Hcases by lia.
    repeat (destruct Hcases as [->|Hcases]; [reflexivity|]).
    subst. reflexivity. }
  unfold ChachaMain.printf_02x. cbn [app hex_bytes].
  cbv zeta in Hdigit. rewrite !Hdigit by (Z.to_euclidean_division_equations; lia).
  f_equal. Z.to_euclidean_division_equations. lia.
Qed.

Lemma print_hex_app (stdout : list ascii) (out : list Z) (len : nat) :
  ChachaMain.print_hex stdout out len
  = stdout ++ ChachaMain.print_hex [] out len.
Proof.
  unfold ChachaMain.print_hex. induction len as [|len IH].
  - by rewrite !for_loop_0, app_nil_r.
  - rewrite !for_loop_S, IH. by rewrite app_assoc.
Qed.

Lemma print_hex_take (out : list Z) (len : nat) :
  (len ≤ length out)%nat →
  ChachaMain.print_hex [] out len
  = mjoin (ChachaMain.printf_02x <$> take len out).
Proof.
  unfold ChachaMain.print_hex. induction len as [|len IH]; intros Hlen.
  - by rewrite for_loop_0, take_0.
  - rewrite for_loop_S, IH by lia.
    destruct (lookup_lt_is_Some_2 out len ltac:(lia)) as [b Hb].
    rewrite (take_S_r _ _ _ Hb), fmap_app, join_app.
    cbn [fmap list_fmap mjoin list_join]. rewrite app_nil_r.
    by rewrite (list_lookup_total_correct _ _ _ Hb).
Qed.

Lemma hex_bytes_join_printf (bs : list Z) (rest : list ascii) :
  Forall is_u8 bs →
  hex_bytes (mjoin (ChachaMain.printf_02x <$> bs) ++ rest)
  = bs ++ hex_bytes rest.
Proof.
  induction 1 as [|b bs Hb _ IH]; [done|].
  cbn [fmap list_fmap mjoin list_join] in *. rewrite <- app_assoc.
  rewrite hex_bytes_printf_02x by done. cbn [app]. f_equal. exact IH.
Qed.

(** X13: the line that [main]'s loop prints holds the bytes.  For [len]
    bytes it is [2 * len] characters long, and reading the characters back
    two hexadecimal digits at a time gives the [len] bytes again; so
    different buffers print different lines. *)
Theorem print_hex_round_trip (out : list Z) (len : nat) :
  (len ≤ length out)%nat → Forall is_u8 out →
  length (ChachaMain.print_hex [] out len) = (2 * len)%nat
  ∧ hex_bytes (ChachaMain.print_hex [] out len) = take len out
  ∧ ∀ out', (len ≤ length out')%nat → Forall is_u8 out' →
      ChachaMain.print_hex [] out len = ChachaMain.print_hex [] out' len →
      take len out = take len out'.
Proof.
  intros Hlen Hout.
  assert (∀ o, (len ≤ length o)%nat → Forall is_u8 o →
            hex_bytes (ChachaMain.print_hex [] o len) = take len o) as Hrt.
  { intros o Ho Hu. rewrite print_hex_take by done.
    rewrite <- (app_nil_r (mjoin _)), hex_bytes_join_printf
      by by apply Forall_take.
    cbn [hex_bytes]. by rewrite app_nil_r. }
  split; [|split; [by apply Hrt|]].
  - rewrite print_hex_take by done. clear Hout.
    assert (length (take len out) = len) as Hl by (rewrite length_take; lia).
    revert Hl. generalize (take len out). clear Hlen Hrt. intros l <-.
    induction l as [|b l IH]; [done|].
    change (length (mjoin (ChachaMain.printf_02x <$> b :: l)))
      with (S (S (length (mjoin (ChachaMain.printf_02x <$> l))))).
    rewrite IH. cbn [length]. lia.
  - intros out' Hlen' Hout' E.
    rewrite <- (Hrt out), <- (Hrt out') by done. by rewrite E.
Qed.

Lemma print_hex_round_trip_witness :
  hex_bytes (ChachaMain.print_hex [] rfc_ciphertext 114)
  = take 114 rfc_ciphertext.
Proof.
  refine (proj1 (proj2 (print_hex_round_trip rfc_ciphertext 114 _ _))).
  - apply (bool_decide_unpack _). vm_compute. exact I.
  - apply (bool_decide_unpack _). vm_compute. exact I.
Defined.

(** The program: [main] returns 0 and prints one line, 82
    hexadecimal digits and a newline, the same whether the NEON path is
    compiled in or not; the digits read back as bytes and transformed with
    the program's key, nonce and counter are the message that [main]
    encrypts. *)
Example main_prints_the_ciphertext (HAVE_NEON : bool) :
  let line :=
    list_ascii_of_string
      "dc759ece213e5f08f9caff05534c6669eb5c4cc33d910c1d6be61a5342821f804cd95517e88f212df4"
  in
  ChachaMain.main HAVE_NEON = Some (line ++ ["010"%char], 0)
  ∧ length line = 82%nat
  ∧ Chacha20Simd.chacha20_xor_best HAVE_NEON (replicate 41 0)
      (hex_bytes line) 41 (replicate 32 0) (replicate 12 0) 1
    = Some (cstr "Cryptography and Security Implementation!").
Proof.
  destruct HAVE_NEON; (split; [|split]); vm_compute; reflexivity.
Qed.
